(** * College election site: the election lifecycle and vote-integrity engine

    A shallow embedding of the Express/Mongoose handlers that accept votes,
    create and update elections, toggle QR access and tally results
    (models/Election.js, the student, teacher, admin and public-voting
    controllers), followed by the properties established about them.

    Conventions of the embedding.
    - An [ObjectId] is the 96-bit number behind a Mongo id.  The source
      compares ids through [toString()], the injective 24-digit hex
      rendering, so comparing renderings is comparing the numbers; a rendering
      is never empty (an id is always truthy), never an array index and never
      a name on [Object.prototype].  Request ids are taken as already parsed.
    - A [Date] is its time value in milliseconds, a [Z].  A date parsed from a
      request body may be the invalid date, see [JsDate].
    - A collection is the list of its documents in natural order; [findOne]
      returns the first document that matches, [save] rewrites the first
      document carrying the same [_id] (or appends a new one).
    - Every request is served at one clock reading [now]: each [new Date()]
      and [Date.now()] evaluated while serving it returns [now].
    - Documents read back from a collection passed schema validation when they
      were written, so validators are run on the paths a handler assigns.
    - A string holds the UTF-8 encoding of the JavaScript string.  A body
      field is the value the handler tests: an optional string where the
      handler is given one by the forms, a [BodyValue] for the roll number of
      a public vote, which is compared and stored as it arrives.
    - Audit-log entries, flash-message plumbing, mail and the [createdAt] /
      [updatedAt] stamps touch nothing that the handlers below read; they are
      left out of the state.  An audit write shows in the answer where it is
      made with [SystemLog.create] itself, whose rejection reaches the error
      handler; [SystemLog.createLog] swallows it. *)

From Stdlib Require Import List ZArith NArith Bool String Ascii Lia Arith.
From Stdlib Require Import DecimalString.
Import ListNotations.

Local Open Scope string_scope.
Local Open Scope Z_scope.

(** ** Values *)

Definition ObjectId := N.
Definition Date := Z.

Definition oid_eqb (a b : ObjectId) : bool := N.eqb a b.

(** [new Date(s)] for a request string: a time value, or the invalid date
    whose comparisons are all false. *)
Inductive JsDate :=
| ValidDate (t : Z)
| InvalidDate.

Definition date_lt (a b : JsDate) : bool :=
  match a, b with
  | ValidDate x, ValidDate y => x <? y
  | _, _ => false
  end.

Definition date_le (a b : JsDate) : bool :=
  match a, b with
  | ValidDate x, ValidDate y => x <=? y
  | _, _ => false
  end.

(** JavaScript truthiness of an optional string field of a request body. *)
Definition truthy (s : option string) : bool :=
  match s with
  | Some s => negb (String.eqb s "")
  | None => false
  end.

(** [s === lit] for an optional string. *)
Definition str_is (s : option string) (lit : string) : bool :=
  match s with
  | Some s => String.eqb s lit
  | None => false
  end.

Definition is_some {A} (o : option A) : bool :=
  match o with Some _ => true | None => false end.

(** A field of [req.body] as the JSON and urlencoded parsers hand it to a
    handler that reads it without a check of its type.  A number comes with
    what [toString] gives for it; an array or object with what the String
    type of a schema casts it to, if it casts it at all. *)
Inductive BodyValue :=
| Missing                                        (* undefined or null *)
| Text (s : string)
| Number (isZero : bool) (text : string)
| Boolean (b : bool)
| Composite (cast : option string).

(** JavaScript truthiness. *)
Definition truthyValue (v : BodyValue) : bool :=
  match v with
  | Missing => false
  | Text s => negb (String.eqb s "")
  | Number isZero _ => negb isZero
  | Boolean b => b
  | Composite _ => true
  end.

(** [stored === v] for a stored string: only a string is identical to it. *)
Definition identical (stored : string) (v : BodyValue) : bool :=
  match v with
  | Text s => String.eqb stored s
  | _ => false
  end.

(** What a path of type String makes of an assigned value; [None] is a cast
    error, which [save] reports. *)
Definition castString (v : BodyValue) : option string :=
  match v with
  | Missing => None
  | Text s => Some s
  | Number _ text => Some text
  | Boolean b => Some (if b then "true" else "false")
  | Composite cast => cast
  end.

(** ** Schemas *)

Inductive Status := pending | active | completed | cancelled.

Definition status_eqb (a b : Status) : bool :=
  match a, b with
  | pending, pending | active, active
  | completed, completed | cancelled, cancelled => true
  | _, _ => false
  end.

Definition status_name (s : Status) : string :=
  match s with
  | pending => "pending"
  | active => "active"
  | completed => "completed"
  | cancelled => "cancelled"
  end.

(** [['pending','active','completed','cancelled'].includes(status)], with the
    member found. *)
Definition status_of_string (s : option string) : option Status :=
  if str_is s "pending" then Some pending
  else if str_is s "active" then Some active
  else if str_is s "completed" then Some completed
  else if str_is s "cancelled" then Some cancelled
  else None.

Module Role.
Inductive t := admin | teacher | student.
End Role.

Module Vote.
Record t := mk {
  student : ObjectId;
  candidate : ObjectId;
  timestamp : Date
}.
End Vote.

Module AnonymousVote.
Record t := mk {
  rollNumber : string;
  candidate : ObjectId;
  ipAddress : string;
  userAgent : string;
  timestamp : Date
}.
End AnonymousVote.

Module TimeSlot.
Record t := mk {
  startTime : Date;
  endTime : Date;
  isActive : bool
}.
End TimeSlot.

Module QrCode.
Record t := mk {
  data : option string;
  accessToken : option string;
  isEnabled : bool
}.
End QrCode.

Module PublicAccess.
Record t := mk {
  allowAnonymousVoting : bool;
  requireRollNumber : bool;
  votingTimeSlots : list TimeSlot.t
}.
End PublicAccess.

Module Results.
Record t := mk {
  published : bool;
  publishedAt : option Date;
  winner : option ObjectId
}.
End Results.

Module Election.
Record t := mk {
  _id : ObjectId;
  title : string;
  description : string;
  electionType : string;
  class : ObjectId;
  startDate : Date;
  endDate : Date;
  candidates : list ObjectId;
  qrCode : QrCode.t;
  publicAccess : PublicAccess.t;
  anonymousVotes : list AnonymousVote.t;
  votes : list Vote.t;
  status : Status;
  createdBy : ObjectId;
  results : Results.t
}.

Definition set_title (x : string) (e : t) : t :=
    mk (_id e) x (description e) (electionType e) (class e) (startDate e)
       (endDate e) (candidates e) (qrCode e) (publicAccess e)
       (anonymousVotes e) (votes e) (status e) (createdBy e) (results e).
Definition set_description (x : string) (e : t) : t :=
    mk (_id e) (title e) x (electionType e) (class e) (startDate e)
       (endDate e) (candidates e) (qrCode e) (publicAccess e)
       (anonymousVotes e) (votes e) (status e) (createdBy e) (results e).
Definition set_startDate (x : Date) (e : t) : t :=
    mk (_id e) (title e) (description e) (electionType e) (class e) x
       (endDate e) (candidates e) (qrCode e) (publicAccess e)
       (anonymousVotes e) (votes e) (status e) (createdBy e) (results e).
Definition set_endDate (x : Date) (e : t) : t :=
    mk (_id e) (title e) (description e) (electionType e) (class e)
       (startDate e) x (candidates e) (qrCode e) (publicAccess e)
       (anonymousVotes e) (votes e) (status e) (createdBy e) (results e).
Definition set_candidates (x : list ObjectId) (e : t) : t :=
    mk (_id e) (title e) (description e) (electionType e) (class e)
       (startDate e) (endDate e) x (qrCode e) (publicAccess e)
       (anonymousVotes e) (votes e) (status e) (createdBy e) (results e).
Definition set_qrCode (x : QrCode.t) (e : t) : t :=
    mk (_id e) (title e) (description e) (electionType e) (class e)
       (startDate e) (endDate e) (candidates e) x (publicAccess e)
       (anonymousVotes e) (votes e) (status e) (createdBy e) (results e).
Definition set_anonymousVotes (x : list AnonymousVote.t) (e : t) : t :=
    mk (_id e) (title e) (description e) (electionType e) (class e)
       (startDate e) (endDate e) (candidates e) (qrCode e) (publicAccess e)
       x (votes e) (status e) (createdBy e) (results e).
Definition set_votes (x : list Vote.t) (e : t) : t :=
    mk (_id e) (title e) (description e) (electionType e) (class e)
       (startDate e) (endDate e) (candidates e) (qrCode e) (publicAccess e)
       (anonymousVotes e) x (status e) (createdBy e) (results e).
Definition set_status (x : Status) (e : t) : t :=
    mk (_id e) (title e) (description e) (electionType e) (class e)
       (startDate e) (endDate e) (candidates e) (qrCode e) (publicAccess e)
       (anonymousVotes e) (votes e) x (createdBy e) (results e).
Definition set_results (x : Results.t) (e : t) : t :=
    mk (_id e) (title e) (description e) (electionType e) (class e)
       (startDate e) (endDate e) (candidates e) (qrCode e) (publicAccess e)
       (anonymousVotes e) (votes e) (status e) (createdBy e) x.
End Election.

Module Candidate.
Record t := mk {
  _id : ObjectId;
  student : ObjectId;
  election : ObjectId;
  approved : bool;
  active : bool
}.
End Candidate.

Module User.
Record t := mk {
  _id : ObjectId;
  name : string;
  role : Role.t;
  class : option ObjectId;
  rollNumber : option string;
  active : bool
}.
End User.

Module Class.
Record t := mk {
  _id : ObjectId;
  classTeacher : option ObjectId;
  active : bool
}.
End Class.

(** The database: one list per collection. *)
Record DB := mkDB {
  users : list User.t;
  classes : list Class.t;
  elections : list Election.t;
  candidates : list Candidate.t
}.

Definition with_elections (es : list Election.t) (db : DB) : DB :=
  mkDB (users db) (classes db) es (candidates db).

Definition with_candidates (cs : list Candidate.t) (db : DB) : DB :=
  mkDB (users db) (classes db) (elections db) cs.

(** ** Collection primitives *)

(** [Election.findById(id)]. *)
Definition findElection (db : DB) (id : ObjectId) : option Election.t :=
  find (fun e => oid_eqb (Election._id e) id) (elections db).

(** Rewrite the first document whose [_id] is that of [e]. *)
Fixpoint replaceFirst (e : Election.t) (es : list Election.t)
  : list Election.t :=
  match es with
  | [] => []
  | x :: rest =>
      if oid_eqb (Election._id x) (Election._id e) then e :: rest
      else x :: replaceFirst e rest
  end.

(** [election.save()] for a document read from the collection, after the
    validation of the assigned paths, which the handlers model where a path
    can fail it.  Every handler saves a document it has just read; [save] of
    a document deleted in between rejects, which takes a concurrent request
    and is not modelled. *)
Definition saveElection (db : DB) (e : Election.t) : DB :=
  with_elections (replaceFirst e (elections db)) db.

(** ** models/Election.js *)

(** The [isActive] virtual. *)
Definition isActive (this : Election.t) (now : Date) : bool :=
  (Election.startDate this <=? now) && (now <=? Election.endDate this)
  && status_eqb (Election.status this) active.

(** [hasVoted(studentId, rollNumber = null)]. *)
Definition hasVoted (this : Election.t) (studentId : option ObjectId)
    (rollNumber : BodyValue) : bool :=
  let hasRegisteredVote :=
    match studentId with
    | Some sid =>
        existsb (fun vote => oid_eqb (Vote.student vote) sid)
                (Election.votes this)
    | None => false
    end in
  if hasRegisteredVote then true
  else
    let hasAnonymousVote :=
      if truthyValue rollNumber then
        existsb (fun vote => identical (AnonymousVote.rollNumber vote)
                                       rollNumber)
                (Election.anonymousVotes this)
      else false in
    if hasAnonymousVote then true else false.

(** [isVotingAllowed()]. *)
Definition isVotingAllowed (this : Election.t) (now : Date) : bool :=
  if negb (isActive this now) then false
  else if negb (PublicAccess.allowAnonymousVoting (Election.publicAccess this))
  then false
  else
    let slots := PublicAccess.votingTimeSlots (Election.publicAccess this) in
    if (0 <? Z.of_nat (List.length slots)) then
      existsb (fun slot =>
                 TimeSlot.isActive slot
                 && (TimeSlot.startTime slot <=? now)
                 && (now <=? TimeSlot.endTime slot))
              slots
    else true.

(** The [voteCount] object of [calculateResults]: its keys are hex renderings
    of ids, so [Object.entries] lists them in insertion order.  [bump] is
    [voteCount[candidateId] = (voteCount[candidateId] || 0) + 1]. *)
Definition VoteCount := list (ObjectId * nat).

Fixpoint bump (candidateId : ObjectId) (voteCount : VoteCount) : VoteCount :=
  match voteCount with
  | [] => [(candidateId, 1%nat)]
  | (k, n) :: rest =>
      if oid_eqb k candidateId then (k, S n) :: rest
      else (k, n) :: bump candidateId rest
  end.

Definition groupVotes (votes : list Vote.t) : VoteCount :=
  fold_left (fun voteCount vote => bump (Vote.candidate vote) voteCount)
            votes [].

(** One turn of the loop over [Object.entries(voteCount)], on the pair
    [(maxVotes, winnerId)]. *)
Definition pickStep (acc : nat * option ObjectId) (entry : ObjectId * nat)
  : nat * option ObjectId :=
  let '(maxVotes, winnerId) := acc in
  let '(candidateId, votes) := entry in
  if (maxVotes <? votes)%nat then (votes, Some candidateId)
  else (maxVotes, winnerId).

Definition pickWinner (voteCount : VoteCount) : nat * option ObjectId :=
  fold_left pickStep voteCount (0%nat, None).

Record TallyResult := mkTally {
  totalVotes : nat;
  voteCounts : VoteCount;
  winnerId : option ObjectId;
  maxVotes : nat
}.

(** [calculateResults()]: returns the database after its own [save], the
    document as mutated in memory, and the returned summary. *)
Definition calculateResults (db : DB) (this : Election.t) (now : Date)
  : DB * Election.t * TallyResult :=
  let voteCount := groupVotes (Election.votes this) in
  let '(maxVotes, winnerId) := pickWinner voteCount in
  let summary :=
    mkTally (List.length (Election.votes this)) voteCount winnerId maxVotes in
  match winnerId with
  | Some w =>
      let this' :=
        Election.set_status completed
          (Election.set_results (Results.mk true (Some now) (Some w)) this) in
      (saveElection db this', this', summary)
  | None => (db, this, summary)
  end.

(** ** What a handler answers *)

Inductive Outcome :=
| FlashError (msg : string)      (* req.flash('error', msg) and a redirect *)
| FlashSuccess (msg : string)    (* req.flash('success', msg) *)
| JsonError (code : nat) (msg : string)
| JsonOk
| LoginRedirect                  (* session destroyed, back to /auth/login *)
| Thrown.                        (* an exception reaches the error handler *)

Definition isSuccess (o : Outcome) : bool :=
  match o with
  | FlashSuccess _ | JsonOk => true
  | _ => false
  end.

(** [User.findById(id).populate('class')]: the user together with the class
    document its [class] path resolves to, if any. *)
Definition findUser (db : DB) (id : ObjectId) : option User.t :=
  find (fun u => oid_eqb (User._id u) id) (users db).

Definition populateClass (db : DB) (u : User.t) : option Class.t :=
  match User.class u with
  | Some cid => find (fun c => oid_eqb (Class._id c) cid) (classes db)
  | None => None
  end.

Definition findCandidate (db : DB) (id : ObjectId) : option Candidate.t :=
  find (fun c => oid_eqb (Candidate._id c) id) (candidates db).

(** ** Student controller *)

(** The election query of [castVote]:
    [Election.findOne({ _id: id, class: ..., status: 'active' })]. *)
Definition findOpenElection (db : DB) (id classId : ObjectId)
  : option Election.t :=
  find (fun e => oid_eqb (Election._id e) id
                 && oid_eqb (Election.class e) classId
                 && status_eqb (Election.status e) active)
       (elections db).

(** The candidate query of [castVote]:
    [Candidate.findOne({ _id, election: id, approved: true, active: true })]. *)
Definition findApprovedCandidate (db : DB) (candidateId id : ObjectId)
  : option Candidate.t :=
  find (fun c => oid_eqb (Candidate._id c) candidateId
                 && oid_eqb (Candidate.election c) id
                 && Candidate.approved c
                 && Candidate.active c)
       (candidates db).

(** [castVote]: [studentId] is the session user, [id] the route parameter,
    [candidateId] the body field.  The model covers requests that name a
    candidate: what [findOne] makes of an undefined [_id] is left out. *)
Definition castVote (db : DB) (studentId id candidateId : ObjectId)
    (now : Date) : DB * Outcome :=
  match findUser db studentId with
  | None => (db, LoginRedirect)
  | Some student =>
    match populateClass db student with
    | None => (db, Thrown)             (* student.class._id on null *)
    | Some cls =>
      match findOpenElection db id (Class._id cls) with
      | None =>
          (db, FlashError
             "Election not found, not active, or you do not have access to it")
      | Some election =>
        if (now <? Election.startDate election)
           || (Election.endDate election <? now)
        then (db, FlashError "Election is not currently active")
        else if hasVoted election (Some studentId) Missing
        then (db, FlashError "You have already voted in this election")
        else
          match findApprovedCandidate db candidateId id with
          | Some _ =>
              let election' :=
                Election.set_votes
                  (Election.votes election
                   ++ [Vote.mk studentId candidateId now])
                  election in
              (saveElection db election',
               FlashSuccess "Your vote has been successfully recorded")
          | None => (db, FlashError "Invalid candidate selection")
          end
      end
    end
  end.

(** ** models/SystemLog.js *)

(** The [enum] of the [action] path. *)
Definition logActions : list string :=
  ["user_login"; "user_logout"; "user_register"; "user_verify";
   "password_reset"; "election_create"; "election_update";
   "election_delete"; "candidate_create"; "candidate_approve";
   "candidate_reject"; "vote_cast"; "result_publish"; "backup_create";
   "system_error"; "admin_action"; "teacher_action"].

(** Whether [SystemLog.create({ action, ... })] passes validation; when it
    does not, the call rejects with a validation error.  ([createLog], used
    by the other handlers, catches that error and returns null.) *)
Definition systemLogAccepts (action : string) : bool :=
  existsb (String.eqb action) logActions.

(** ** Public voting controller *)

(** [.populate('candidates')]: the candidate documents the references of the
    election resolve to. *)
Definition populateCandidates (db : DB) (e : Election.t) : list Candidate.t :=
  flat_map (fun cid => match findCandidate db cid with
                       | Some c => [c]
                       | None => []
                       end)
           (Election.candidates e).

Definition findByToken (db : DB) (token : string) : option Election.t :=
  find (fun e => str_is (QrCode.accessToken (Election.qrCode e)) token
                 && QrCode.isEnabled (Election.qrCode e))
       (elections db).

Definition anonymousId (now : Date) : string :=
  "anonymous_" ++ NilZero.string_of_int (Z.to_int now).

(** [submitPublicVote]: [token] is the route parameter, [candidateId] and
    [rollNumber] the body fields, the second as it arrives.  The vote is
    pushed with [rollNumber || `anonymous_...`], which the [rollNumber] path,
    a required String, casts or refuses when the election is saved.  The
    audit entry is written with [SystemLog.create] itself, so a rejected
    entry reaches the error handler after the vote is stored. *)
Definition submitPublicVote (db : DB) (token : string)
    (candidateId : option ObjectId) (rollNumber : BodyValue)
    (clientIP userAgent : string) (now : Date) : DB * Outcome :=
  match candidateId with
  | None => (db, FlashError "Please select a candidate")
  | Some cid =>
    match findByToken db token with
    | None => (db, FlashError "Invalid or expired voting link")
    | Some election =>
      if negb (isVotingAllowed election now)
      then (db, FlashError "Voting is not currently available")
      else if PublicAccess.requireRollNumber (Election.publicAccess election)
              && negb (truthyValue rollNumber)
      then (db, FlashError "Roll number is required")
      else if truthyValue rollNumber && hasVoted election None rollNumber
      then (db, FlashError "This roll number has already voted")
      else if negb (is_some (findCandidate db cid))
              || negb (existsb (fun c => oid_eqb (Candidate._id c) cid)
                               (populateCandidates db election))
      then (db, FlashError "Invalid candidate selection")
      else
        let pushed :=
          if truthyValue rollNumber then castString rollNumber
          else Some (anonymousId now) in
        match pushed with
        | None => (db, Thrown)                    (* cast error at save *)
        | Some roll =>
          if String.eqb roll "" then (db, Thrown) (* required path empty *)
          else
            let vote := AnonymousVote.mk roll cid clientIP userAgent now in
            let election' :=
              Election.set_anonymousVotes
                (Election.anonymousVotes election ++ [vote]) election in
            (saveElection db election',
             if systemLogAccepts "ANONYMOUS_VOTE_CAST"
             then FlashSuccess "Your vote has been recorded successfully!"
             else Thrown)
        end
    end
  end.

Definition mayManageQR (sessionRole : option Role.t) : bool :=
  match sessionRole with
  | Some Role.teacher | Some Role.admin => true
  | _ => false
  end.

(** [generateElectionQR]: [randomHex] is what
    [crypto.randomBytes(32).toString('hex')] yields if it is called,
    [dataURL] what [QRCode.toDataURL] yields. *)
Definition generateElectionQR (db : DB) (sessionRole : option Role.t)
    (electionId : ObjectId) (randomHex dataURL : string) : DB * Outcome :=
  if negb (mayManageQR sessionRole) then (db, JsonError 403 "Unauthorized")
  else
    match findElection db electionId with
    | None => (db, JsonError 404 "Election not found")
    | Some election =>
        let qr := Election.qrCode election in
        let token :=
          if truthy (QrCode.accessToken qr) then QrCode.accessToken qr
          else Some randomHex in
        let election' :=
          Election.set_qrCode
            (QrCode.mk (Some dataURL) token (QrCode.isEnabled qr)) election in
        (saveElection db election', JsonOk)
    end.

(** [toggleQRAccess]. *)
Definition toggleQRAccess (db : DB) (sessionRole : option Role.t)
    (electionId : ObjectId) : DB * Outcome :=
  if negb (mayManageQR sessionRole) then (db, JsonError 403 "Unauthorized")
  else
    match findElection db electionId with
    | None => (db, JsonError 404 "Election not found")
    | Some election =>
        let qr := Election.qrCode election in
        let election' :=
          Election.set_qrCode
            (QrCode.mk (QrCode.data qr) (QrCode.accessToken qr)
                       (negb (QrCode.isEnabled qr)))
            election in
        (saveElection db election', JsonOk)
    end.

(** ** Teacher controller *)

(** The [trim: true] setter of the [title] path, [String.prototype.trim].
    A string holds the UTF-8 encoding of the JavaScript string, so the white
    space and line terminators of the language take one, two or three bytes:
    U+0009 to U+000D and U+0020; U+00A0; U+1680, U+2000 to U+200A, U+2028,
    U+2029, U+202F, U+205F, U+3000 and U+FEFF. *)
Definition isSpace (c : ascii) : bool :=
  let n := nat_of_ascii c in
  ((9 <=? n)%nat && (n <=? 13)%nat) || (n =? 32)%nat.

Definition isSpace2 (c1 c2 : ascii) : bool :=
  (nat_of_ascii c1 =? 194)%nat && (nat_of_ascii c2 =? 160)%nat.

Definition isSpace3 (c1 c2 c3 : ascii) : bool :=
  let n1 := nat_of_ascii c1 in
  let n2 := nat_of_ascii c2 in
  let n3 := nat_of_ascii c3 in
  ((n1 =? 225) && (n2 =? 154) && (n3 =? 128))%nat
  || ((n1 =? 226) && (n2 =? 128)
      && (((128 <=? n3) && (n3 <=? 138))
          || (n3 =? 168) || (n3 =? 169) || (n3 =? 175)))%nat
  || ((n1 =? 226) && (n2 =? 129) && (n3 =? 159))%nat
  || ((n1 =? 227) && (n2 =? 128) && (n3 =? 128))%nat
  || ((n1 =? 239) && (n2 =? 187) && (n3 =? 191))%nat.

(** Drop the white space at the head of [s]; with [backwards] the string is
    read from its end, each character last byte first. *)
Fixpoint dropSpaces (backwards : bool) (s : string) : string :=
  match s with
  | EmptyString => EmptyString
  | String c1 rest1 =>
      if isSpace c1 then dropSpaces backwards rest1
      else
        match rest1 with
        | EmptyString => s
        | String c2 rest2 =>
            if (if backwards then isSpace2 c2 c1 else isSpace2 c1 c2)
            then dropSpaces backwards rest2
            else
              match rest2 with
              | EmptyString => s
              | String c3 rest3 =>
                  if (if backwards then isSpace3 c3 c2 c1
                      else isSpace3 c1 c2 c3)
                  then dropSpaces backwards rest3
                  else s
              end
        end
  end.

Definition reverse (s : string) : string :=
  string_of_list_ascii (rev (list_ascii_of_string s)).

Definition trimStart (s : string) : string := dropSpaces false s.

Definition trimEnd (s : string) : string :=
  reverse (dropSpaces true (reverse s)).

Definition trim (s : string) : string := trimEnd (trimStart s).

(** Schema validation of the paths the teacher handlers assign: [title] and
    [description] are required, [electionType] is one of the enumerated
    values. *)
Definition validates (e : Election.t) : bool :=
  negb (String.eqb (Election.title e) "")
  && negb (String.eqb (Election.description e) "")
  && (String.eqb (Election.electionType e) "CR"
      || String.eqb (Election.electionType e) "BR"
      || String.eqb (Election.electionType e) "Other").

(** The [$or] of the overlap query of [createElection], on one document. *)
Definition overlapDisjuncts (start end_ : Date) (e : Election.t) : bool :=
  ((Election.startDate e <=? end_) && (start <=? Election.startDate e))
  || ((Election.endDate e <=? end_) && (start <=? Election.endDate e))
  || ((Election.startDate e <=? start) && (end_ <=? Election.endDate e)).

Definition overlapQuery (classId : ObjectId) (start end_ : Date)
    (e : Election.t) : bool :=
  oid_eqb (Election.class e) classId
  && (status_eqb (Election.status e) active
      || status_eqb (Election.status e) pending)
  && overlapDisjuncts start end_ e.

Definition teaches (teacherId : ObjectId) (c : Class.t) : bool :=
  match Class.classTeacher c with
  | Some t => oid_eqb t teacherId
  | None => false
  end.

(** [createElection]: [teacherId] is the session user, the next six
    arguments the body fields ([None] for a missing or empty one), [newId] the
    id the driver gives the new document. *)
Definition createElection (db : DB) (teacherId : ObjectId)
    (title description electionType : option string)
    (classId : option ObjectId) (startDate endDate : option JsDate)
    (now : Date) (newId : ObjectId) : DB * Outcome :=
  match title, description, electionType, classId, startDate, endDate with
  | Some title', Some description', Some electionType',
    Some classId', Some start, Some end_ =>
    if negb (truthy title) || negb (truthy description)
       || negb (truthy electionType)
    then (db, FlashError "All fields are required")
    else
      match find (fun c => oid_eqb (Class._id c) classId'
                           && teaches teacherId c && Class.active c)
                 (classes db) with
      | None =>
          (db, FlashError
             "You do not have permission to create an election for this class")
      | Some _ =>
        if date_lt start (ValidDate now)
        then (db, FlashError "Start date must be in the future")
        else if date_le end_ start
        then (db, FlashError "End date must be after start date")
        else
          match start, end_ with
          | ValidDate s, ValidDate e =>
            match find (overlapQuery classId' s e) (elections db) with
            | Some _ =>
                (db, FlashError
                   "There is already an election scheduled for this class during this time period")
            | None =>
                let election :=
                  Election.mk newId (trim title') description' electionType'
                    classId' s e [] (QrCode.mk None None true)
                    (PublicAccess.mk true true []) [] [] pending teacherId
                    (Results.mk false None None) in
                if validates election
                then (with_elections (elections db ++ [election]) db,
                      FlashSuccess "Election created successfully")
                else (db, Thrown)
            end
          | _, _ => (db, Thrown)       (* the query cannot cast the date *)
          end
      end
  | _, _, _, _, _, _ => (db, FlashError "All fields are required")
  end.

(** The permission test shared by the teacher handlers. *)
Definition hasPermission (db : DB) (election : Election.t)
    (teacherId : ObjectId) : bool :=
  oid_eqb (Election.createdBy election) teacherId
  || existsb (fun c => oid_eqb (Class._id c) (Election.class election)
                       && teaches teacherId c)
             (classes db).

(** The date block of [updateElection]; [inr] carries the flashed error. *)
Definition updateDates (election : Election.t)
    (startDate endDate : option JsDate) (now : Date)
  : Election.t + string :=
  if status_eqb (Election.status election) pending then
    let afterStart : Election.t + string :=
      match startDate with
      | Some (ValidDate t) =>
          if now <? t then inl (Election.set_startDate t election)
          else inr "Start date must be in the future"
      | Some InvalidDate => inr "Start date must be in the future"
      | None => inl election
      end in
    match afterStart with
    | inr msg => inr msg
    | inl election1 =>
        match endDate with
        | Some (ValidDate t) =>
            if Election.startDate election1 <? t
            then inl (Election.set_endDate t election1)
            else inr "End date must be after start date"
        | Some InvalidDate => inr "End date must be after start date"
        | None => inl election1
        end
    end
  else inl election.

(** The two text assignments of [updateElection]. *)
Definition updateText (election : Election.t)
    (title description : option string) : Election.t :=
  let election1 :=
    match title with
    | Some t => if truthy title then Election.set_title (trim t) election
                else election
    | None => election
    end in
  match description with
  | Some d => if truthy description
              then Election.set_description d election1
              else election1
  | None => election1
  end.

(** The status block of [updateElection]. *)
Definition updateStatus (db : DB) (election : Election.t)
    (status : option string) (now : Date) : DB * Election.t :=
  if truthy status then
    if str_is status "completed"
       && status_eqb (Election.status election) active
    then let '(d, e, _) := calculateResults db election now in (d, e)
    else if str_is status "cancelled"
            && negb (status_eqb (Election.status election) completed)
    then (db, Election.set_status cancelled election)
    else if str_is status "active"
            && status_eqb (Election.status election) pending
    then (db, Election.set_status active election)
    else (db, election)
  else (db, election).

(** [updateElection]: the text block, the date block, the status block, then
    [save].  A title that trims to nothing fails validation in whichever
    [save] runs first, before anything is written. *)
Definition updateElection (db : DB) (teacherId id : ObjectId)
    (title description : option string) (startDate endDate : option JsDate)
    (status : option string) (now : Date) : DB * Outcome :=
  match findElection db id with
  | None => (db, FlashError "Election not found")
  | Some election =>
    if negb (hasPermission db election teacherId)
    then (db, FlashError "You do not have permission to update this election")
    else if status_eqb (Election.status election) completed
            && negb (str_is status "completed")
    then (db, FlashError "Cannot modify a completed election")
    else
      match updateDates (updateText election title description)
                        startDate endDate now with
      | inr msg => (db, FlashError msg)
      | inl election3 =>
        let '(db1, election4) := updateStatus db election3 status now in
        if validates election4
        then (saveElection db1 election4,
              FlashSuccess "Election updated successfully")
        else (db, Thrown)
      end
  end.

(** [candidate.deleteOne()]. *)
Fixpoint deleteCandidate (id : ObjectId) (cs : list Candidate.t)
  : list Candidate.t :=
  match cs with
  | [] => []
  | c :: rest =>
      if oid_eqb (Candidate._id c) id then rest
      else c :: deleteCandidate id rest
  end.

(** [removeCandidate]. *)
Definition removeCandidate (db : DB) (teacherId id candidateId : ObjectId)
  : DB * Outcome :=
  match findElection db id with
  | None => (db, FlashError "Election not found")
  | Some election =>
    if negb (hasPermission db election teacherId)
    then (db, FlashError
            "You do not have permission to remove candidates from this election")
    else if status_eqb (Election.status election) active
            || status_eqb (Election.status election) completed
    then (db, FlashError
            "Cannot remove candidates from an active or completed election")
    else
      match find (fun c => oid_eqb (Candidate._id c) candidateId
                           && oid_eqb (Candidate.election c) id)
                 (candidates db) with
      | None => (db, FlashError "Candidate not found")
      | Some candidate =>
          let election' :=
            Election.set_candidates
              (filter (fun c => negb (oid_eqb c candidateId))
                      (Election.candidates election))
              election in
          let db1 := saveElection db election' in
          let db2 :=
            with_candidates
              (deleteCandidate (Candidate._id candidate) (candidates db1))
              db1 in
          match findUser db (Candidate.student candidate) with
          | Some u =>
              (db2, FlashSuccess
                      ("Candidate " ++ User.name u ++ " has been removed"))
          | None => (db2, Thrown)      (* candidate.student.name on null *)
          end
      end
  end.

(** [publishResults]. *)
Definition publishResults (db : DB) (teacherId id : ObjectId) (now : Date)
  : DB * Outcome :=
  match findElection db id with
  | None => (db, FlashError "Election not found")
  | Some election =>
    if negb (hasPermission db election teacherId)
    then (db, FlashError
            "You do not have permission to publish results for this election")
    else
      let staged :=
        if negb (status_eqb (Election.status election) completed) then
          if status_eqb (Election.status election) active
             && (Election.endDate election <=? now)
          then Some (Election.set_status completed election)
          else None
        else Some election in
      match staged with
      | None =>
          (db, FlashError
             "Cannot publish results for an election that is not completed")
      | Some election1 =>
          let '(db1, election2, _) := calculateResults db election1 now in
          let election3 :=
            Election.set_results
              (Results.mk true (Some now)
                          (Results.winner (Election.results election2)))
              election2 in
          (saveElection db1 election3,
           FlashSuccess "Election results published successfully")
      end
  end.

(** ** Admin controller *)

(** [updateElectionStatus]. *)
Definition updateElectionStatus (db : DB) (id : ObjectId)
    (status : option string) (now : Date) : DB * Outcome :=
  match status_of_string status with
  | None => (db, FlashError "Invalid status")
  | Some st =>
    match findElection db id with
    | None => (db, FlashError "Election not found")
    | Some election =>
        let election1 := Election.set_status st election in
        let '(db1, election2) :=
          if str_is status "completed"
          then let '(d, e, _) := calculateResults db election1 now in (d, e)
          else (db, election1) in
        (saveElection db1 election2,
         FlashSuccess ("Election status updated to " ++ status_name st))
    end
  end.

(** * The rest of the election engine *)

(** ** models/Election.js, the other virtuals *)

(** The [isPending] virtual. *)
Definition isPending (this : Election.t) (now : Date) : bool :=
  (now <? Election.startDate this)
  && status_eqb (Election.status this) pending.

(** The [isCompleted] virtual. *)
Definition isCompleted (this : Election.t) (now : Date) : bool :=
  (Election.endDate this <? now)
  || status_eqb (Election.status this) completed.

(** ** Public voting controller, continued *)

(** What [getPublicVotingPage] renders. *)
Inductive VotingPage :=
| InvalidLink                       (* flash 'Invalid or expired voting link' *)
| NotAvailable (election : Election.t)            (* vote/not-available *)
| VoteForm (election : Election.t) (candidates : list Candidate.t)
           (requireRollNumber : bool).            (* vote/public *)

(** [getPublicVotingPage]. *)
Definition getPublicVotingPage (db : DB) (token : string) (now : Date)
  : VotingPage :=
  match findByToken db token with
  | None => InvalidLink
  | Some election =>
      if negb (isVotingAllowed election now) then NotAvailable election
      else VoteForm election (populateCandidates db election)
             (PublicAccess.requireRollNumber (Election.publicAccess election))
  end.

Definition date_ge (a b : JsDate) : bool :=
  match a, b with
  | ValidDate x, ValidDate y => y <=? x
  | _, _ => false
  end.

(** [election.publicAccess.votingTimeSlots.push(slot)]. *)
Definition pushTimeSlot (slot : TimeSlot.t) (e : Election.t) : Election.t :=
  let access := Election.publicAccess e in
  Election.mk (Election._id e) (Election.title e) (Election.description e)
    (Election.electionType e) (Election.class e) (Election.startDate e)
    (Election.endDate e) (Election.candidates e) (Election.qrCode e)
    (PublicAccess.mk (PublicAccess.allowAnonymousVoting access)
                     (PublicAccess.requireRollNumber access)
                     (PublicAccess.votingTimeSlots access ++ [slot]))
    (Election.anonymousVotes e) (Election.votes e) (Election.status e)
    (Election.createdBy e) (Election.results e).

(** [addVotingTimeSlot]: [startTime] and [endTime] are the body fields as
    [new Date] reads them.  An invalid date passes the comparison and is
    refused by the schema when the slot is stored. *)
Definition addVotingTimeSlot (db : DB) (sessionRole : option Role.t)
    (electionId : ObjectId) (startTime endTime : JsDate) : DB * Outcome :=
  if negb (mayManageQR sessionRole) then (db, JsonError 403 "Unauthorized")
  else
    match findElection db electionId with
    | None => (db, JsonError 404 "Election not found")
    | Some election =>
        if date_ge startTime endTime
        then (db, JsonError 400 "Start time must be before end time")
        else
          match startTime, endTime with
          | ValidDate start, ValidDate end_ =>
              (saveElection db
                 (pushTimeSlot (TimeSlot.mk start end_ true) election),
               JsonOk)
          | _, _ => (db, Thrown)
          end
    end.

(** ** Election controller (public pages) *)

(** The [candidateVotes] object of the statistics block: a key per listed
    candidate, set to zero, then one more for every ballot whose candidate is
    a key. *)
Fixpoint setZero (k : ObjectId) (o : VoteCount) : VoteCount :=
  match o with
  | [] => [(k, 0%nat)]
  | (k', n) :: rest =>
      if oid_eqb k' k then (k', 0%nat) :: rest
      else (k', n) :: setZero k rest
  end.

Fixpoint bumpListed (k : ObjectId) (o : VoteCount) : VoteCount :=
  match o with
  | [] => []
  | (k', n) :: rest =>
      if oid_eqb k' k then (k', S n) :: rest
      else (k', n) :: bumpListed k rest
  end.

Definition candidateVotes (listed : list Candidate.t) (votes : list Vote.t)
  : VoteCount :=
  fold_left (fun o vote => bumpListed (Vote.candidate vote) o) votes
    (fold_left (fun o candidate => setZero (Candidate._id candidate) o)
               listed []).

Record VoteStats := mkStats {
  statsTotalVotes : nat;
  statsCandidateVotes : VoteCount
}.

Definition role_eqb (a b : Role.t) : bool :=
  match a, b with
  | Role.admin, Role.admin | Role.teacher, Role.teacher
  | Role.student, Role.student => true
  | _, _ => false
  end.

Record ElectionPage := mkPage {
  pageElection : Election.t;
  userCanVote : bool;
  pageHasVoted : bool;
  userClass : option ObjectId;
  voteStats : option VoteStats;
  pageWinner : option Candidate.t;
  showResults : bool
}.

Inductive PageAnswer :=
| PageNotFound
| PageThrown
| Page (p : ElectionPage).

(** [getElectionById]: [session] is [req.session.user], its id and role. *)
Definition getElectionById (db : DB) (id : ObjectId)
    (session : option (ObjectId * Role.t)) : PageAnswer :=
  match findElection db id with
  | None => PageNotFound
  | Some election =>
      let listed := populateCandidates db election in
      let electionClass :=
        find (fun c => oid_eqb (Class._id c) (Election.class election))
             (classes db) in
      let viewer :=
        match session with
        | Some (userId, Role.student) => findUser db userId
        | _ => None
        end in
      let membership : option (bool * bool) :=
        match viewer with
        | Some user =>
            match User.class user with
            | Some cid =>
                match electionClass with
                | Some cls =>
                    if oid_eqb cid (Class._id cls)
                    then Some (true, hasVoted election
                                       (option_map fst session) Missing)
                    else Some (false, false)
                | None => None         (* election.class._id on null *)
                end
            | None => Some (false, false)
            end
        | None => Some (false, false)
        end in
      match membership with
      | None => PageThrown
      | Some (canVote, voted) =>
          let show :=
            (status_eqb (Election.status election) completed
             && Results.published (Election.results election))
            || match session with
               | Some (_, Role.admin) | Some (_, Role.teacher) => true
               | _ => false
               end in
          let stats :=
            mkStats (List.length (Election.votes election))
                    (candidateVotes listed (Election.votes election)) in
          let winner :=
            match Results.winner (Election.results election) with
            | Some w => find (fun c => oid_eqb (Candidate._id c) w) listed
            | None => None
            end in
          Page (mkPage election canVote voted
                       (match viewer with
                        | Some user => User.class user
                        | None => None
                        end)
                       (if show then Some stats else None)
                       (if show then winner else None)
                       show)
      end
  end.

(** ** Student controller, continued *)

(** A stable insertion sort standing for [.sort(...)]; the order Mongo gives
    to documents with equal keys is not fixed. *)
Fixpoint insertBy {A} (le : A -> A -> bool) (x : A) (l : list A) : list A :=
  match l with
  | [] => [x]
  | y :: rest => if le x y then x :: l else y :: insertBy le x rest
  end.

Definition sortBy {A} (le : A -> A -> bool) (l : list A) : list A :=
  fold_right (insertBy le) [] l.

Record ElectionLists := mkLists {
  activeElections : list (Election.t * bool);
  upcomingElections : list Election.t;
  pastElections : list (Election.t * bool)
}.

(** The three queries of [getAllElections]. *)
Definition activeQuery (classId : ObjectId) (now : Date) (e : Election.t)
  : bool :=
  oid_eqb (Election.class e) classId
  && status_eqb (Election.status e) active
  && (Election.startDate e <=? now) && (now <=? Election.endDate e).

Definition upcomingQuery (classId : ObjectId) (now : Date) (e : Election.t)
  : bool :=
  oid_eqb (Election.class e) classId
  && status_eqb (Election.status e) pending
  && (now <? Election.startDate e).

Definition pastQuery (classId : ObjectId) (now : Date) (e : Election.t)
  : bool :=
  oid_eqb (Election.class e) classId
  && (status_eqb (Election.status e) completed
      || status_eqb (Election.status e) cancelled
      || (Election.endDate e <? now)).

(** [getAllElections]; [None] is the flashed 'Class information not
    found'.  The second component of an entry is the [hasVoted] flag the
    handler attaches. *)
Definition getAllElections (db : DB) (studentId : ObjectId) (now : Date)
  : option ElectionLists :=
  match findUser db studentId with
  | None => None
  | Some student =>
    match populateClass db student with
    | None => None
    | Some cls =>
        let flag e := (e, hasVoted e (Some studentId) Missing) in
        let active_ :=
          sortBy (fun a b => Election.endDate a <=? Election.endDate b)
                 (filter (activeQuery (Class._id cls) now) (elections db)) in
        let upcoming :=
          sortBy (fun a b => Election.startDate a <=? Election.startDate b)
                 (filter (upcomingQuery (Class._id cls) now) (elections db)) in
        let past :=
          sortBy (fun a b => Election.endDate b <=? Election.endDate a)
                 (filter (pastQuery (Class._id cls) now) (elections db)) in
        Some (mkLists (map flag active_) upcoming (map flag past))
    end
  end.

(** The student's own pages.  The list of classmates the dashboard also
    renders reads no election and is left out. *)
Module Student.

Record Dashboard := mkDashboard {
  dashActive : list (Election.t * bool);
  dashUpcoming : list Election.t;
  dashCompleted : list Election.t
}.

Inductive DashboardAnswer :=
| DashLogin                          (* session destroyed, redirect to login *)
| DashThrown                         (* student.class._id on null *)
| DashPage (d : Dashboard).

Definition completedQuery (classId : ObjectId) (e : Election.t) : bool :=
  oid_eqb (Election.class e) classId
  && status_eqb (Election.status e) completed
  && Results.published (Election.results e).

(** [getDashboard]. *)
Definition getDashboard (db : DB) (studentId : ObjectId) (now : Date)
  : DashboardAnswer :=
  match findUser db studentId with
  | None => DashLogin
  | Some student =>
    match populateClass db student with
    | None => DashThrown
    | Some cls =>
        let flag e := (e, hasVoted e (Some studentId) Missing) in
        let active_ :=
          sortBy (fun a b => Election.endDate a <=? Election.endDate b)
                 (filter (activeQuery (Class._id cls) now) (elections db)) in
        let upcoming :=
          sortBy (fun a b => Election.startDate a <=? Election.startDate b)
                 (filter (upcomingQuery (Class._id cls) now) (elections db)) in
        let completed_ :=
          firstn 5
            (sortBy (fun a b => Election.endDate b <=? Election.endDate a)
                    (filter (completedQuery (Class._id cls)) (elections db)))
        in
        DashPage (mkDashboard (map flag active_) upcoming completed_)
    end
  end.

Inductive DetailsAnswer :=
| DetailsLogin
| DetailsThrown                      (* student.class._id on null *)
| DetailsNotFound                    (* flash 'Election not found or ...' *)
| Details (election : Election.t) (hasVoted : bool)
          (voteStats : option VoteCount) (winner : option Candidate.t).

(** [getElectionDetails] of the student controller. *)
Definition getElectionDetails (db : DB) (studentId id : ObjectId)
  : DetailsAnswer :=
  match findUser db studentId with
  | None => DetailsLogin
  | Some student =>
    match populateClass db student with
    | None => DetailsThrown
    | Some cls =>
      match find (fun e => oid_eqb (Election._id e) id
                           && oid_eqb (Election.class e) (Class._id cls))
                 (elections db) with
      | None => DetailsNotFound
      | Some election =>
          let listed := populateCandidates db election in
          let voted := hasVoted election (Some studentId) Missing in
          if status_eqb (Election.status election) completed
             && Results.published (Election.results election)
          then
            Details election voted
              (Some (candidateVotes listed (Election.votes election)))
              (match Results.winner (Election.results election) with
               | Some w => find (fun c => oid_eqb (Candidate._id c) w) listed
               | None => None
               end)
          else Details election voted None None
      end
    end
  end.

End Student.

(** ** Teacher controller, continued *)

(** [Candidate.getAvailableSymbols()]. *)
Definition availableSymbols : list string :=
  ["star"; "circle"; "square"; "triangle"; "diamond";
   "heart"; "club"; "spade"; "apple"; "book";
   "pencil"; "pen"; "trophy"; "flag"; "crown";
   "leaf"; "flower"; "tree"; "sun"; "moon";
   "cloud"; "umbrella"; "bell"; "key"; "lock";
   "phone"; "camera"; "computer"; "rocket"; "car"].

Definition includesSymbol (symbol : option string) : bool :=
  match symbol with
  | Some s => existsb (String.eqb s) availableSymbols
  | None => false
  end.

(** The student query of [addCandidate]. *)
Definition findClassStudent (db : DB) (studentId classId : ObjectId)
  : option User.t :=
  find (fun u => oid_eqb (User._id u) studentId
                 && role_eqb (User.role u) Role.student
                 && match User.class u with
                    | Some c => oid_eqb c classId
                    | None => false
                    end
                 && User.active u)
       (users db).

(** [Candidate.findOne({ student, election })]. *)
Definition findCandidacy (db : DB) (studentId id : ObjectId)
  : option Candidate.t :=
  find (fun c => oid_eqb (Candidate.student c) studentId
                 && oid_eqb (Candidate.election c) id)
       (candidates db).

(** [addCandidate]: [studentId] and [symbol] are body fields, [newId] the id
    of the new candidate document.  The colour and manifesto it also stores
    are not part of [Candidate.t]. *)
Definition addCandidate (db : DB) (teacherId id studentId : ObjectId)
    (symbol : option string) (newId : ObjectId) : DB * Outcome :=
  match findElection db id with
  | None => (db, FlashError "Election not found")
  | Some election =>
    if negb (hasPermission db election teacherId)
    then (db, FlashError
            "You do not have permission to add candidates to this election")
    else if status_eqb (Election.status election) completed
            || status_eqb (Election.status election) cancelled
    then (db, FlashError
            "Cannot add candidates to a completed or cancelled election")
    else
      match findClassStudent db studentId (Election.class election) with
      | None =>
          (db, FlashError
             "Invalid student or student does not belong to this class")
      | Some student =>
        match findCandidacy db studentId id with
        | Some _ =>
            (db, FlashError
               "This student is already a candidate in this election")
        | None =>
          if negb (includesSymbol symbol)
          then (db, FlashError "Invalid symbol")
          else
            let candidate := Candidate.mk newId studentId id true true in
            let db1 := with_candidates (candidates db ++ [candidate]) db in
            let election' :=
              Election.set_candidates
                (Election.candidates election ++ [newId]) election in
            (saveElection db1 election',
             FlashSuccess
               (User.name student ++ " has been added as a candidate"))
        end
      end
  end.

(** The [studentsNotVoted] block of the teacher's [getElectionDetails], for
    an election whose class document exists: the handler has read
    [election.class.classTeacher] before it comes here. *)
Definition studentsNotVoted (db : DB) (election : Election.t) : list User.t :=
  if status_eqb (Election.status election) active
     || status_eqb (Election.status election) completed
  then
    let votedStudentIds := map Vote.student (Election.votes election) in
    filter (fun u => match User.class u with
                     | Some c => oid_eqb c (Election.class election)
                     | None => false
                     end
                     && role_eqb (User.role u) Role.student
                     && User.active u
                     && negb (existsb (oid_eqb (User._id u)) votedStudentIds))
           (users db)
  else [].

(** ** Admin controller, continued *)

Fixpoint deleteElectionDoc (id : ObjectId) (es : list Election.t)
  : list Election.t :=
  match es with
  | [] => []
  | e :: rest =>
      if oid_eqb (Election._id e) id then rest
      else e :: deleteElectionDoc id rest
  end.

(** [deleteElection]. *)
Definition deleteElection (db : DB) (id : ObjectId) : DB * Outcome :=
  match findElection db id with
  | None => (db, FlashError "Election not found")
  | Some election =>
      if status_eqb (Election.status election) active
      then (db, FlashError "Cannot delete an active election")
      else
        (mkDB (users db) (classes db)
              (deleteElectionDoc (Election._id election) (elections db))
              (filter (fun c => negb (oid_eqb (Candidate.election c) id))
                      (candidates db)),
         FlashSuccess "Election deleted successfully")
  end.

Fixpoint deleteClassDoc (id : ObjectId) (cs : list Class.t) : list Class.t :=
  match cs with
  | [] => []
  | c :: rest =>
      if oid_eqb (Class._id c) id then rest
      else c :: deleteClassDoc id rest
  end.

Definition countText (n : nat) : string :=
  NilZero.string_of_uint (Nat.to_uint n).

(** [deleteClass]. *)
Definition deleteClass (db : DB) (id : ObjectId) : DB * Outcome :=
  match find (fun c => oid_eqb (Class._id c) id) (classes db) with
  | None => (db, FlashError "Class not found")
  | Some classToDelete =>
      let studentsInClass :=
        List.length
          (filter (fun u => match User.class u with
                            | Some c => oid_eqb c id
                            | None => false
                            end)
                  (users db)) in
      if (0 <? studentsInClass)%nat
      then (db, FlashError
              ("Cannot delete class with " ++ countText studentsInClass
               ++ " students. Please reassign or delete students first."))
      else
        let electionsForClass :=
          List.length
            (filter (fun e => oid_eqb (Election.class e) id) (elections db)) in
        if (0 <? electionsForClass)%nat
        then (db, FlashError
                ("Cannot delete class with " ++ countText electionsForClass
                 ++ " elections. Please delete elections first."))
        else
          (mkDB (users db)
                (deleteClassDoc (Class._id classToDelete) (classes db))
                (elections db) (candidates db),
           FlashSuccess "Class deleted successfully")
  end.

Fixpoint deleteUserDoc (id : ObjectId) (us : list User.t) : list User.t :=
  match us with
  | [] => []
  | u :: rest =>
      if oid_eqb (User._id u) id then rest
      else u :: deleteUserDoc id rest
  end.

(** [deleteUser]: [sessionUserId] is the admin making the request. *)
Definition deleteUser (db : DB) (sessionUserId id : ObjectId)
  : DB * Outcome :=
  match findUser db id with
  | None => (db, FlashError "User not found")
  | Some userToDelete =>
      if oid_eqb (User._id userToDelete) sessionUserId
      then (db, FlashError "You cannot delete your own account")
      else
        (mkDB (deleteUserDoc (User._id userToDelete) (users db))
              (classes db) (elections db) (candidates db),
         FlashSuccess "User deleted successfully")
  end.

(** * Vocabulary of the properties *)

Local Open Scope list_scope.

(** ** Reading the ledger *)

(** Number of authenticated votes for candidate [c]. *)
Definition countFor (c : ObjectId) (votes : list Vote.t) : nat :=
  List.length (filter (fun v => oid_eqb (Vote.candidate v) c) votes).

(** Candidates in the order in which the ledger first names them. *)
Definition seeCandidate (seen : list ObjectId) (c : ObjectId)
  : list ObjectId :=
  if existsb (oid_eqb c) seen then seen else seen ++ [c].

Definition firstSeen (cs : list ObjectId) : list ObjectId :=
  fold_left seeCandidate cs [].

Definition ballotOrder (votes : list Vote.t) : list ObjectId :=
  firstSeen (map Vote.candidate votes).

(** ** Requests *)

(** One request to a modelled handler, with the clock reading at which it is
    served. *)
Inductive Call :=
| CastVote (studentId id candidateId : ObjectId) (now : Date)
| SubmitPublicVote (token : string) (candidateId : option ObjectId)
                   (rollNumber : BodyValue) (clientIP userAgent : string)
                   (now : Date)
| GenerateElectionQR (sessionRole : option Role.t) (electionId : ObjectId)
                     (randomHex dataURL : string)
| ToggleQRAccess (sessionRole : option Role.t) (electionId : ObjectId)
| CreateElection (teacherId : ObjectId)
                 (title description electionType : option string)
                 (classId : option ObjectId)
                 (startDate endDate : option JsDate) (now : Date)
                 (newId : ObjectId)
| UpdateElection (teacherId id : ObjectId) (title description : option string)
                 (startDate endDate : option JsDate) (status : option string)
                 (now : Date)
| RemoveCandidate (teacherId id candidateId : ObjectId)
| PublishResults (teacherId id : ObjectId) (now : Date)
| UpdateElectionStatus (id : ObjectId) (status : option string) (now : Date).

Definition serve (db : DB) (c : Call) : DB * Outcome :=
  match c with
  | CastVote s i c n => castVote db s i c n
  | SubmitPublicVote t c r ip ua n => submitPublicVote db t c r ip ua n
  | GenerateElectionQR ro i h d => generateElectionQR db ro i h d
  | ToggleQRAccess ro i => toggleQRAccess db ro i
  | CreateElection t ti de ty c s e n i => createElection db t ti de ty c s e n i
  | UpdateElection t i ti de s e st n => updateElection db t i ti de s e st n
  | RemoveCandidate t i c => removeCandidate db t i c
  | PublishResults t i n => publishResults db t i n
  | UpdateElectionStatus i st n => updateElectionStatus db i st n
  end.

Definition serveAll (db : DB) (calls : list Call) : DB :=
  fold_left (fun d c => fst (serve d c)) calls db.

(** ** Ledger invariants *)

(** Entries of the authenticated ledger cast by student [s]. *)
Definition votesBy (s : ObjectId) (e : Election.t) : nat :=
  List.length (filter (fun v => oid_eqb (Vote.student v) s)
                      (Election.votes e)).

(** Entries of the anonymous ledger under roll number [r]. *)
Definition anonymousVotesBy (r : string) (e : Election.t) : nat :=
  List.length (filter (fun v => String.eqb r (AnonymousVote.rollNumber v))
                      (Election.anonymousVotes e)).

Definition requiresRoll (e : Election.t) : bool :=
  PublicAccess.requireRollNumber (Election.publicAccess e).

Definition oncePerVoter (e : Election.t) : Prop :=
  (forall s, votesBy s e <= 1)%nat
  /\ (requiresRoll e = true -> forall r, (anonymousVotesBy r e <= 1)%nat).

(** The invariant the handlers keep: one entry per student always, and one
    entry per roll number as long as [rolls] is set. *)
Definition ledgerInv (rolls : bool) (e : Election.t) : Prop :=
  (forall s, votesBy s e <= 1)%nat
  /\ (rolls = true -> requiresRoll e = true ->
      forall r, (anonymousVotesBy r e <= 1)%nat).

(** The roll number of the request, if it carries one, is a string. *)
Definition rollIsText (v : BodyValue) : bool :=
  match v with
  | Text _ => true
  | _ => negb (truthyValue v)
  end.

Definition sendsText (c : Call) : Prop :=
  match c with
  | SubmitPublicVote _ _ rollNumber _ _ _ => rollIsText rollNumber = true
  | _ => True
  end.

(** The handler wrote to the database. *)
Definition wrote (db : DB) (run : DB * Outcome) : Prop := fst run <> db.

(** ** Voting window *)

(** The election takes no votes at [now]. *)
Definition votingClosed (e : Election.t) (now : Date) : Prop :=
  now < Election.startDate e \/ Election.endDate e < now
  \/ Election.status e <> active.

(** The election is the one a QR token names. *)
Definition holdsToken (token : string) (e : Election.t) : bool :=
  str_is (QrCode.accessToken (Election.qrCode e)) token.

(** ** Overlap *)

(** The inclusive overlap test in the words of the specification:
    [newStart <= existingEnd AND newEnd >= existingStart]. *)
Definition specOverlap (newStart newEnd : Date) (existing : Election.t)
  : Prop :=
  newStart <= Election.endDate existing
  /\ newEnd >= Election.startDate existing.

Definition pendingOrActive (e : Election.t) : Prop :=
  Election.status e = pending \/ Election.status e = active.

(** The document [createElection] stores. *)
Definition newElection (newId teacherId classId : ObjectId)
    (title description electionType : string) (start end_ : Date)
  : Election.t :=
  Election.mk newId (trim title) description electionType classId start end_
    [] (QrCode.mk None None true) (PublicAccess.mk true true []) [] []
    pending teacherId (Results.mk false None None).

(** ** Lifecycle *)

Definition terminal (s : Status) : Prop := s = completed \/ s = cancelled.

(** Mongo's unique index on [_id]. *)
Definition uniqueIds (db : DB) : Prop :=
  NoDup (map Election._id (elections db)).

(** The admin's status form is the one request that assigns [status]
    unconditionally. *)
Definition adminOverride (c : Call) : bool :=
  match c with
  | UpdateElectionStatus _ _ _ => true
  | _ => false
  end.

(** [e'] is a rewrite of [e] that leaves a terminal status alone. *)
Definition keepsTerminal (e e' : Election.t) : Prop :=
  Election._id e' = Election._id e
  /\ (terminal (Election.status e) ->
      Election.status e' = Election.status e).

(** What a request other than the admin's status form does to the election
    collection: nothing, one rewrite that keeps a terminal status, or one
    document appended. *)
Definition gentle (es es' : list Election.t) : Prop :=
  es' = es
  \/ (exists x x', In x es /\ keepsTerminal x x' /\ es' = replaceFirst x' es)
  \/ (exists n, es' = es ++ [n]).

(** ** Sample data *)

Module Sample.

Definition candA : ObjectId := 1%N.
Definition candB : ObjectId := 2%N.

Definition blank : Election.t :=
  Election.mk 10%N "CR poll" "Class representative" "CR" 20%N 1000 2000
    [candA; candB] (QrCode.mk None (Some "tok") true)
    (PublicAccess.mk true true []) [] [] active 30%N
    (Results.mk false None None).

Definition ballot (s : N) (c : ObjectId) : Vote.t := Vote.mk s c 1500.

(** A ledger giving [candA] five votes and [candB] three. *)
Definition fiveThree : Election.t :=
  Election.set_votes
    [ballot 101 candB; ballot 102 candA; ballot 103 candA; ballot 104 candB;
     ballot 105 candA; ballot 106 candA; ballot 107 candB; ballot 108 candA]
    blank.

Definition emptyDB : DB := mkDB [] [] [] [].

(** A collection that holds the election with that ledger. *)
Definition counting : DB := mkDB [] [] [fiveThree] [].

(** The same election once completed, and once cancelled with a ballot
    already in its ledger. *)
Definition finished : Election.t := Election.set_status completed blank.
Definition called_off : Election.t :=
  Election.set_status cancelled
    (Election.set_votes [ballot 101 candA] blank).

(** A class of two students with its teacher, an election in progress and
    its two approved candidates. *)
Definition asha : User.t :=
  User.mk 101%N "Asha" Role.student (Some 20%N) (Some "R1") true.
Definition ravi : User.t :=
  User.mk 102%N "Ravi" Role.student (Some 20%N) (Some "R2") true.
Definition meera : User.t :=
  User.mk 30%N "Meera" Role.teacher (Some 20%N) None true.

Definition classroom : Class.t := Class.mk 20%N (Some 30%N) true.
Definition otherClassroom : Class.t := Class.mk 21%N (Some 30%N) true.

Definition db : DB :=
  mkDB [asha; ravi; meera] [classroom; otherClassroom] [blank]
       [Candidate.mk candA 101%N 10%N true true;
        Candidate.mk candB 102%N 10%N true true].

(** The teacher schedules a second election for the class over
    [3000, 4000], then moves its start alone to [5000]. *)
Definition shifted : DB :=
  serveAll db
    [CreateElection 30%N (Some "BR poll") (Some "Branch representative")
       (Some "BR") (Some 20%N) (Some (ValidDate 3000))
       (Some (ValidDate 4000)) 2500 11%N;
     UpdateElection 30%N 11%N None None (Some (ValidDate 5000)) None None
       2600].

(** Asha votes twice while logged in, then her roll number is used twice on
    the public page. *)
Definition doubleVoting : list Call :=
  [CastVote 101%N 10%N candA 1500;
   CastVote 101%N 10%N candB 1600;
   SubmitPublicVote "tok" (Some candA) (Text "R1") "10.0.0.1" "ua" 1500;
   SubmitPublicVote "tok" (Some candB) (Text "R1") "10.0.0.2" "ua" 1600].

(** The same public vote sent twice, its roll number a JSON number. *)
Definition numberTwice : list Call :=
  [SubmitPublicVote "tok" (Some candA) (Number false "12345") "10.0.0.1"
                    "ua" 1500;
   SubmitPublicVote "tok" (Some candA) (Number false "12345") "10.0.0.1"
                    "ua" 1600].

End Sample.

(** * Vocabulary of the further properties *)

(** ** How a stored election may change *)

Definition isPrefix {A} (l l' : list A) : Prop := exists more, l' = l ++ more.

Definition tokenOf (e : Election.t) : option string :=
  QrCode.accessToken (Election.qrCode e).

(** [e'] is a later state of the document [e]: same identity, class, creator,
    type and public-access settings, ledgers extended at the end, and the
    access token, once set, the same. *)
Definition evolves (e e' : Election.t) : Prop :=
  Election._id e' = Election._id e
  /\ Election.class e' = Election.class e
  /\ Election.createdBy e' = Election.createdBy e
  /\ Election.electionType e' = Election.electionType e
  /\ Election.publicAccess e' = Election.publicAccess e
  /\ isPrefix (Election.votes e) (Election.votes e')
  /\ isPrefix (Election.anonymousVotes e) (Election.anonymousVotes e')
  /\ (truthy (tokenOf e) = true -> tokenOf e' = tokenOf e).

(** The id a request gives to a new election document. *)
Definition createdId (c : Call) : option ObjectId :=
  match c with
  | CreateElection _ _ _ _ _ _ _ _ newId => Some newId
  | _ => None
  end.

(** What one request does to the election collection. *)
Definition steady (c : Call) (es es' : list Election.t) : Prop :=
  es' = es
  \/ (exists x x', In x es /\ evolves x x' /\ es' = replaceFirst x' es)
  \/ (exists n, es' = es ++ [n]
                /\ createdId c = Some (Election._id n)
                /\ Election.votes n = []
                /\ Election.anonymousVotes n = []
                /\ PublicAccess.votingTimeSlots (Election.publicAccess n)
                   = []).

(** The driver hands out ids that are not in use. *)
Definition freshCall (db : DB) (c : Call) : Prop :=
  match createdId c with
  | Some i => ~ In i (map Election._id (elections db))
  | None => True
  end.

Fixpoint freshRun (db : DB) (calls : list Call) : Prop :=
  match calls with
  | [] => True
  | c :: rest => freshCall db c /\ freshRun (fst (serve db c)) rest
  end.

(** ** All modelled requests that write *)

Inductive Request :=
| Earlier (c : Call)
| AddVotingTimeSlot (sessionRole : option Role.t) (electionId : ObjectId)
                    (startTime endTime : JsDate)
| AddCandidate (teacherId id studentId : ObjectId) (symbol : option string)
               (newId : ObjectId)
| DeleteElection (id : ObjectId)
| DeleteClass (id : ObjectId)
| DeleteUser (sessionUserId id : ObjectId).

Definition handle (db : DB) (r : Request) : DB * Outcome :=
  match r with
  | Earlier c => serve db c
  | AddVotingTimeSlot ro i s e => addVotingTimeSlot db ro i s e
  | AddCandidate t i s sy n => addCandidate db t i s sy n
  | DeleteElection i => deleteElection db i
  | DeleteClass i => deleteClass db i
  | DeleteUser a i => deleteUser db a i
  end.

Definition handleAll (db : DB) (rs : list Request) : DB :=
  fold_left (fun d r => fst (handle d r)) rs db.

(** The admin's status form among all requests. *)
Definition adminForm (r : Request) : bool :=
  match r with
  | Earlier c => adminOverride c
  | _ => false
  end.

(** Every configured slot starts before it ends. *)
Definition slotsWellFormed (e : Election.t) : Prop :=
  Forall (fun s => TimeSlot.startTime s < TimeSlot.endTime s)
         (PublicAccess.votingTimeSlots (Election.publicAccess e)).

(** A student stands at most once in an election. *)
Definition candidacy (c : Candidate.t) : ObjectId * ObjectId :=
  (Candidate.student c, Candidate.election c).

Definition uniqueCandidacy (db : DB) : Prop :=
  NoDup (map candidacy (candidates db)).

(** ** Reading the statistics *)

(** [candidateVotes[id]], [None] for [undefined]. *)
Fixpoint tallyOf (k : ObjectId) (o : VoteCount) : option nat :=
  match o with
  | [] => None
  | (k', n) :: rest => if oid_eqb k' k then Some n else tallyOf k rest
  end.

Definition isListed (listed : list Candidate.t) (c : ObjectId) : bool :=
  existsb (fun x => oid_eqb (Candidate._id x) c) listed.

Definition tallySum (o : VoteCount) : nat :=
  fold_right (fun en acc => (snd en + acc)%nat) 0%nat o.

(** Ballots whose candidate is among the listed ones. *)
Definition listedBallots (listed : list Candidate.t) (votes : list Vote.t)
  : list Vote.t :=
  filter (fun v => isListed listed (Vote.candidate v)) votes.

(** A slot that is switched on and holds [now]. *)
Definition inSlot (now : Date) (slot : TimeSlot.t) : bool :=
  TimeSlot.isActive slot
  && (TimeSlot.startTime slot <=? now)
  && (now <=? TimeSlot.endTime slot).

(** The winner the tally elects, or else the one already stored. *)
Definition electedOrStored (e : Election.t) : option ObjectId :=
  match snd (pickWinner (groupVotes (Election.votes e))) with
  | Some w => Some w
  | None => Results.winner (Election.results e)
  end.

(** The document after a publication at [now]. *)
Definition publishedDoc (e : Election.t) (now : Date) : Election.t :=
  Election.set_results (Results.mk true (Some now) (electedOrStored e))
    (Election.set_status completed e).

(** The status moves [updateElection] can make. *)
Definition teacherMove (a b : Status) : Prop :=
  a = b
  \/ (a = pending /\ b = active)
  \/ (a = pending /\ b = cancelled)
  \/ (a = active /\ b = cancelled)
  \/ (a = active /\ b = completed).

(** ** References between the collections *)



Definition uniqueUsers (db : DB) : Prop :=
  NoDup (map User._id (users db)).

(** No candidate document carries the id [i] yet, and the election does not
    list it. *)
Definition unusedCandidateId (db : DB) (e : Election.t) (i : ObjectId)
  : Prop :=
  ~ In i (map Candidate._id (candidates db))
  /\ ~ In i (Election.candidates e).

(** ** Reading the student's lists *)

Definition shownActive (ls : ElectionLists) (e : Election.t) : Prop :=
  In e (map fst (activeElections ls)).

Definition shownUpcoming (ls : ElectionLists) (e : Election.t) : Prop :=
  In e (upcomingElections ls).

Definition shownPast (ls : ElectionLists) (e : Election.t) : Prop :=
  In e (map fst (pastElections ls)).

(** An election that has not run its course but whose status lags behind or
    runs ahead of its window: still pending although the start has passed, or
    already active although the start is to come. *)
Definition outOfStep (e : Election.t) (now : Date) : bool :=
  (now <=? Election.endDate e)
  && ((status_eqb (Election.status e) pending
       && (Election.startDate e <=? now))
      || (status_eqb (Election.status e) active
          && (now <? Election.startDate e))).

(** ** More sample data *)

Module Walkthrough.

(** The sample election with a window of slots from 1200 to 1600. *)
Definition slotted : DB :=
  fst (addVotingTimeSlot Sample.db (Some Role.teacher) 10%N
                         (ValidDate 1200) (ValidDate 1600)).

(** A pending election of the sample class, and the database holding it. *)
Definition upcoming : Election.t :=
  Election.mk 12%N "Other poll" "Sports captain" "Other" 20%N 3000 4000
    [] (QrCode.mk None None true) (PublicAccess.mk true true []) [] []
    pending 30%N (Results.mk false None None).

Definition planning : DB :=
  mkDB (users Sample.db) (classes Sample.db) [Sample.blank; upcoming]
       (candidates Sample.db).

(** An active election that was never opened by a QR token, holding one
    ballot. *)
Definition oneBallot : DB :=
  fst (castVote Sample.db 101%N 10%N Sample.candA 1500).

(** The cancelled sample election after its candidate A, who holds the one
    ballot of the ledger, was removed. *)
Definition afterRemoval : DB :=
  fst (removeCandidate (with_elections [Sample.called_off] Sample.db)
                       30%N 10%N Sample.candA).

(** Two slot requests, the second with its ends swapped, and a vote. *)
Definition slotRequests : list Request :=
  [AddVotingTimeSlot (Some Role.teacher) 10%N (ValidDate 1200)
                     (ValidDate 1600);
   AddVotingTimeSlot (Some Role.teacher) 10%N (ValidDate 1900)
                     (ValidDate 1700);
   Earlier (CastVote 101%N 10%N Sample.candA 1500)].

(** Asha is nominated twice for the pending election, Ravi once. *)
Definition nominations : list Request :=
  [AddCandidate 30%N 12%N 101%N (Some "star") 41%N;
   AddCandidate 30%N 12%N 101%N (Some "moon") 42%N;
   AddCandidate 30%N 12%N 102%N (Some "star") 43%N].

End Walkthrough.

(** * Properties *)

Lemma oid_eqb_eq (a b : ObjectId) : oid_eqb a b = true <-> a = b.
Proof. apply N.eqb_eq. Qed.

Lemma oid_eqb_neq (a b : ObjectId) : oid_eqb a b = false <-> a <> b.
Proof. apply N.eqb_neq. Qed.

Lemma oid_eqb_refl (a : ObjectId) : oid_eqb a a = true.
Proof. apply N.eqb_refl. Qed.

Lemma existsb_oid_In (c : ObjectId) (l : list ObjectId) :
  existsb (oid_eqb c) l = true <-> In c l.
Proof.
  rewrite existsb_exists. split.
  - intros (x & Hx & Heq). apply oid_eqb_eq in Heq. now subst.
  - intros H. exists c. split; [assumption | apply oid_eqb_refl].
Qed.

Lemma firstSeen_snoc (cs : list ObjectId) (c : ObjectId) :
  firstSeen (cs ++ [c]) = seeCandidate (firstSeen cs) c.
Proof. unfold firstSeen. now rewrite fold_left_app. Qed.

Lemma firstSeen_In (cs : list ObjectId) (c : ObjectId) :
  In c (firstSeen cs) <-> In c cs.
Proof.
  induction cs as [|x cs IH] using rev_ind.
  - reflexivity.
  - rewrite firstSeen_snoc, in_app_iff. unfold seeCandidate.
    destruct (existsb (oid_eqb x) (firstSeen cs)) eqn:E.
    + apply existsb_oid_In in E. rewrite IH. simpl.
      split; [tauto|]. intros [H|[H|[]]]; [assumption|].
      subst. now apply IH.
    + rewrite in_app_iff, IH. reflexivity.
Qed.

Lemma firstSeen_NoDup (cs : list ObjectId) : NoDup (firstSeen cs).
Proof.
  induction cs as [|x cs IH] using rev_ind.
  - constructor.
  - rewrite firstSeen_snoc. unfold seeCandidate.
    destruct (existsb (oid_eqb x) (firstSeen cs)) eqn:E; [assumption|].
    apply NoDup_app; [assumption | repeat constructor; simpl; tauto |].
    intros a Ha [Hx|[]]. subst a.
    apply existsb_oid_In in Ha. congruence.
Qed.

Lemma countFor_snoc (c : ObjectId) (votes : list Vote.t) (v : Vote.t) :
  countFor c (votes ++ [v])
  = (countFor c votes + if oid_eqb (Vote.candidate v) c then 1 else 0)%nat.
Proof.
  unfold countFor. rewrite filter_app, length_app. simpl.
  now destruct (oid_eqb (Vote.candidate v) c).
Qed.

Lemma countFor_zero (c : ObjectId) (votes : list Vote.t) :
  ~ In c (map Vote.candidate votes) -> countFor c votes = 0%nat.
Proof.
  unfold countFor. induction votes as [|v votes IH]; simpl; [reflexivity|].
  intros H. destruct (oid_eqb (Vote.candidate v) c) eqn:E.
  - apply oid_eqb_eq in E. tauto.
  - apply IH. tauto.
Qed.

Lemma countFor_pos (c : ObjectId) (votes : list Vote.t) :
  In c (map Vote.candidate votes) -> (0 < countFor c votes)%nat.
Proof.
  unfold countFor. induction votes as [|v votes IH]; simpl; [tauto|].
  intros [H|H].
  - subst. rewrite oid_eqb_refl. simpl. lia.
  - destruct (oid_eqb (Vote.candidate v) c); simpl; auto with arith.
Qed.

(** [bump] on a table with distinct keys. *)
Lemma bump_present (c : ObjectId) (f f' : ObjectId -> nat)
      (keys : list ObjectId) :
  NoDup keys -> In c keys ->
  f' c = S (f c) -> (forall k, k <> c -> f' k = f k) ->
  bump c (map (fun k => (k, f k)) keys) = map (fun k => (k, f' k)) keys.
Proof.
  intros Hnd Hin Hc Hk. induction keys as [|k keys IH]; [destruct Hin|].
  inversion Hnd as [|? ? Hnotin Hnd']; subst. simpl.
  destruct (oid_eqb k c) eqn:E.
  - apply oid_eqb_eq in E. subst k. rewrite Hc. f_equal.
    apply map_ext_in. intros a Ha. rewrite Hk; [reflexivity|].
    intros ->. contradiction.
  - apply oid_eqb_neq in E. rewrite (Hk k E). f_equal.
    apply IH; [assumption|]. destruct Hin; [congruence | assumption].
Qed.

Lemma bump_absent (c : ObjectId) (f f' : ObjectId -> nat)
      (keys : list ObjectId) :
  ~ In c keys ->
  f' c = 1%nat -> (forall k, k <> c -> f' k = f k) ->
  bump c (map (fun k => (k, f k)) keys)
  = map (fun k => (k, f' k)) (keys ++ [c]).
Proof.
  intros Hnotin Hc Hk. induction keys as [|k keys IH]; simpl.
  - now rewrite Hc.
  - destruct (oid_eqb k c) eqn:E.
    + apply oid_eqb_eq in E. subst. simpl in Hnotin. tauto.
    + apply oid_eqb_neq in E. rewrite (Hk k E). f_equal.
      apply IH. simpl in Hnotin. tauto.
Qed.

Lemma groupVotes_snoc (votes : list Vote.t) (v : Vote.t) :
  groupVotes (votes ++ [v]) = bump (Vote.candidate v) (groupVotes votes).
Proof. unfold groupVotes. now rewrite fold_left_app. Qed.

(** The table built by the first loop: one entry per candidate named in the
    ledger, in order of first appearance, holding that candidate's count. *)
Lemma groupVotes_closed_form (votes : list Vote.t) :
  groupVotes votes
  = map (fun c => (c, countFor c votes)) (ballotOrder votes).
Proof.
  unfold ballotOrder.
  induction votes as [|v votes IH] using rev_ind; [reflexivity|].
  rewrite groupVotes_snoc, IH, map_app. simpl.
  rewrite firstSeen_snoc. unfold seeCandidate.
  set (c := Vote.candidate v).
  destruct (existsb (oid_eqb c) (firstSeen (map Vote.candidate votes))) eqn:E.
  - apply existsb_oid_In in E.
    apply bump_present; [apply firstSeen_NoDup | assumption | |].
    + rewrite countFor_snoc. fold c. rewrite oid_eqb_refl. lia.
    + intros k Hk. rewrite countFor_snoc. fold c.
      assert (oid_eqb c k = false) as -> by (apply oid_eqb_neq; congruence).
      lia.
  - assert (~ In c (firstSeen (map Vote.candidate votes))) as Hn.
    { intros H. apply existsb_oid_In in H. congruence. }
    apply bump_absent; [assumption | |].
    + rewrite countFor_snoc. fold c. rewrite oid_eqb_refl.
      rewrite countFor_zero; [reflexivity|].
      intros H. apply Hn. now apply firstSeen_In.
    + intros k Hk. rewrite countFor_snoc. fold c.
      assert (oid_eqb c k = false) as -> by (apply oid_eqb_neq; congruence).
      lia.
Qed.

(** ** The second loop of [calculateResults] *)

Lemma pickStep_fold (vc : VoteCount) : forall m0 w0 m w,
  fold_left pickStep vc (m0, w0) = (m, w) ->
  (m = m0 /\ w = w0 /\ Forall (fun en => snd en <= m0)%nat vc)
  \/ (exists l1 c l2,
        vc = l1 ++ (c, m) :: l2 /\ w = Some c /\ (m0 < m)%nat
        /\ Forall (fun en => snd en < m)%nat l1
        /\ Forall (fun en => snd en <= m)%nat l2).
Proof.
  induction vc as [|[c n] vc IH]; intros m0 w0 m w H; simpl in H.
  - inversion H; subst. left. repeat split. constructor.
  - destruct (m0 <? n)%nat eqn:E.
    + apply Nat.ltb_lt in E. right.
      destruct (IH _ _ _ _ H) as [(-> & -> & Hall) | (l1 & c' & l2 & Hvc & Hw & Hlt & H1 & H2)].
      * exists [], c, vc. simpl. repeat split; auto.
      * exists ((c, n) :: l1), c', l2. subst vc. simpl.
        repeat split; auto; try lia.
    + apply Nat.ltb_ge in E.
      destruct (IH _ _ _ _ H) as [(-> & -> & Hall) | (l1 & c' & l2 & Hvc & Hw & Hlt & H1 & H2)].
      * left. repeat split. constructor; simpl; auto.
      * right. exists ((c, n) :: l1), c', l2. subst vc. simpl.
        repeat split; auto. constructor; simpl; auto; lia.
Qed.

Lemma map_eq_app_inv {A B} (f : A -> B) (l : list A) (l1 l2 : list B) (b : B) :
  map f l = l1 ++ b :: l2 ->
  exists k1 a k2, l = k1 ++ a :: k2 /\ map f k1 = l1 /\ f a = b /\ map f k2 = l2.
Proof.
  revert l. induction l1 as [|x l1 IH]; intros [|a l] H; simpl in H;
    try discriminate.
  - inversion H; subst. exists [], a, l. auto.
  - inversion H; subst. destruct (IH _ H2) as (k1 & a' & k2 & -> & <- & <- & <-).
    exists (a :: k1), a', k2. auto.
Qed.

(** What the two loops compute, read off the ledger. *)
Lemma pickWinner_ledger (votes : list Vote.t) (m : nat) (w : option ObjectId) :
  pickWinner (groupVotes votes) = (m, w) ->
  match w with
  | None => votes = [] /\ m = 0%nat
  | Some c =>
      m = countFor c votes
      /\ (0 < countFor c votes)%nat
      /\ (forall c', countFor c' votes <= countFor c votes)%nat
      /\ exists before after,
           ballotOrder votes = before ++ c :: after
           /\ forall c', In c' before ->
                         (countFor c' votes < countFor c votes)%nat
  end.
Proof.
  unfold pickWinner. rewrite groupVotes_closed_form. intros H.
  apply pickStep_fold in H.
  destruct H as [(-> & -> & Hall) | (l1 & c & l2 & Hvc & -> & Hlt & H1 & H2)].
  - split; [|reflexivity]. destruct votes as [|v votes]; [reflexivity|].
    exfalso. rewrite Forall_forall in Hall.
    assert (In (Vote.candidate v) (ballotOrder (v :: votes))) as Hin.
    { apply firstSeen_In. now left. }
    specialize (Hall (Vote.candidate v, countFor (Vote.candidate v) (v :: votes))).
    simpl in Hall.
    assert (0 < countFor (Vote.candidate v) (v :: votes))%nat.
    { apply countFor_pos. now left. }
    assert (countFor (Vote.candidate v) (v :: votes) <= 0)%nat; [|lia].
    apply Hall. apply in_map_iff. eauto.
  - apply map_eq_app_inv in Hvc.
    destruct Hvc as (k1 & a & k2 & Hord & Hk1 & Ha & Hk2).
    injection Ha as Hac Hm. subst a m.
    split; [reflexivity|]. split; [lia|]. split.
    + intros c'. destruct (in_dec N.eq_dec c' (map Vote.candidate votes)) as [Hin|Hn].
      * apply firstSeen_In in Hin. fold (ballotOrder votes) in Hin.
        rewrite Hord in Hin. apply in_app_iff in Hin.
        destruct Hin as [Hin|[->|Hin]]; [| lia |].
        -- rewrite Forall_forall in H1.
           specialize (H1 (c', countFor c' votes)). simpl in H1.
           apply Nat.lt_le_incl, H1. rewrite <- Hk1.
           apply in_map_iff. eauto.
        -- rewrite Forall_forall in H2.
           specialize (H2 (c', countFor c' votes)). simpl in H2.
           apply H2. rewrite <- Hk2. apply in_map_iff. eauto.
      * rewrite countFor_zero by assumption. lia.
    + exists k1, k2. split; [assumption|]. intros c' Hin.
      rewrite Forall_forall in H1.
      specialize (H1 (c', countFor c' votes)). simpl in H1.
      apply H1. rewrite <- Hk1. apply in_map_iff. eauto.
Qed.

Lemma two_way_total (A B : ObjectId) (votes : list Vote.t) :
  A <> B ->
  (forall v, In v votes -> Vote.candidate v = A \/ Vote.candidate v = B) ->
  List.length votes = (countFor A votes + countFor B votes)%nat.
Proof.
  intros Hab. unfold countFor.
  induction votes as [|v votes IH]; intros Hall; [reflexivity|].
  simpl. rewrite IH by (intros; apply Hall; now right).
  destruct (Hall v (or_introl eq_refl)) as [-> | ->].
  - rewrite oid_eqb_refl.
    assert (oid_eqb A B = false) as -> by now apply oid_eqb_neq.
    simpl. lia.
  - rewrite oid_eqb_refl.
    assert (oid_eqb B A = false) as -> by (apply oid_eqb_neq; congruence).
    simpl. lia.
Qed.

Lemma calculateResults_summary (db : DB) (e : Election.t) (now : Date) :
  snd (calculateResults db e now)
  = mkTally (List.length (Election.votes e)) (groupVotes (Election.votes e))
            (snd (pickWinner (groupVotes (Election.votes e))))
            (fst (pickWinner (groupVotes (Election.votes e)))).
Proof.
  unfold calculateResults.
  destruct (pickWinner (groupVotes (Election.votes e))) as [m [w|]];
    reflexivity.
Qed.

Lemma calculateResults_state (db : DB) (e : Election.t) (now : Date) :
  fst (calculateResults db e now)
  = match snd (pickWinner (groupVotes (Election.votes e))) with
    | Some w =>
        let e' :=
          Election.set_status completed
            (Election.set_results (Results.mk true (Some now) (Some w)) e) in
        (saveElection db e', e')
    | None => (db, e)
    end.
Proof.
  unfold calculateResults.
  destruct (pickWinner (groupVotes (Election.votes e))) as [m [w|]];
    reflexivity.
Qed.

(** ** Tallying *)

(** C1: [calculateResults] tallies the authenticated ledger only (the
    anonymous ledger never changes its answer), counts each candidate's
    votes, and elects the candidate with the most votes, the first one met in
    iteration order among equals: every candidate listed before the winner in
    the table has strictly fewer votes and nobody has more.  A candidate with
    strictly the most votes therefore wins, and a ledger with five votes for
    A and three for B makes A the stored winner with [totalVotes = 8]. *)
Theorem calculateResults_tally (db : DB) (e : Election.t) (now : Date)
    (db' : DB) (e' : Election.t) (r : TallyResult) :
  calculateResults db e now = (db', e', r) ->
  let votes := Election.votes e in
  (forall av,
      snd (calculateResults db (Election.set_anonymousVotes av e) now) = r)
  /\ totalVotes r = List.length votes
  /\ voteCounts r = map (fun c => (c, countFor c votes)) (ballotOrder votes)
  /\ (winnerId r = None <-> votes = [])
  /\ (forall w, winnerId r = Some w ->
        maxVotes r = countFor w votes
        /\ (forall c, countFor c votes <= countFor w votes)%nat
        /\ (exists before after,
               ballotOrder votes = before ++ w :: after
               /\ forall c, In c before ->
                            (countFor c votes < countFor w votes)%nat)
        /\ e' = Election.set_status completed
                  (Election.set_results
                     (Results.mk true (Some now) (Some w)) e)
        /\ db' = saveElection db e')
  /\ (forall w, (0 < countFor w votes)%nat ->
        (forall c, c <> w -> (countFor c votes < countFor w votes)%nat) ->
        winnerId r = Some w)
  /\ (forall A B, A <> B ->
        countFor A votes = 5%nat -> countFor B votes = 3%nat ->
        (forall v, In v votes ->
                   Vote.candidate v = A \/ Vote.candidate v = B) ->
        winnerId r = Some A /\ totalVotes r = 8%nat
        /\ Results.winner (Election.results e') = Some A).
Proof.
  intros Hcalc votes.
  pose proof (calculateResults_summary db e now) as Hsum.
  pose proof (calculateResults_state db e now) as Hst.
  rewrite Hcalc in Hsum, Hst. simpl in Hsum, Hst.
  destruct (pickWinner (groupVotes (Election.votes e))) as [m w] eqn:Hpick.
  pose proof (pickWinner_ledger _ _ _ Hpick) as Hled.
  simpl in Hsum, Hst. fold votes in Hsum, Hled, Hpick.
  assert (Hstrict : forall w0, (0 < countFor w0 votes)%nat ->
            (forall c, c <> w0 -> (countFor c votes < countFor w0 votes)%nat) ->
            winnerId r = Some w0).
  { intros w0 Hpos Hmost. subst r. simpl. destruct w as [c|].
    - destruct Hled as (_ & _ & Hmax & _).
      destruct (N.eq_dec c w0) as [->|Hne]; [reflexivity|].
      specialize (Hmost c Hne). specialize (Hmax w0). lia.
    - destruct Hled as [Hnil _]. unfold countFor in Hpos.
      rewrite Hnil in Hpos. simpl in Hpos. lia. }
  split; [|split; [|split; [|split; [|split; [|split]]]]].
  - intros av. rewrite calculateResults_summary. simpl.
    fold votes. rewrite Hpick. now subst r.
  - now subst r.
  - subst r. simpl. apply groupVotes_closed_form.
  - subst r. simpl. destruct w as [c|].
    + split; [discriminate|]. intros Hnil.
      destruct Hled as (_ & Hpos & _). unfold countFor in Hpos.
      rewrite Hnil in Hpos. simpl in Hpos. lia.
    + split; [intros _; apply Hled | reflexivity].
  - intros w0 Hw. subst r. simpl in Hw. subst w.
    destruct Hled as (Hm & _ & Hmax & Hord). simpl.
    injection Hst as Hdb He. repeat split; auto. now subst.
  - exact Hstrict.
  - intros A B Hab HA HB Hall.
    assert (winnerId r = Some A) as HwA.
    { apply Hstrict; [lia|]. intros c Hc.
      destruct (N.eq_dec c B) as [->|HcB]; [lia|].
      rewrite countFor_zero; [lia|].
      intros Hin. apply in_map_iff in Hin. destruct Hin as (v & Hv & Hin).
      destruct (Hall v Hin); congruence. }
    split; [assumption|]. split.
    + subst r. simpl. rewrite (two_way_total A B votes Hab Hall). lia.
    + subst r. simpl in HwA. subst w. injection Hst as Hdb He.
      now subst e'.
Qed.

Lemma calculateResults_tally_witness :
  winnerId (snd (calculateResults Sample.counting Sample.fiveThree 2500))
  = Some Sample.candA
  /\ totalVotes (snd (calculateResults Sample.counting Sample.fiveThree 2500))
     = 8%nat
  /\ Results.winner
       (Election.results
          (snd (fst (calculateResults Sample.counting Sample.fiveThree 2500))))
     = Some Sample.candA.
Proof.
  destruct (calculateResults Sample.counting Sample.fiveThree 2500)
    as [[db' e'] r] eqn:E.
  destruct (calculateResults_tally _ _ _ _ _ _ E)
    as (_ & _ & _ & _ & _ & _ & Hex).
  apply (Hex Sample.candA Sample.candB).
  - discriminate.
  - reflexivity.
  - reflexivity.
  - intros v Hin. simpl in Hin.
    repeat (destruct Hin as [<-|Hin]; [auto|]). destruct Hin.
Defined.

(** ** Saving documents *)

Lemma find_Forall {A} (P : A -> Prop) (f : A -> bool) (l : list A) (x : A) :
  Forall P l -> find f l = Some x -> P x.
Proof.
  intros Hall Hfind. apply find_some in Hfind.
  rewrite Forall_forall in Hall. now apply Hall.
Qed.

Lemma replaceFirst_Forall (P : Election.t -> Prop) (e : Election.t)
      (es : list Election.t) :
  Forall P es -> P e -> Forall P (replaceFirst e es).
Proof.
  intros Hall He. induction Hall as [|x es Hx Hall IH]; simpl.
  - constructor.
  - destruct (oid_eqb (Election._id x) (Election._id e)); constructor; auto.
Qed.

Lemma saveElection_Forall (P : Election.t -> Prop) (db : DB)
      (e : Election.t) :
  Forall P (elections db) -> P e -> Forall P (elections (saveElection db e)).
Proof. intros. simpl. now apply replaceFirst_Forall. Qed.

(** [calculateResults] writes nothing but [status] and [results]. *)
Lemma calculateResults_frame (db : DB) (e : Election.t) (now : Date) :
  let '(db', e', _) := calculateResults db e now in
  (db' = db \/ db' = saveElection db e')
  /\ (e' = e
      \/ exists w, e' = Election.set_status completed
                          (Election.set_results
                             (Results.mk true (Some now) (Some w)) e)).
Proof.
  unfold calculateResults.
  destruct (pickWinner (groupVotes (Election.votes e))) as [m [w|]]; simpl.
  - split; [now right | right; now exists w].
  - split; now left.
Qed.

(** ** One vote per voter *)

Lemma filter_none_length {A} (p : A -> bool) (l : list A) :
  existsb p l = false -> List.length (filter p l) = 0%nat.
Proof.
  induction l as [|a l IH]; simpl; [reflexivity|].
  destruct (p a); simpl; [discriminate | exact IH].
Qed.

Lemma ledgerInv_ballots (rolls : bool) (e e' : Election.t) :
  Election.votes e' = Election.votes e ->
  Election.anonymousVotes e' = Election.anonymousVotes e ->
  Election.publicAccess e' = Election.publicAccess e ->
  ledgerInv rolls e -> ledgerInv rolls e'.
Proof.
  intros Hv Ha Hp [H1 H2].
  unfold ledgerInv, votesBy, anonymousVotesBy, requiresRoll in *.
  rewrite Hv, Ha, Hp. now split.
Qed.

Lemma ledgerInv_castVote (rolls : bool) (e : Election.t) (s cid : ObjectId)
      (now : Date) :
  ledgerInv rolls e -> hasVoted e (Some s) Missing = false ->
  ledgerInv rolls
    (Election.set_votes (Election.votes e ++ [Vote.mk s cid now]) e).
Proof.
  intros [H1 H2] Hnot. split; [|exact H2].
  intros s'. unfold votesBy. simpl.
  rewrite filter_app, length_app. simpl.
  destruct (oid_eqb s s') eqn:E; simpl.
  - apply oid_eqb_eq in E. subst s'.
    unfold hasVoted in Hnot. simpl in Hnot.
    destruct (existsb (fun vote => oid_eqb (Vote.student vote) s)
                      (Election.votes e)) eqn:Hex; [discriminate|].
    rewrite (filter_none_length _ _ Hex). lia.
  - specialize (H1 s'). unfold votesBy in H1. lia.
Qed.

Lemma ledgerInv_anonymous (rolls : bool) (e : Election.t)
      (rollNumber : BodyValue) (v : AnonymousVote.t) :
  ledgerInv rolls e ->
  (requiresRoll e && negb (truthyValue rollNumber)) = false ->
  (truthyValue rollNumber && hasVoted e None rollNumber) = false ->
  (rolls = true -> truthyValue rollNumber = true ->
   rollNumber = Text (AnonymousVote.rollNumber v)) ->
  ledgerInv rolls
    (Election.set_anonymousVotes (Election.anonymousVotes e ++ [v]) e).
Proof.
  intros [H1 H2] Hreq Hdup Hroll. split; [exact H1|].
  unfold requiresRoll in *. simpl. intros Hrolls Hr r.
  rewrite Hr in Hreq. simpl in Hreq. apply negb_false_iff in Hreq.
  rewrite Hreq in Hdup. simpl in Hdup. specialize (Hroll Hrolls Hreq).
  unfold anonymousVotesBy. simpl. rewrite filter_app, length_app. simpl.
  specialize (H2 Hrolls Hr r). unfold anonymousVotesBy in H2.
  destruct (String.eqb r (AnonymousVote.rollNumber v)) eqn:E; simpl; [|lia].
  apply String.eqb_eq in E. subst r.
  unfold hasVoted in Hdup. rewrite Hreq, Hroll in Hdup. simpl in Hdup.
  destruct (existsb
              (fun vote => String.eqb (AnonymousVote.rollNumber vote)
                                      (AnonymousVote.rollNumber v))
              (Election.anonymousVotes e)) eqn:Hex; [discriminate|].
  rewrite (filter_ext _ (fun vote => String.eqb (AnonymousVote.rollNumber vote)
                                       (AnonymousVote.rollNumber v)))
    by (intros vote; apply String.eqb_sym).
  rewrite (filter_none_length _ _ Hex). lia.
Qed.

Lemma calculateResults_ledgerInv (rolls : bool) (db : DB) (e : Election.t)
      (now : Date) :
  Forall (ledgerInv rolls) (elections db) -> ledgerInv rolls e ->
  Forall (ledgerInv rolls) (elections (fst (fst (calculateResults db e now))))
  /\ ledgerInv rolls (snd (fst (calculateResults db e now))).
Proof.
  intros Hdb He. pose proof (calculateResults_frame db e now) as Hf.
  destruct (calculateResults db e now) as [[db' e'] r]. simpl.
  destruct Hf as [Hdb' He'].
  assert (ledgerInv rolls e') as Hinv.
  { destruct He' as [->|[w ->]]; [assumption|].
    eapply ledgerInv_ballots; [| | |exact He]; reflexivity. }
  split; [|assumption].
  destruct Hdb' as [->| ->]; [assumption|].
  now apply saveElection_Forall.
Qed.

Lemma updateText_frame (e : Election.t) (title description : option string) :
  updateText e title description
  = Election.set_description
      (Election.description (updateText e title description))
      (Election.set_title (Election.title (updateText e title description)) e).
Proof.
  unfold updateText. destruct e.
  destruct title, description; simpl;
    repeat match goal with
           | |- context [if ?b then _ else _] => destruct b
           end; reflexivity.
Qed.

Lemma updateDates_frame (e e' : Election.t) (startDate endDate : option JsDate)
      (now : Date) :
  updateDates e startDate endDate now = inl e' ->
  e' = Election.set_endDate (Election.endDate e')
         (Election.set_startDate (Election.startDate e') e).
Proof.
  unfold updateDates. destruct e as [i ti de ty cl sd ed cs qr pa av vs st cb rs].
  simpl.
  destruct (status_eqb st pending);
    [|intros H; inversion H; reflexivity].
  destruct startDate as [[ts|]|]; simpl; try discriminate;
    [destruct (now <? ts); simpl; try discriminate|];
    (destruct endDate as [[te|]|]; simpl; try discriminate;
     [match goal with
      | |- context [if ?b then _ else _] => destruct b
      end; try discriminate|]);
    intros H; inversion H; reflexivity.
Qed.

Ltac split_handler :=
  repeat match goal with
         | |- context [match ?x with _ => _ end] => destruct x eqn:?
         end.

Ltac keep_ballots H :=
  eapply ledgerInv_ballots; [| | |exact H]; reflexivity.

Lemma updateStatus_ledgerInv (rolls : bool) (db : DB) (e : Election.t)
      (status : option string) (now : Date) :
  Forall (ledgerInv rolls) (elections db) -> ledgerInv rolls e ->
  Forall (ledgerInv rolls) (elections (fst (updateStatus db e status now)))
  /\ ledgerInv rolls (snd (updateStatus db e status now)).
Proof.
  intros Hdb He. unfold updateStatus.
  pose proof (calculateResults_ledgerInv rolls db e now Hdb He) as [Hc1 Hc2].
  destruct (calculateResults db e now) as [[dc ec] rc]. simpl in Hc1, Hc2.
  split_handler; simpl; split; try assumption; keep_ballots He.
Qed.

Lemma serve_ledgerInv (rolls : bool) (db : DB) (c : Call) :
  (rolls = true -> sendsText c) ->
  Forall (ledgerInv rolls) (elections db) ->
  Forall (ledgerInv rolls) (elections (fst (serve db c))).
Proof.
  intros Htext Hdb. destruct c; simpl.
  - (* castVote *)
    unfold castVote. split_handler; simpl; try assumption.
    apply saveElection_Forall; [assumption|].
    apply ledgerInv_castVote; [|assumption].
    eapply find_Forall; eassumption.
  - (* submitPublicVote *)
    unfold submitPublicVote.
    destruct candidateId as [cid|]; [|assumption].
    destruct (findByToken db token) as [election|] eqn:Hfind; [|assumption].
    assert (ledgerInv rolls election) as He
        by (eapply find_Forall; eassumption).
    destruct (negb (isVotingAllowed election now)); [assumption|].
    destruct (PublicAccess.requireRollNumber (Election.publicAccess election)
              && negb (truthyValue rollNumber)) eqn:Hreq; [assumption|].
    destruct (truthyValue rollNumber && hasVoted election None rollNumber)
      eqn:Hdup; [assumption|].
    match goal with
    | |- context [if ?b then _ else _] => destruct b
    end; [assumption|].
    cbv zeta.
    destruct (if truthyValue rollNumber then castString rollNumber
              else Some (anonymousId now)) as [roll|] eqn:Hroll;
      [|assumption].
    destruct (String.eqb roll ""); [assumption|].
    apply saveElection_Forall; [assumption|].
    apply ledgerInv_anonymous with (rollNumber := rollNumber);
      try assumption.
    simpl. intros Hrolls Ht. specialize (Htext Hrolls). simpl in Htext.
    rewrite Ht in Hroll.
    destruct rollNumber; simpl in Htext, Ht, Hroll; try congruence.
    + rewrite Ht in Htext. discriminate Htext.
    + rewrite Ht in Htext. discriminate Htext.
  - (* generateElectionQR *)
    unfold generateElectionQR. split_handler; simpl; try assumption.
    all: apply replaceFirst_Forall; [assumption|].
    all: match goal with
         | H : findElection _ _ = Some ?e |- _ =>
             assert (ledgerInv rolls e) as He
                 by (eapply find_Forall; eassumption)
         end.
    all: keep_ballots He.
  - (* toggleQRAccess *)
    unfold toggleQRAccess. split_handler; simpl; try assumption.
    apply replaceFirst_Forall; [assumption|].
    match goal with
    | H : findElection _ _ = Some ?e |- _ =>
        assert (ledgerInv rolls e) as He by (eapply find_Forall; eassumption)
    end.
    keep_ballots He.
  - (* createElection *)
    unfold createElection. split_handler; simpl; try assumption.
    apply Forall_app. split; [assumption|].
    constructor; [|constructor]. split; simpl; intros; cbn; lia.
  - (* updateElection *)
    unfold updateElection.
    destruct (findElection db id) as [election|] eqn:Hfind; [|assumption].
    assert (ledgerInv rolls election) as He
        by (eapply find_Forall; eassumption).
    destruct (negb (hasPermission db election teacherId)); [assumption|].
    destruct (status_eqb (Election.status election) completed
              && negb (str_is status "completed")); [assumption|].
    destruct (updateDates (updateText election title description)
                          startDate endDate now) as [e3|msg] eqn:Hd;
      [|assumption].
    assert (ledgerInv rolls e3) as He3.
    { rewrite (updateDates_frame _ _ _ _ _ Hd).
      rewrite (updateText_frame election title description).
      keep_ballots He. }
    pose proof (updateStatus_ledgerInv rolls db e3 status now Hdb He3)
      as [Hs1 Hs2].
    destruct (updateStatus db e3 status now) as [db1 e4]. simpl in Hs1, Hs2.
    destruct (validates e4); simpl; [|assumption].
    now apply replaceFirst_Forall.
  - (* removeCandidate *)
    unfold removeCandidate.
    destruct (findElection db id) as [election|] eqn:Hfind; [|assumption].
    assert (ledgerInv rolls election) as He
        by (eapply find_Forall; eassumption).
    split_handler; simpl; try assumption.
    all: apply replaceFirst_Forall; [assumption|]; keep_ballots He.
  - (* publishResults *)
    unfold publishResults.
    destruct (findElection db id) as [election|] eqn:Hfind; [|assumption].
    assert (ledgerInv rolls election) as He
        by (eapply find_Forall; eassumption).
    destruct (negb (hasPermission db election teacherId)); [assumption|].
    match goal with
    | |- context [match ?st with Some _ => _ | None => _ end] =>
        destruct st as [e1|] eqn:Hst; [|assumption]
    end.
    assert (ledgerInv rolls e1) as He1.
    { revert Hst. split_handler; intros Hst; inversion Hst; subst;
        [keep_ballots He | assumption]. }
    pose proof (calculateResults_ledgerInv rolls db e1 now Hdb He1) as [Hc1 Hc2].
    destruct (calculateResults db e1 now) as [[dc ec] rc]. simpl in *.
    apply replaceFirst_Forall; [assumption|]. keep_ballots Hc2.
  - (* updateElectionStatus *)
    unfold updateElectionStatus.
    destruct (status_of_string status) as [st|]; [|assumption].
    destruct (findElection db id) as [election|] eqn:Hfind; [|assumption].
    assert (ledgerInv rolls election) as He
        by (eapply find_Forall; eassumption).
    assert (ledgerInv rolls (Election.set_status st election)) as He1
        by keep_ballots He.
    pose proof (calculateResults_ledgerInv rolls db _ now Hdb He1) as [Hc1 Hc2].
    destruct (calculateResults db (Election.set_status st election) now)
      as [[dc ec] rc]. simpl in Hc1, Hc2.
    destruct (str_is status "completed"); simpl;
      apply replaceFirst_Forall; assumption.
Qed.

Lemma serveAll_ledgerInv (rolls : bool) (calls : list Call) : forall db,
  (rolls = true -> Forall sendsText calls) ->
  Forall (ledgerInv rolls) (elections db) ->
  Forall (ledgerInv rolls) (elections (serveAll db calls)).
Proof.
  induction calls as [|c calls IH]; intros db Htext Hdb; [assumption|].
  simpl. apply IH.
  - intros Hrolls. specialize (Htext Hrolls). now inversion Htext.
  - apply serve_ledgerInv; [|assumption].
    intros Hrolls. specialize (Htext Hrolls). now inversion Htext.
Qed.

(** ** Voting window *)

Lemma status_eqb_eq (a b : Status) : status_eqb a b = true <-> a = b.
Proof. destruct a, b; simpl; split; congruence. Qed.

Lemma isActive_open (e : Election.t) (now : Date) :
  isActive e now = true ->
  Election.startDate e <= now <= Election.endDate e
  /\ Election.status e = active.
Proof.
  unfold isActive. rewrite !andb_true_iff, !Z.leb_le, status_eqb_eq. tauto.
Qed.

Lemma isVotingAllowed_isActive (e : Election.t) (now : Date) :
  isVotingAllowed e now = true -> isActive e now = true.
Proof.
  unfold isVotingAllowed. destruct (isActive e now); [reflexivity|].
  simpl. discriminate.
Qed.

(** C3: a vote submitted at [now] to an election with [now < startDate], or
    [now > endDate], or a stored status other than active, is rejected and
    nothing is written: the database, hence both ledgers, is as before.  The
    authenticated path addresses the election by id, the anonymous path by
    its QR token. *)
Theorem closed_election_rejects_votes (db : DB) (now : Date) :
  (forall studentId id candidateId,
      (forall e, In e (elections db) -> Election._id e = id ->
                 votingClosed e now) ->
      fst (castVote db studentId id candidateId now) = db
      /\ isSuccess (snd (castVote db studentId id candidateId now)) = false)
  /\ (forall token candidateId rollNumber clientIP userAgent,
        (forall e, In e (elections db) -> holdsToken token e = true ->
                   votingClosed e now) ->
        fst (submitPublicVote db token candidateId rollNumber
                              clientIP userAgent now) = db
        /\ isSuccess (snd (submitPublicVote db token candidateId rollNumber
                                            clientIP userAgent now)) = false).
Proof.
  split.
  - intros studentId id candidateId Hclosed. unfold castVote.
    destruct (findUser db studentId) as [u|]; [|now split].
    destruct (populateClass db u) as [cls|]; [|now split].
    destruct (findOpenElection db id (Class._id cls)) as [e|] eqn:Hfind;
      [|now split].
    apply find_some in Hfind. destruct Hfind as [Hin Hq].
    rewrite !andb_true_iff, oid_eqb_eq, status_eqb_eq in Hq.
    destruct Hq as [[Hid _] Hst].
    destruct (Hclosed e Hin Hid) as [Hlt | [Hgt | Hne]]; [| |contradiction].
    + apply Z.ltb_lt in Hlt. rewrite Hlt. now split.
    + apply Z.ltb_lt in Hgt. rewrite Hgt, orb_true_r. now split.
  - intros token candidateId rollNumber clientIP userAgent Hclosed.
    unfold submitPublicVote.
    destruct candidateId as [cid|]; [|now split].
    destruct (findByToken db token) as [e|] eqn:Hfind; [|now split].
    apply find_some in Hfind. destruct Hfind as [Hin Hq].
    apply andb_true_iff in Hq. destruct Hq as [Htok _].
    destruct (isVotingAllowed e now) eqn:Hallowed; [|now split].
    exfalso. apply isVotingAllowed_isActive, isActive_open in Hallowed.
    destruct (Hclosed e Hin Htok) as [Hlt | [Hgt | Hne]]; [lia | lia |].
    now apply Hne.
Qed.

Lemma closed_election_rejects_votes_witness :
  (fst (castVote Sample.db 101%N 10%N Sample.candA 500) = Sample.db
   /\ isSuccess (snd (castVote Sample.db 101%N 10%N Sample.candA 500))
      = false)
  /\ (fst (submitPublicVote Sample.db "tok" (Some Sample.candA) (Text "R1")
                            "10.0.0.1" "ua" 2500) = Sample.db
      /\ isSuccess (snd (submitPublicVote Sample.db "tok" (Some Sample.candA)
                                          (Text "R1") "10.0.0.1" "ua" 2500))
         = false).
Proof.
  split.
  - apply (proj1 (closed_election_rejects_votes Sample.db 500)).
    intros e [<-|[]] _. left. reflexivity.
  - apply (proj2 (closed_election_rejects_votes Sample.db 2500)).
    intros e [<-|[]] _. right. left. reflexivity.
Defined.

(** ** Creating elections *)

Lemma specOverlap_query (start end_ : Date) (e : Election.t) :
  specOverlap start end_ e -> overlapDisjuncts start end_ e = true.
Proof.
  unfold specOverlap, overlapDisjuncts. intros [H1 H2].
  rewrite !orb_true_iff, !andb_true_iff, !Z.leb_le. lia.
Qed.

Lemma query_specOverlap (start end_ : Date) (e : Election.t) :
  Election.startDate e <= Election.endDate e -> start <= end_ ->
  overlapDisjuncts start end_ e = true -> specOverlap start end_ e.
Proof.
  unfold specOverlap, overlapDisjuncts. intros He Hn.
  rewrite !orb_true_iff, !andb_true_iff, !Z.leb_le. lia.
Qed.

Lemma find_none_iff {A} (f : A -> bool) (l : list A) :
  find f l = None <-> forall x, In x l -> f x = false.
Proof.
  split; [apply find_none|].
  induction l as [|a l IH]; intros H; simpl; [reflexivity|].
  rewrite (H a (or_introl eq_refl)). apply IH. intros; apply H; now right.
Qed.

(** When a request goes through: the start may equal [now]. *)
Lemma createElection_accepts (db : DB) (teacherId classId : ObjectId)
      (t d ty : string) (start end_ now : Date) (newId : ObjectId) :
  validates (newElection newId teacherId classId t d ty start end_) = true ->
  (exists c, In c (classes db) /\ Class._id c = classId
             /\ Class.classTeacher c = Some teacherId
             /\ Class.active c = true) ->
  now <= start -> start < end_ ->
  (forall ex, In ex (elections db) -> Election.class ex = classId ->
              pendingOrActive ex ->
              overlapDisjuncts start end_ ex = false) ->
  createElection db teacherId (Some t) (Some d) (Some ty) (Some classId)
    (Some (ValidDate start)) (Some (ValidDate end_)) now newId
  = (with_elections
       (elections db
        ++ [newElection newId teacherId classId t d ty start end_])
       db,
     FlashSuccess "Election created successfully").
Proof.
  intros Hval (c & Hc & Hcid & Hteach & Hact) Hnow Hlt Hfree.
  unfold createElection.
  unfold validates, newElection in Hval. simpl in Hval.
  rewrite !andb_true_iff, !negb_true_iff in Hval.
  destruct Hval as [[Ht Hd] Hty].
  assert (truthy (Some t) = true) as ->.
  { simpl. destruct t; [|reflexivity]. discriminate Ht. }
  assert (truthy (Some d) = true) as -> by (simpl; now rewrite Hd).
  assert (truthy (Some ty) = true) as ->.
  { simpl. destruct ty; [|reflexivity]. simpl in Hty. discriminate Hty. }
  simpl negb. cbv iota. simpl orb. cbv iota.
  match goal with
  | |- context [match find ?f ?l with _ => _ end] =>
      destruct (find f l) eqn:Hcls
  end.
  2:{ exfalso. pose proof (find_none _ _ Hcls c Hc) as Hno.
      unfold teaches in Hno. rewrite Hteach, Hact, Hcid in Hno.
      rewrite !oid_eqb_refl in Hno. discriminate. }
  unfold date_lt, date_le.
  assert ((start <? now) = false) as -> by (apply Z.ltb_ge; lia).
  assert ((end_ <=? start) = false) as -> by (apply Z.leb_gt; lia).
  assert (find (overlapQuery classId start end_) (elections db) = None)
    as ->.
  { apply find_none_iff. intros ex Hin. unfold overlapQuery.
    destruct (oid_eqb (Election.class ex) classId) eqn:Ec; [|reflexivity].
    apply oid_eqb_eq in Ec.
    destruct (Election.status ex) eqn:Est; simpl; try reflexivity.
    - apply Hfree; [assumption..|]. left; assumption.
    - apply Hfree; [assumption..|]. right; assumption. }
  unfold validates. simpl. rewrite Ht, Hd, Hty. reflexivity.
Qed.

(** The overlap query and the inclusive test part ways on a document whose
    start lies after its end, which a start-only edit of a pending election
    produces: the third request below is refused for overlap although no
    stored election passes the inclusive test against [4500, 6000]. *)
Lemma overlap_query_is_not_the_inclusive_test :
  snd (createElection Sample.shifted 30%N (Some "Other poll")
         (Some "Another one") (Some "Other") (Some 20%N)
         (Some (ValidDate 4500)) (Some (ValidDate 6000)) 2700 12%N)
  = FlashError
      "There is already an election scheduled for this class during this time period"
  /\ Forall (fun e => ~ specOverlap 4500 6000 e) (elections Sample.shifted)
  /\ exists e, In e (elections Sample.shifted)
               /\ Election.status e = pending
               /\ overlapDisjuncts 4500 6000 e = true
               /\ ~ specOverlap 4500 6000 e.
Proof.
  split; [vm_compute; reflexivity|]. split.
  - vm_compute elections. repeat constructor; unfold specOverlap; simpl; lia.
  - eexists. split; [vm_compute elections; right; left; reflexivity|].
    split; [reflexivity|]. split; [reflexivity|].
    unfold specOverlap; simpl; lia.
Qed.

(** C4, as amended: [createElection] refuses a new election for class C
    whenever a pending or active election of C passes the inclusive overlap
    test against the requested window; the three-disjunct query is implied by
    that test, and equivalent to it when the stored election has
    [startDate <= endDate] and the window has [start <= end]; elections of
    other classes never stand in the way: a valid request for a class none of
    whose pending or active elections matches the query succeeds. *)
Theorem createElection_overlap (db : DB) (teacherId : ObjectId)
    (title description electionType : option string) (classId : ObjectId)
    (start end_ now : Date) (newId : ObjectId) :
  let run :=
    createElection db teacherId title description electionType (Some classId)
      (Some (ValidDate start)) (Some (ValidDate end_)) now newId in
  (forall ex, In ex (elections db) -> Election.class ex = classId ->
              pendingOrActive ex -> specOverlap start end_ ex ->
              fst run = db /\ isSuccess (snd run) = false)
  /\ (forall ex, specOverlap start end_ ex ->
                 overlapDisjuncts start end_ ex = true)
  /\ (forall ex, Election.startDate ex <= Election.endDate ex ->
                 start <= end_ ->
                 (overlapDisjuncts start end_ ex = true
                  <-> specOverlap start end_ ex))
  /\ (forall t d ty,
        title = Some t -> description = Some d -> electionType = Some ty ->
        validates (newElection newId teacherId classId t d ty start end_)
        = true ->
        (exists c, In c (classes db) /\ Class._id c = classId
                   /\ Class.classTeacher c = Some teacherId
                   /\ Class.active c = true) ->
        now <= start -> start < end_ ->
        (forall ex, In ex (elections db) -> Election.class ex = classId ->
                    pendingOrActive ex ->
                    overlapDisjuncts start end_ ex = false) ->
        run = (with_elections
                 (elections db
                  ++ [newElection newId teacherId classId t d ty start end_])
                 db,
               FlashSuccess "Election created successfully")).
Proof.
  intros run. split; [|split; [|split]].
  - intros ex Hin Hcl Hst Hov. subst run. unfold createElection.
    destruct title as [t|]; [|now split].
    destruct description as [d|]; [|now split].
    destruct electionType as [ty|]; [|now split].
    match goal with
    | |- context [if ?b then _ else _] => destruct b; [now split|]
    end.
    match goal with
    | |- context [match find ?f ?l with _ => _ end] =>
        destruct (find f l); [|now split]
    end.
    destruct (date_lt (ValidDate start) (ValidDate now)); [now split|].
    destruct (date_le (ValidDate end_) (ValidDate start)); [now split|].
    destruct (find (overlapQuery classId start end_) (elections db)) eqn:Hq;
      [now split|].
    exfalso. pose proof (find_none _ _ Hq ex Hin) as Hno.
    unfold overlapQuery in Hno.
    rewrite (specOverlap_query _ _ _ Hov), andb_true_r in Hno.
    assert (oid_eqb (Election.class ex) classId = true) as Hc
        by now apply oid_eqb_eq.
    rewrite Hc in Hno. simpl in Hno.
    destruct Hst as [Hs | Hs]; rewrite Hs in Hno; discriminate.
  - intros ex. apply specOverlap_query.
  - intros ex He Hn. split;
      [now apply query_specOverlap | apply specOverlap_query].
  - intros t d ty -> -> -> Hval Hcls Hnow Hlt Hfree. subst run.
    now apply createElection_accepts.
Qed.

Lemma createElection_overlap_witness :
  (fst (createElection Sample.db 30%N (Some "BR poll") (Some "Branch")
          (Some "BR") (Some 20%N) (Some (ValidDate 1500))
          (Some (ValidDate 2500)) 900 11%N) = Sample.db
   /\ isSuccess
        (snd (createElection Sample.db 30%N (Some "BR poll") (Some "Branch")
                (Some "BR") (Some 20%N) (Some (ValidDate 1500))
                (Some (ValidDate 2500)) 900 11%N)) = false)
  /\ createElection Sample.db 30%N (Some "BR poll") (Some "Branch")
       (Some "BR") (Some 21%N) (Some (ValidDate 1500))
       (Some (ValidDate 2500)) 900 11%N
     = (with_elections
          (elections Sample.db
           ++ [newElection 11%N 30%N 21%N "BR poll" "Branch" "BR" 1500 2500])
          Sample.db,
        FlashSuccess "Election created successfully").
Proof.
  split.
  - apply (proj1 (createElection_overlap Sample.db 30%N (Some "BR poll")
                    (Some "Branch") (Some "BR") 20%N 1500 2500 900 11%N)
                 Sample.blank).
    + left. reflexivity.
    + reflexivity.
    + right. reflexivity.
    + unfold specOverlap. simpl. lia.
  - apply (proj2 (proj2 (proj2
             (createElection_overlap Sample.db 30%N (Some "BR poll")
                (Some "Branch") (Some "BR") 21%N 1500 2500 900 11%N)))
             "BR poll" "Branch" "BR"); try reflexivity; try lia.
    + exists Sample.otherClassroom. repeat split. right. left. reflexivity.
    + intros ex [<-|[]] Hcl. discriminate Hcl.
Defined.

(** ** Lifecycle *)

Lemma findElection_In (db : DB) (i : ObjectId) (e : Election.t) :
  findElection db i = Some e -> In e (elections db) /\ Election._id e = i.
Proof.
  intros H. apply find_some in H. destruct H as [Hin Hid].
  apply oid_eqb_eq in Hid. now split.
Qed.

Lemma find_app_some {A} (f : A -> bool) (l l' : list A) (x : A) :
  find f l = Some x -> find f (l ++ l') = Some x.
Proof.
  induction l as [|a l IH]; simpl; [discriminate|].
  destruct (f a); auto.
Qed.

Lemma find_replaceFirst (i : ObjectId) (x : Election.t)
      (es : list Election.t) :
  find (fun e => oid_eqb (Election._id e) i) (replaceFirst x es)
  = if oid_eqb (Election._id x) i
    then match find (fun e => oid_eqb (Election._id e) i) es with
         | Some _ => Some x
         | None => None
         end
    else find (fun e => oid_eqb (Election._id e) i) es.
Proof.
  induction es as [|a es IH]; simpl.
  - now destruct (oid_eqb (Election._id x) i).
  - destruct (oid_eqb (Election._id a) (Election._id x)) eqn:Eax; simpl.
    + apply oid_eqb_eq in Eax. rewrite Eax.
      destruct (oid_eqb (Election._id x) i); reflexivity.
    + destruct (oid_eqb (Election._id a) i) eqn:Eai; simpl.
      * apply oid_eqb_eq in Eai. apply oid_eqb_neq in Eax.
        assert (oid_eqb (Election._id x) i = false) as ->
            by (apply oid_eqb_neq; congruence).
        reflexivity.
      * exact IH.
Qed.

Lemma replaceFirst_twice (a b : Election.t) (es : list Election.t) :
  Election._id a = Election._id b ->
  replaceFirst b (replaceFirst a es) = replaceFirst b es.
Proof.
  intros Hab. induction es as [|x es IH]; simpl; [reflexivity|].
  rewrite Hab. destruct (oid_eqb (Election._id x) (Election._id b)) eqn:E;
    simpl.
  - rewrite <- Hab at 1. now rewrite Hab, oid_eqb_refl.
  - rewrite E. now rewrite IH.
Qed.

Lemma uniqueIds_same (db : DB) (a b : Election.t) :
  uniqueIds db -> In a (elections db) -> In b (elections db) ->
  Election._id a = Election._id b -> a = b.
Proof.
  unfold uniqueIds. induction (elections db) as [|x es IH]; simpl;
    intros Hnd Ha Hb Hid; [destruct Ha|].
  inversion Hnd as [|? ? Hnotin Hnd']; subst.
  destruct Ha as [->|Ha], Hb as [->|Hb]; auto.
  - exfalso. apply Hnotin. rewrite Hid. now apply in_map.
  - exfalso. apply Hnotin. rewrite <- Hid. now apply in_map.
Qed.

Lemma keepsTerminal_refl (e : Election.t) : keepsTerminal e e.
Proof. now split. Qed.

Lemma keepsTerminal_trans (a b c : Election.t) :
  keepsTerminal a b -> keepsTerminal b c -> keepsTerminal a c.
Proof.
  intros [H1 H2] [H3 H4]. split; [congruence|].
  intros Ht. rewrite H4; [auto|]. now rewrite H2.
Qed.

Lemma calculateResults_keepsTerminal (db : DB) (e : Election.t) (now : Date) :
  Election.status e <> cancelled ->
  keepsTerminal e (snd (fst (calculateResults db e now))).
Proof.
  intros Hnc. pose proof (calculateResults_frame db e now) as Hf.
  destruct (calculateResults db e now) as [[db' e'] r]. simpl.
  destruct Hf as [_ [->|[w ->]]]; [apply keepsTerminal_refl|].
  split; [reflexivity|]. intros [Hc|Hc]; simpl; congruence.
Qed.

Lemma gentle_save (db : DB) (x x' : Election.t) :
  In x (elections db) -> keepsTerminal x x' ->
  gentle (elections db) (elections (saveElection db x')).
Proof. intros Hin Hk. right. left. exists x, x'. repeat split; auto; apply Hk. Qed.

Lemma updateStatus_keepsTerminal (db : DB) (e : Election.t)
      (status : option string) (now : Date) :
  keepsTerminal e (snd (updateStatus db e status now))
  /\ (fst (updateStatus db e status now) = db
      \/ fst (updateStatus db e status now)
         = saveElection db (snd (updateStatus db e status now))).
Proof.
  unfold updateStatus.
  destruct (truthy status); [|split; [apply keepsTerminal_refl | now left]].
  destruct (str_is status "completed"
            && status_eqb (Election.status e) active) eqn:E1.
  - apply andb_true_iff in E1. destruct E1 as [_ Hact].
    apply status_eqb_eq in Hact.
    pose proof (calculateResults_keepsTerminal db e now) as Hk.
    pose proof (calculateResults_frame db e now) as Hf.
    destruct (calculateResults db e now) as [[dc ec] rc]. simpl in *.
    split; [apply Hk; congruence | apply Hf].
  - destruct (str_is status "cancelled"
              && negb (status_eqb (Election.status e) completed)) eqn:E2.
    + simpl. split; [|now left]. split; [reflexivity|].
      apply andb_true_iff in E2. destruct E2 as [_ Hnc].
      apply negb_true_iff in Hnc.
      intros [Hc|Hc]; simpl; [|congruence].
      rewrite Hc in Hnc. discriminate.
    + destruct (str_is status "active"
                && status_eqb (Election.status e) pending) eqn:E3.
      * simpl. split; [|now left]. split; [reflexivity|].
        apply andb_true_iff in E3. destruct E3 as [_ Hp].
        apply status_eqb_eq in Hp. intros [Hc|Hc]; congruence.
      * simpl. split; [apply keepsTerminal_refl | now left].
Qed.

Lemma serve_gentle (db : DB) (c : Call) :
  adminOverride c = false ->
  gentle (elections db) (elections (fst (serve db c))).
Proof.
  intros Hc. destruct c; simpl in *; try discriminate.
  - (* castVote *)
    unfold castVote. split_handler; simpl; try (now left).
    match goal with
    | H : findOpenElection _ _ _ = Some ?e |- _ =>
        apply find_some in H; destruct H as [Hin _];
        apply (gentle_save db e); [assumption | now split]
    end.
  - (* submitPublicVote *)
    unfold submitPublicVote. split_handler; simpl; try (now left).
    all: match goal with
         | H : findByToken _ _ = Some ?e |- _ =>
             apply find_some in H; destruct H as [Hin _];
             apply (gentle_save db e); [assumption | now split]
         end.
  - (* generateElectionQR *)
    unfold generateElectionQR. split_handler; simpl; try (now left).
    all: match goal with
         | H : findElection _ _ = Some ?e |- _ =>
             apply findElection_In in H; destruct H as [Hin _];
             apply (gentle_save db e); [assumption | now split]
         end.
  - (* toggleQRAccess *)
    unfold toggleQRAccess. split_handler; simpl; try (now left).
    match goal with
    | H : findElection _ _ = Some ?e |- _ =>
        apply findElection_In in H; destruct H as [Hin _];
        apply (gentle_save db e); [assumption | now split]
    end.
  - (* createElection *)
    unfold createElection. split_handler; simpl; try (now left).
    right. right. eexists. reflexivity.
  - (* updateElection *)
    unfold updateElection.
    destruct (findElection db id) as [election|] eqn:Hfind; [|now left].
    apply findElection_In in Hfind. destruct Hfind as [Hin _].
    destruct (negb (hasPermission db election teacherId)); [now left|].
    destruct (status_eqb (Election.status election) completed
              && negb (str_is status "completed")); [now left|].
    destruct (updateDates (updateText election title description)
                          startDate endDate now) as [e3|msg] eqn:Hd;
      [|now left].
    assert (keepsTerminal election e3) as Hk3.
    { rewrite (updateDates_frame _ _ _ _ _ Hd).
      rewrite (updateText_frame election title description).
      now split. }
    pose proof (updateStatus_keepsTerminal db e3 status now) as [Hk4 Hdb1].
    destruct (updateStatus db e3 status now) as [db1 e4]. simpl in Hk4, Hdb1.
    destruct (validates e4); [|now left].
    right. left. exists election, e4.
    split; [assumption|]. split; [eapply keepsTerminal_trans; eassumption|].
    destruct Hdb1 as [->| ->]; simpl; [reflexivity|].
    now apply replaceFirst_twice.
  - (* removeCandidate *)
    unfold removeCandidate.
    destruct (findElection db id) as [election|] eqn:Hfind; [|now left].
    apply findElection_In in Hfind. destruct Hfind as [Hin _].
    split_handler; simpl; try (now left).
    all: right; left; eexists election, _;
      split; [assumption|]; split; [|reflexivity]; now split.
  - (* publishResults *)
    unfold publishResults.
    destruct (findElection db id) as [election|] eqn:Hfind; [|now left].
    apply findElection_In in Hfind. destruct Hfind as [Hin _].
    destruct (negb (hasPermission db election teacherId)); [now left|].
    match goal with
    | |- context [match ?st with Some _ => _ | None => _ end] =>
        destruct st as [e1|] eqn:Hst; [|now left]
    end.
    assert (keepsTerminal election e1 /\ Election.status e1 = completed)
      as [Hk1 Hs1].
    { destruct (status_eqb (Election.status election) completed) eqn:Ec;
        simpl in Hst.
      - injection Hst as <-. apply status_eqb_eq in Ec.
        split; [apply keepsTerminal_refl | assumption].
      - destruct (status_eqb (Election.status election) active
                  && (Election.endDate election <=? now)) eqn:Ea;
          [|discriminate].
        injection Hst as <-. apply andb_true_iff in Ea.
        destruct Ea as [Ha _]. apply status_eqb_eq in Ha.
        split; [|reflexivity]. split; [reflexivity|].
        intros [Ht|Ht]; congruence. }
    pose proof (calculateResults_keepsTerminal db e1 now) as Hk2.
    pose proof (calculateResults_frame db e1 now) as Hf.
    destruct (calculateResults db e1 now) as [[dc ec] rc]. simpl in *.
    right. left.
    exists election,
      (Election.set_results
         (Results.mk true (Some now) (Results.winner (Election.results ec)))
         ec).
    split; [assumption|]. split.
    + eapply keepsTerminal_trans; [exact Hk1|].
      eapply keepsTerminal_trans; [apply Hk2; congruence|]. now split.
    + destruct Hf as [[->| ->] _]; simpl; [reflexivity|].
      now apply replaceFirst_twice.
Qed.

(** The admin's status form moves a completed election back to active, and
    [calculateResults] on a cancelled election that holds a ballot marks it
    completed. *)
Lemma terminal_status_can_change :
  (terminal (Election.status Sample.finished)
   /\ option_map Election.status
        (findElection
           (fst (updateElectionStatus
                   (with_elections [Sample.finished] Sample.db) 10%N
                   (Some "active") 2500)) 10%N)
      = Some active)
  /\ (terminal (Election.status Sample.called_off)
      /\ Election.status
           (snd (fst (calculateResults
                        (with_elections [Sample.called_off] Sample.db)
                        Sample.called_off 2500)))
         = completed).
Proof.
  split; split; try reflexivity; [left | right]; reflexivity.
Qed.

(** A completed or cancelled election keeps its status under every request
    of [serve] except the admin's status form. *)
Lemma serve_keeps_terminal (db : DB) (c : Call) (i : ObjectId)
    (e : Election.t) :
  uniqueIds db -> adminOverride c = false ->
  findElection db i = Some e -> terminal (Election.status e) ->
  exists e', findElection (fst (serve db c)) i = Some e'
             /\ Election.status e' = Election.status e.
Proof.
  intros Huniq Hc Hfind Hterm.
  pose proof (serve_gentle db c Hc) as Hg.
  unfold findElection in *.
  destruct Hg as [-> | [(x & x' & Hin & [Hid Hst] & ->) | (n & ->)]].
  - eauto.
  - rewrite find_replaceFirst.
    destruct (oid_eqb (Election._id x') i) eqn:E.
    + rewrite Hfind. exists x'. split; [reflexivity|].
      apply oid_eqb_eq in E.
      destruct (findElection_In db i e Hfind) as [Hine Hide].
      assert (x = e) as -> by
          (apply (uniqueIds_same db); auto; congruence).
      auto.
    + eauto.
  - rewrite (find_app_some _ _ _ _ Hfind). eauto.
Qed.

(** ** QR access *)

Lemma replaceFirst_In (db : DB) (x' x : Election.t) :
  uniqueIds db -> In x (replaceFirst x' (elections db)) ->
  x = x' \/ (In x (elections db) /\ Election._id x <> Election._id x').
Proof.
  unfold uniqueIds. induction (elections db) as [|a es IH]; simpl;
    intros Hnd Hin; [destruct Hin|].
  inversion Hnd as [|? ? Hnotin Hnd']; subst.
  destruct (oid_eqb (Election._id a) (Election._id x')) eqn:E.
  - apply oid_eqb_eq in E. destruct Hin as [<-|Hin]; [now left|].
    right. split; [now right|]. intros Heq. apply Hnotin.
    rewrite E, <- Heq. now apply in_map.
  - apply oid_eqb_neq in E. destruct Hin as [<-|Hin].
    + right. split; [now left | assumption].
    + destruct (IH Hnd' Hin) as [->|[H1 H2]]; [now left|].
      right. split; [now right | assumption].
Qed.

Lemma replaceFirst_found (i : ObjectId) (e : Election.t)
      (es : list Election.t) :
  find (fun x => oid_eqb (Election._id x) i) es = Some e ->
  replaceFirst e es = es.
Proof.
  induction es as [|a es IH]; simpl; [reflexivity|].
  destruct (oid_eqb (Election._id a) i) eqn:E.
  - intros H. injection H as ->. now rewrite oid_eqb_refl.
  - intros H. pose proof (find_some _ _ H) as [_ Hid].
    apply oid_eqb_eq in Hid. apply oid_eqb_neq in E.
    assert (oid_eqb (Election._id a) (Election._id e) = false) as ->
        by (apply oid_eqb_neq; congruence).
    now rewrite IH.
Qed.

Lemma toggleQRAccess_run (db : DB) (role : option Role.t) (id : ObjectId)
      (e : Election.t) :
  mayManageQR role = true -> findElection db id = Some e ->
  toggleQRAccess db role id
  = (saveElection db
       (Election.set_qrCode
          (QrCode.mk (QrCode.data (Election.qrCode e))
                     (QrCode.accessToken (Election.qrCode e))
                     (negb (QrCode.isEnabled (Election.qrCode e))))
          e),
     JsonOk).
Proof.
  intros Hrole Hfind. unfold toggleQRAccess. now rewrite Hrole, Hfind.
Qed.

(** C6: with QR access switched off, a public vote carrying the election's
    own token is refused with the invalid-link error and writes nothing; the
    stored token is the same as before; switching access on again restores
    the database exactly, so every public vote is answered as it was before
    the two toggles, under the same token. *)
Theorem toggle_disables_link_and_keeps_token (db : DB) (role : option Role.t)
    (id : ObjectId) (e : Election.t) (token : string) :
  uniqueIds db -> mayManageQR role = true ->
  findElection db id = Some e ->
  QrCode.accessToken (Election.qrCode e) = Some token ->
  QrCode.isEnabled (Election.qrCode e) = true ->
  (forall x, In x (elections db) -> holdsToken token x = true ->
             Election._id x = id) ->
  let off := fst (toggleQRAccess db role id) in
  let on := fst (toggleQRAccess off role id) in
  (exists e1, findElection off id = Some e1
              /\ QrCode.accessToken (Election.qrCode e1) = Some token
              /\ QrCode.isEnabled (Election.qrCode e1) = false)
  /\ (forall cid rollNumber clientIP userAgent now,
        submitPublicVote off token (Some cid) rollNumber clientIP userAgent now
        = (off, FlashError "Invalid or expired voting link"))
  /\ on = db
  /\ (forall candidateId rollNumber clientIP userAgent now,
        submitPublicVote on token candidateId rollNumber clientIP userAgent now
        = submitPublicVote db token candidateId rollNumber clientIP
                           userAgent now).
Proof.
  intros Huniq Hrole Hfind Htok Hen Hown off on.
  destruct (findElection_In db id e Hfind) as [Hin Hid].
  set (e1 := Election.set_qrCode
               (QrCode.mk (QrCode.data (Election.qrCode e))
                          (QrCode.accessToken (Election.qrCode e))
                          (negb (QrCode.isEnabled (Election.qrCode e))))
               e).
  assert (Hoff : off = saveElection db e1).
  { unfold off. now rewrite (toggleQRAccess_run db role id e Hrole Hfind). }
  assert (Hfind1 : findElection off id = Some e1).
  { rewrite Hoff. unfold findElection in *. simpl.
    rewrite find_replaceFirst. simpl. rewrite Hid, oid_eqb_refl.
    now rewrite Hfind. }
  assert (Hon : on = db).
  { unfold on. rewrite (toggleQRAccess_run off role id e1 Hrole Hfind1).
    cbv [fst].
    assert (Election.set_qrCode
              (QrCode.mk (QrCode.data (Election.qrCode e1))
                         (QrCode.accessToken (Election.qrCode e1))
                         (negb (QrCode.isEnabled (Election.qrCode e1))))
              e1 = e) as ->.
    { unfold e1.
      destruct e as [i ti de ty cl sd ed cs [qd qt qe] pa av vs st cb rs].
      simpl. now rewrite negb_involutive. }
    rewrite Hoff. unfold saveElection, with_elections. cbn [elections].
    rewrite (replaceFirst_twice e1 e) by reflexivity.
    unfold findElection in Hfind.
    rewrite (replaceFirst_found id e _ Hfind). now destruct db. }
  split; [|split; [|split]].
  - exists e1. split; [assumption|]. unfold e1. simpl.
    rewrite Hen. now split.
  - intros cid rollNumber clientIP userAgent now. unfold submitPublicVote.
    assert (findByToken off token = None) as ->; [|reflexivity].
    unfold findByToken. apply find_none_iff. intros x Hx.
    rewrite Hoff in Hx. simpl in Hx.
    destruct (replaceFirst_In db e1 x Huniq Hx) as [->|[Hxin Hne]].
    + unfold e1. simpl. rewrite Hen. apply andb_false_r.
    + destruct (str_is (QrCode.accessToken (Election.qrCode x)) token)
        eqn:Hx_tok; [|reflexivity].
      exfalso. apply Hne. unfold e1. simpl.
      rewrite (Hown x Hxin Hx_tok). congruence.
  - exact Hon.
  - intros. now rewrite Hon.
Qed.

Lemma toggle_disables_link_and_keeps_token_witness :
  let off := fst (toggleQRAccess Sample.db (Some Role.teacher) 10%N) in
  let on := fst (toggleQRAccess off (Some Role.teacher) 10%N) in
  submitPublicVote off "tok" (Some Sample.candA) (Text "R1") "10.0.0.1" "ua"
                   1500
  = (off, FlashError "Invalid or expired voting link")
  /\ on = Sample.db.
Proof.
  intros off on.
  destruct (toggle_disables_link_and_keeps_token Sample.db
              (Some Role.teacher) 10%N Sample.blank "tok")
    as (_ & Hoff & Hon & _).
  - unfold uniqueIds. simpl. repeat constructor. simpl. tauto.
  - reflexivity.
  - reflexivity.
  - reflexivity.
  - reflexivity.
  - intros x [<-|[]] _. reflexivity.
  - split; [apply Hoff | exact Hon].
Defined.

(** Before the toggle the same public vote is recorded. *)
Example public_vote_accepted_while_enabled :
  option_map (anonymousVotesBy "R1")
    (findElection
       (fst (submitPublicVote Sample.db "tok" (Some Sample.candA)
               (Text "R1") "10.0.0.1" "ua" 1500)) 10%N)
  = Some 1%nat.
Proof. reflexivity. Qed.

(** ** Date validation of [createElection] *)

Lemma createElection_refuses_past_start (db : DB) (teacherId : ObjectId)
      (title description electionType : option string)
      (classId : option ObjectId) (endDate : option JsDate)
      (start now : Date) (newId : ObjectId) :
  start < now ->
  fst (createElection db teacherId title description electionType classId
         (Some (ValidDate start)) endDate now newId) = db
  /\ isSuccess
       (snd (createElection db teacherId title description electionType
               classId (Some (ValidDate start)) endDate now newId)) = false.
Proof.
  intros Hlt. unfold createElection. apply Z.ltb_lt in Hlt.
  destruct title, description, electionType, classId, endDate;
    try (now split).
  match goal with
  | |- context [if ?b then _ else _] => destruct b; [now split|]
  end.
  match goal with
  | |- context [match find ?f ?l with _ => _ end] =>
      destruct (find f l); [|now split]
  end.
  simpl. rewrite Hlt. now split.
Qed.

Lemma createElection_refuses_short_window (db : DB) (teacherId : ObjectId)
      (title description electionType : option string)
      (classId : option ObjectId) (start end_ now : Date) (newId : ObjectId) :
  end_ <= start ->
  fst (createElection db teacherId title description electionType classId
         (Some (ValidDate start)) (Some (ValidDate end_)) now newId) = db
  /\ isSuccess
       (snd (createElection db teacherId title description electionType
               classId (Some (ValidDate start)) (Some (ValidDate end_)) now
               newId)) = false.
Proof.
  intros Hle. unfold createElection. apply Z.leb_le in Hle.
  destruct title, description, electionType, classId; try (now split).
  match goal with
  | |- context [if ?b then _ else _] => destruct b; [now split|]
  end.
  match goal with
  | |- context [match find ?f ?l with _ => _ end] =>
      destruct (find f l); [|now split]
  end.
  simpl. rewrite Hle. destruct (start <? now); now split.
Qed.

(** C7: [createElection] refuses a start before [now] and an end that is
    not after the start, but it tests [start < now]: a request whose start
    equals [now], otherwise valid, is accepted and stored. *)
Theorem createElection_start_boundary (db : DB) (teacherId classId : ObjectId)
    (t d ty : string) (start end_ now : Date) (newId : ObjectId) :
  (start < now ->
   isSuccess
     (snd (createElection db teacherId (Some t) (Some d) (Some ty)
             (Some classId) (Some (ValidDate start)) (Some (ValidDate end_))
             now newId)) = false)
  /\ (end_ <= start ->
      isSuccess
        (snd (createElection db teacherId (Some t) (Some d) (Some ty)
                (Some classId) (Some (ValidDate start))
                (Some (ValidDate end_)) now newId)) = false)
  /\ (start = now ->
      validates (newElection newId teacherId classId t d ty start end_)
      = true ->
      (exists c, In c (classes db) /\ Class._id c = classId
                 /\ Class.classTeacher c = Some teacherId
                 /\ Class.active c = true) ->
      start < end_ ->
      (forall ex, In ex (elections db) -> Election.class ex = classId ->
                  pendingOrActive ex ->
                  overlapDisjuncts start end_ ex = false) ->
      createElection db teacherId (Some t) (Some d) (Some ty) (Some classId)
        (Some (ValidDate start)) (Some (ValidDate end_)) now newId
      = (with_elections
           (elections db
            ++ [newElection newId teacherId classId t d ty start end_])
           db,
         FlashSuccess "Election created successfully")).
Proof.
  split; [|split].
  - intros H. now apply createElection_refuses_past_start.
  - intros H. now apply createElection_refuses_short_window.
  - intros -> Hval Hcls Hlt Hfree. apply createElection_accepts; auto. lia.
Qed.

Lemma createElection_start_boundary_witness :
  createElection Sample.db 30%N (Some "BR poll") (Some "Branch") (Some "BR")
    (Some 21%N) (Some (ValidDate 900)) (Some (ValidDate 2500)) 900 11%N
  = (with_elections
       (elections Sample.db
        ++ [newElection 11%N 30%N 21%N "BR poll" "Branch" "BR" 900 2500])
       Sample.db,
     FlashSuccess "Election created successfully").
Proof.
  apply (proj2 (proj2 (createElection_start_boundary Sample.db 30%N 21%N
                         "BR poll" "Branch" "BR" 900 2500 900 11%N)));
    try reflexivity.
  - exists Sample.otherClassroom. repeat split. right. left. reflexivity.
  - intros ex [<-|[]] Hcl. discriminate Hcl.
Defined.

(** The sibling check in [updateElection] is strict: moving the start of a
    pending election to [now] is refused. *)
Example updateElection_refuses_start_now :
  snd (updateElection Sample.shifted 30%N 11%N None None
         (Some (ValidDate 2800)) None None 2800)
  = FlashError "Start date must be in the future".
Proof. reflexivity. Qed.

(** ** Removing candidates *)

(** A candidate is removed from a cancelled election. *)
Lemma removeCandidate_from_cancelled :
  let db0 := with_elections [Sample.called_off] Sample.db in
  let run := removeCandidate db0 30%N 10%N Sample.candA in
  Election.status Sample.called_off = cancelled
  /\ snd run = FlashSuccess "Candidate Asha has been removed"
  /\ option_map Election.candidates (findElection (fst run) 10%N)
     = Some [Sample.candB]
  /\ findCandidate (fst run) Sample.candA = None
  /\ findCandidate db0 Sample.candA <> None.
Proof.
  simpl. repeat split; try reflexivity. discriminate.
Qed.

(** C8, as amended: [removeCandidate] is refused whenever the election is
    active or completed, and then neither the election nor the candidate
    collection changes; on a pending or cancelled election a permitted
    request naming a candidate of that election takes it off the election's
    list and deletes its document. *)
Theorem removeCandidate_guard (db : DB) (teacherId id candidateId : ObjectId)
    (e : Election.t) :
  findElection db id = Some e ->
  (Election.status e = active \/ Election.status e = completed ->
   fst (removeCandidate db teacherId id candidateId) = db
   /\ isSuccess (snd (removeCandidate db teacherId id candidateId)) = false)
  /\ (Election.status e = pending \/ Election.status e = cancelled ->
      hasPermission db e teacherId = true ->
      forall c,
        find (fun c => oid_eqb (Candidate._id c) candidateId
                       && oid_eqb (Candidate.election c) id)
             (candidates db) = Some c ->
        elections (fst (removeCandidate db teacherId id candidateId))
        = replaceFirst
            (Election.set_candidates
               (filter (fun x => negb (oid_eqb x candidateId))
                       (Election.candidates e)) e)
            (elections db)
        /\ candidates (fst (removeCandidate db teacherId id candidateId))
           = deleteCandidate (Candidate._id c) (candidates db)).
Proof.
  intros Hfind. unfold removeCandidate. rewrite Hfind. split.
  - intros Hst. destruct (negb (hasPermission db e teacherId)); [now split|].
    destruct Hst as [-> | ->]; now split.
  - intros Hst Hperm c Hc. rewrite Hperm, Hc. simpl negb. cbv iota.
    assert (status_eqb (Election.status e) active
            || status_eqb (Election.status e) completed = false) as ->
        by (destruct Hst as [-> | ->]; reflexivity).
    destruct (findUser db (Candidate.student c)); now split.
Qed.

Lemma removeCandidate_guard_witness :
  (fst (removeCandidate Sample.db 30%N 10%N Sample.candA) = Sample.db
   /\ isSuccess (snd (removeCandidate Sample.db 30%N 10%N Sample.candA))
      = false)
  /\ (elections
        (fst (removeCandidate (with_elections [Sample.called_off] Sample.db)
                30%N 10%N Sample.candA))
      = replaceFirst
          (Election.set_candidates
             (filter (fun x => negb (oid_eqb x Sample.candA))
                     (Election.candidates Sample.called_off))
             Sample.called_off)
          [Sample.called_off]
      /\ candidates
           (fst (removeCandidate
                   (with_elections [Sample.called_off] Sample.db)
                   30%N 10%N Sample.candA))
         = deleteCandidate Sample.candA (candidates Sample.db)).
Proof.
  split.
  - apply (proj1 (removeCandidate_guard Sample.db 30%N 10%N Sample.candA
                    Sample.blank eq_refl)).
    left. reflexivity.
  - apply (proj2 (removeCandidate_guard
                    (with_elections [Sample.called_off] Sample.db)
                    30%N 10%N Sample.candA Sample.called_off eq_refl)
                 (or_intror eq_refl) eq_refl
                 (Candidate.mk Sample.candA 101%N 10%N true true) eq_refl).
Defined.

(** ** The already-voted check of [castVote] *)

Lemma existsb_filter_zero {A} (p : A -> bool) (l : list A) :
  List.length (filter p l) = 0%nat -> existsb p l = false.
Proof.
  induction l as [|a l IH]; simpl; [reflexivity|].
  destruct (p a); simpl; [discriminate | exact IH].
Qed.

Lemma existsb_filter_pos {A} (p : A -> bool) (l : list A) :
  (1 <= List.length (filter p l))%nat -> existsb p l = true.
Proof.
  induction l as [|a l IH]; simpl; [lia|].
  destruct (p a); simpl; [reflexivity | exact IH].
Qed.

(** C9: the already-voted check of [castVote] reads the authenticated ledger
    only.  A student whose roll number already sits in the anonymous ledger
    of an open election of their class, and who has no authenticated entry
    there, passes the check -- [hasVoted] is asked without a roll number,
    though with it the answer would be yes -- and the vote for an approved
    candidate is appended to the authenticated ledger. *)
Theorem castVote_ignores_anonymous_ledger (db : DB)
    (studentId id cid : ObjectId) (now : Date) (u : User.t) (cls : Class.t)
    (e : Election.t) (c : Candidate.t) (r : string) :
  findUser db studentId = Some u ->
  populateClass db u = Some cls ->
  findOpenElection db id (Class._id cls) = Some e ->
  Election.startDate e <= now <= Election.endDate e ->
  User.rollNumber u = Some r ->
  (1 <= anonymousVotesBy r e)%nat ->
  votesBy studentId e = 0%nat ->
  findApprovedCandidate db cid id = Some c ->
  hasVoted e (Some studentId) Missing = false
  /\ (r <> "" -> hasVoted e (Some studentId) (Text r) = true)
  /\ castVote db studentId id cid now
     = (saveElection db
          (Election.set_votes
             (Election.votes e ++ [Vote.mk studentId cid now]) e),
        FlashSuccess "Your vote has been successfully recorded").
Proof.
  intros Hu Hcls He Hwin Hroll Hanon Hnone Hcand.
  assert (existsb (fun vote => oid_eqb (Vote.student vote) studentId)
                  (Election.votes e) = false) as Hreg
      by (apply existsb_filter_zero; exact Hnone).
  assert (hasVoted e (Some studentId) Missing = false) as Hnot
      by (unfold hasVoted; now rewrite Hreg).
  split; [exact Hnot|]. split.
  - intros Hr. unfold hasVoted. rewrite Hreg. simpl.
    assert (String.eqb r "" = false) as -> by now apply String.eqb_neq.
    simpl. unfold anonymousVotesBy in Hanon.
    rewrite (filter_ext _ (fun vote =>
                             String.eqb (AnonymousVote.rollNumber vote) r))
      in Hanon by (intros vote; apply String.eqb_sym).
    now rewrite (existsb_filter_pos _ _ Hanon).
  - unfold castVote. rewrite Hu, Hcls, He, Hnot, Hcand.
    assert ((now <? Election.startDate e) = false) as ->
        by (apply Z.ltb_ge; lia).
    assert ((Election.endDate e <? now) = false) as ->
        by (apply Z.ltb_ge; lia).
    reflexivity.
Qed.

Lemma castVote_ignores_anonymous_ledger_witness :
  let db1 :=
    fst (submitPublicVote Sample.db "tok" (Some Sample.candA) (Text "R1")
                          "10.0.0.1" "ua" 1500) in
  option_map (anonymousVotesBy "R1") (findElection db1 10%N) = Some 1%nat
  /\ snd (castVote db1 101%N 10%N Sample.candB 1600)
     = FlashSuccess "Your vote has been successfully recorded"
  /\ option_map (votesBy 101%N)
       (findElection (fst (castVote db1 101%N 10%N Sample.candB 1600))
                     10%N)
     = Some 1%nat.
Proof.
  intros db1. split; [reflexivity|].
  destruct (findOpenElection db1 10%N 20%N) as [e|] eqn:He;
    [|discriminate He].
  destruct (castVote_ignores_anonymous_ledger db1 101%N 10%N Sample.candB
              1600 Sample.asha Sample.classroom e
              (Candidate.mk Sample.candB 102%N 10%N true true) "R1")
    as (_ & _ & Hrun); try reflexivity.
  - exact He.
  - vm_compute in He. injection He as <-. simpl. lia.
  - vm_compute in He. injection He as <-. vm_compute. lia.
  - vm_compute in He. injection He as <-. reflexivity.
  - rewrite Hrun. split; [reflexivity|].
    vm_compute in He. injection He as <-. reflexivity.
Defined.

(** ** Completing an election without ballots *)

Lemma updateText_fields (e : Election.t) (title description : option string) :
  Election._id (updateText e title description) = Election._id e
  /\ Election.status (updateText e title description) = Election.status e
  /\ Election.votes (updateText e title description) = Election.votes e
  /\ Election.results (updateText e title description) = Election.results e.
Proof. rewrite updateText_frame. now repeat split. Qed.

Lemma calculateResults_no_votes (db : DB) (e : Election.t) (now : Date) :
  Election.votes e = [] ->
  calculateResults db e now = (db, e, mkTally 0 [] None 0).
Proof. intros Hv. unfold calculateResults. now rewrite Hv. Qed.

(** C10: on an empty authenticated ledger [calculateResults] finds no winner,
    writes nothing -- status, winner, published flag and publication time
    stay as they were -- and returns [totalVotes = 0] with a null winner; so
    asking [updateElection] to complete an active election without votes
    leaves it active. *)
Theorem calculateResults_empty_ledger (db : DB) (e : Election.t) (now : Date) :
  Election.votes e = [] ->
  calculateResults db e now = (db, e, mkTally 0 [] None 0)
  /\ (forall teacherId id title description startDate endDate,
        findElection db id = Some e -> Election.status e = active ->
        exists e',
          findElection
            (fst (updateElection db teacherId id title description
                                 startDate endDate (Some "completed") now))
            id = Some e'
          /\ Election.status e' = active
          /\ Election.results e' = Election.results e).
Proof.
  intros Hv. split; [now apply calculateResults_no_votes|].
  intros teacherId id title description startDate endDate Hfind Hact.
  unfold updateElection. rewrite Hfind.
  destruct (negb (hasPermission db e teacherId)); [simpl; eauto|].
  rewrite Hact. simpl andb. cbv iota.
  destruct (updateText_fields e title description)
    as (Hid & Hst & Hvotes & Hres).
  set (e2 := updateText e title description) in *.
  assert (updateDates e2 startDate endDate now = inl e2) as ->
      by (unfold updateDates; now rewrite Hst, Hact).
  unfold updateStatus. simpl truthy. cbv iota. simpl str_is.
  rewrite Hst, Hact. simpl andb. cbv iota.
  rewrite calculateResults_no_votes by (rewrite Hvotes; exact Hv).
  destruct (validates e2); simpl; [|eauto].
  exists e2. unfold findElection in *. simpl. rewrite find_replaceFirst.
  destruct (findElection_In db id e Hfind) as [_ Hide].
  rewrite Hid, Hide, oid_eqb_refl, Hfind.
  repeat split; congruence.
Qed.

Lemma calculateResults_empty_ledger_witness :
  calculateResults Sample.db Sample.blank 1500
  = (Sample.db, Sample.blank, mkTally 0 [] None 0)
  /\ exists e',
       findElection
         (fst (updateElection Sample.db 30%N 10%N None None None None
                              (Some "completed") 1500)) 10%N = Some e'
       /\ Election.status e' = active
       /\ Election.results e' = Election.results Sample.blank.
Proof.
  destruct (calculateResults_empty_ledger Sample.db Sample.blank 1500 eq_refl)
    as [Hcalc Hupd].
  split; [exact Hcalc|].
  exact (Hupd 30%N 10%N None None None None eq_refl eq_refl).
Defined.

(** With one ballot in the ledger the same request completes the election. *)
Example updateElection_completes_with_votes :
  option_map Election.status
    (findElection
       (fst (updateElection
               (fst (castVote Sample.db 101%N 10%N Sample.candA 1500))
               30%N 10%N None None None None (Some "completed") 1600)) 10%N)
  = Some completed.
Proof. reflexivity. Qed.

(** * Properties of the whole engine *)

(** ** The derived flags *)

(** X1: the three derived flags of an election never contradict each other:
    an active election is neither pending nor completed, and, when the stored
    start is not after the stored end, a pending election is not completed.
    They do not cover every case: inside its window a cancelled election, or
    one still pending, shows none of the three. *)
Theorem derived_flags_exclusive (e : Election.t) (now : Date) :
  (isActive e now = true ->
   isPending e now = false /\ isCompleted e now = false)
  /\ (Election.startDate e <= Election.endDate e ->
      isPending e now = true -> isCompleted e now = false)
  /\ (Election.status e = cancelled \/ Election.status e = pending ->
      Election.startDate e <= now <= Election.endDate e ->
      isActive e now = false /\ isPending e now = false
      /\ isCompleted e now = false).
Proof.
  unfold isActive, isPending, isCompleted. split; [|split].
  - rewrite !andb_true_iff, !Z.leb_le, status_eqb_eq.
    intros [[H1 H2] ->]. simpl. rewrite andb_false_r, orb_false_r.
    split; [reflexivity | apply Z.ltb_ge; lia].
  - intros Hwf. rewrite andb_true_iff, Z.ltb_lt, status_eqb_eq.
    intros [Hlt ->]. simpl. rewrite orb_false_r. apply Z.ltb_ge. lia.
  - intros Hst Hwin.
    assert ((now <? Election.startDate e) = false) as ->
        by (apply Z.ltb_ge; lia).
    assert ((Election.endDate e <? now) = false) as ->
        by (apply Z.ltb_ge; lia).
    destruct Hst as [-> | ->]; simpl; rewrite ?andb_false_r; auto.
Qed.

Lemma derived_flags_exclusive_witness :
  (isPending Sample.blank 1500 = false /\ isCompleted Sample.blank 1500 = false)
  /\ isCompleted Walkthrough.upcoming 2500 = false
  /\ (isActive Sample.called_off 1500 = false
      /\ isPending Sample.called_off 1500 = false
      /\ isCompleted Sample.called_off 1500 = false).
Proof.
  destruct (derived_flags_exclusive Sample.blank 1500) as (H1 & _ & _).
  destruct (derived_flags_exclusive Walkthrough.upcoming 2500)
    as (_ & H2 & _).
  destruct (derived_flags_exclusive Sample.called_off 1500) as (_ & _ & H3).
  split; [apply H1; reflexivity|]. split.
  - apply H2; [simpl; lia | reflexivity].
  - apply H3; [left; reflexivity | simpl; lia].
Defined.

(** ** What a voter is told *)

Lemma replaceFirst_holds (e e' : Election.t) (es : list Election.t) :
  In e es -> Election._id e' = Election._id e -> In e' (replaceFirst e' es).
Proof.
  intros Hin Hid. induction es as [|x es IH]; [destruct Hin|]. simpl.
  destruct (oid_eqb (Election._id x) (Election._id e')) eqn:E;
    [now left|].
  right. apply IH. destruct Hin as [->|Hin]; [|assumption].
  rewrite Hid, oid_eqb_refl in E. discriminate.
Qed.

Lemma find_replaceFirst_same (p : Election.t -> bool) (db : DB)
      (e e' : Election.t) :
  uniqueIds db -> find p (elections db) = Some e ->
  Election._id e' = Election._id e -> p e' = true ->
  find p (replaceFirst e' (elections db)) = Some e'.
Proof.
  unfold uniqueIds. intros Hnd Hfind Hid Hp.
  induction (elections db) as [|a es IH]; [discriminate|].
  inversion Hnd as [|? ? Hnotin Hnd']; subst. simpl in *.
  destruct (p a) eqn:Hpa.
  - injection Hfind as ->. rewrite Hid, oid_eqb_refl. simpl. now rewrite Hp.
  - destruct (oid_eqb (Election._id a) (Election._id e')) eqn:E.
    + exfalso. apply oid_eqb_eq in E. apply Hnotin.
      rewrite E, Hid. apply in_map. now apply (find_some _ _ Hfind).
    + simpl. rewrite Hpa. now apply IH.
Qed.

Lemma findElection_save (db : DB) (i : ObjectId) (e e' : Election.t) :
  findElection db i = Some e -> Election._id e' = Election._id e ->
  findElection (saveElection db e') i = Some e'.
Proof.
  intros Hfind Hid. destruct (findElection_In db i e Hfind) as [_ Hi].
  unfold findElection in *. simpl. rewrite find_replaceFirst.
  now rewrite Hid, Hi, oid_eqb_refl, Hfind.
Qed.

Lemma saveElection_twice (db : DB) (a b : Election.t) :
  Election._id a = Election._id b ->
  saveElection (saveElection db a) b = saveElection db b.
Proof.
  intros Hid. unfold saveElection, with_elections. simpl.
  now rewrite replaceFirst_twice.
Qed.

Lemma findElection_member (db : DB) (e : Election.t) :
  uniqueIds db -> In e (elections db) ->
  findElection db (Election._id e) = Some e.
Proof.
  intros Huniq Hin. unfold findElection.
  destruct (find (fun x => oid_eqb (Election._id x) (Election._id e))
                 (elections db)) as [x|] eqn:Hx.
  - apply find_some in Hx. destruct Hx as [Hxin Hxid].
    apply oid_eqb_eq in Hxid. f_equal. now apply (uniqueIds_same db).
  - pose proof (find_none _ _ Hx e Hin) as Hno. cbn in Hno.
    now rewrite oid_eqb_refl in Hno.
Qed.

(** When [submitPublicVote] writes, this is what it found and wrote. *)
Lemma submitPublicVote_accepted (db : DB) (token : string)
      (candidateId : option ObjectId) (rollNumber : BodyValue)
      (clientIP userAgent : string) (now : Date) :
  wrote db (submitPublicVote db token candidateId rollNumber clientIP
                             userAgent now) ->
  exists cid e v,
    candidateId = Some cid
    /\ findByToken db token = Some e
    /\ isVotingAllowed e now = true
    /\ (truthyValue rollNumber = true ->
        castString rollNumber = Some (AnonymousVote.rollNumber v)
        /\ hasVoted e None rollNumber = false)
    /\ (requiresRoll e = true -> truthyValue rollNumber = true)
    /\ AnonymousVote.rollNumber v <> ""
    /\ AnonymousVote.candidate v = cid
    /\ AnonymousVote.timestamp v = now
    /\ is_some (findCandidate db cid) = true
    /\ In cid (Election.candidates e)
    /\ submitPublicVote db token candidateId rollNumber clientIP userAgent now
       = (saveElection db
            (Election.set_anonymousVotes
               (Election.anonymousVotes e ++ [v]) e),
          Thrown).
Proof.
  unfold wrote, submitPublicVote.
  destruct candidateId as [cid|]; [|intros H; now destruct H].
  destruct (findByToken db token) as [e|] eqn:Hfind;
    [|intros H; now destruct H].
  destruct (isVotingAllowed e now) eqn:Hallow; [|intros H; now destruct H].
  simpl negb. cbv iota.
  destruct (PublicAccess.requireRollNumber (Election.publicAccess e)
            && negb (truthyValue rollNumber)) eqn:Hreq;
    [intros H; now destruct H|].
  destruct (truthyValue rollNumber && hasVoted e None rollNumber) eqn:Hdup;
    [intros H; now destruct H|].
  destruct (negb (is_some (findCandidate db cid))
            || negb (existsb (fun c => oid_eqb (Candidate._id c) cid)
                             (populateCandidates db e))) eqn:Hcand;
    [intros H; now destruct H|].
  cbv zeta.
  destruct (if truthyValue rollNumber then castString rollNumber
            else Some (anonymousId now)) as [roll|] eqn:Hroll;
    [|intros H; now destruct H].
  destruct (String.eqb roll "") eqn:Hempty; [intros H; now destruct H|].
  intros _. apply orb_false_iff in Hcand. destruct Hcand as [Hc1 Hc2].
  apply negb_false_iff in Hc1, Hc2.
  exists cid, e, (AnonymousVote.mk roll cid clientIP userAgent now).
  repeat match goal with |- _ /\ _ => split end;
    try reflexivity; try assumption.
  - intros Ht. rewrite Ht in Hdup, Hroll. simpl in Hdup. now split.
  - unfold requiresRoll. intros Hr. rewrite Hr in Hreq.
    now apply negb_false_iff in Hreq.
  - simpl. now apply String.eqb_neq.
  - apply existsb_exists in Hc2. destruct Hc2 as (c & Hin & Heq).
    apply oid_eqb_eq in Heq. unfold populateCandidates in Hin.
    apply in_flat_map in Hin. destruct Hin as (i & Hi & Hc).
    unfold findCandidate in Hc.
    destruct (find (fun c0 => oid_eqb (Candidate._id c0) i) (candidates db))
      as [c0|] eqn:Hf; [|destruct Hc].
    destruct Hc as [<-|[]]. apply find_some in Hf. destruct Hf as [_ Hf].
    apply oid_eqb_eq in Hf. congruence.
Qed.

(** The stored document after a public vote is found under the same token,
    ids being unique. *)
Lemma findByToken_after_vote (db : DB) (token : string) (e : Election.t)
      (v : AnonymousVote.t) :
  uniqueIds db -> findByToken db token = Some e ->
  findByToken
    (saveElection db
       (Election.set_anonymousVotes (Election.anonymousVotes e ++ [v]) e))
    token
  = Some (Election.set_anonymousVotes (Election.anonymousVotes e ++ [v]) e).
Proof.
  intros Huniq Hfind. unfold findByToken in *. simpl.
  apply find_replaceFirst_same with (e := e); auto.
  apply (find_some _ _ Hfind).
Qed.

(** X2: no public vote is ever answered with the success page.  The audit
    entry the handler writes after [save] carries an action the log schema
    does not list, so [SystemLog.create] rejects: an accepted ballot is in
    the ledger, and the voter gets the error page. *)
Theorem recorded_public_vote_is_answered_with_an_error (db : DB)
    (token : string) (candidateId : option ObjectId)
    (rollNumber : BodyValue) (clientIP userAgent : string) (now : Date) :
  let run :=
    submitPublicVote db token candidateId rollNumber clientIP userAgent now in
  isSuccess (snd run) = false
  /\ (wrote db run ->
      snd run = Thrown
      /\ exists e e' v,
           findByToken db token = Some e
           /\ In e' (elections (fst run))
           /\ Election._id e' = Election._id e
           /\ Election.anonymousVotes e' = Election.anonymousVotes e ++ [v]
           /\ Some (AnonymousVote.candidate v) = candidateId).
Proof.
  intros run. split.
  - subst run. unfold submitPublicVote.
    change (systemLogAccepts "ANONYMOUS_VOTE_CAST") with false.
    split_handler; reflexivity.
  - intros Hwrote.
    destruct (submitPublicVote_accepted _ _ _ _ _ _ _ Hwrote)
      as (cid & e & v & -> & Hfind & _ & _ & _ & _ & Hcid & _ & _ & _ & Heq).
    subst run. rewrite Heq. cbn [fst snd]. split; [reflexivity|].
    exists e,
      (Election.set_anonymousVotes (Election.anonymousVotes e ++ [v]) e), v.
    split; [assumption|]. split.
    { simpl. apply (replaceFirst_holds e); [|reflexivity].
      now apply (find_some _ _ Hfind). }
    split; [reflexivity|]. split; [reflexivity|]. congruence.
Qed.

Lemma recorded_public_vote_is_answered_with_an_error_witness :
  snd (submitPublicVote Sample.db "tok" (Some Sample.candA)
         (Text "R1") "10.0.0.1" "ua" 1500) = Thrown
  /\ option_map (anonymousVotesBy "R1")
       (findElection
          (fst (submitPublicVote Sample.db "tok" (Some Sample.candA)
                  (Text "R1") "10.0.0.1" "ua" 1500)) 10%N)
     = Some 1%nat.
Proof.
  destruct (recorded_public_vote_is_answered_with_an_error Sample.db "tok"
              (Some Sample.candA) (Text "R1") "10.0.0.1" "ua" 1500)
    as (_ & Hacc).
  split; [apply Hacc; discriminate | reflexivity].
Defined.




(** ** One vote per voter, and where it fails *)

Lemma anonymousVotesBy_snoc (r : string) (e : Election.t)
      (v : AnonymousVote.t) :
  anonymousVotesBy r
    (Election.set_anonymousVotes (Election.anonymousVotes e ++ [v]) e)
  = (anonymousVotesBy r e
     + if String.eqb r (AnonymousVote.rollNumber v) then 1 else 0)%nat.
Proof.
  unfold anonymousVotesBy. simpl. rewrite filter_app, length_app. simpl.
  now destruct (String.eqb r (AnonymousVote.rollNumber v)).
Qed.

Lemma hasVoted_not_text (e : Election.t) (v : BodyValue) :
  rollIsText v = false -> hasVoted e None v = false.
Proof.
  intros Hv. unfold hasVoted.
  assert (existsb (fun vote => identical (AnonymousVote.rollNumber vote) v)
                  (Election.anonymousVotes e) = false) as ->.
  { induction (Election.anonymousVotes e) as [|a l IH]; simpl;
      [reflexivity|].
    rewrite IH. destruct v; simpl in *; try discriminate; reflexivity. }
  now destruct (truthyValue v).
Qed.

(** A roll number that is not a string is taken a second time. *)
Lemma repeated_public_vote (db : DB) (token : string) (cid : ObjectId)
      (v : BodyValue) (clientIP userAgent : string) (now later : Date)
      (e : Election.t) :
  uniqueIds db -> findByToken db token = Some e ->
  rollIsText v = false ->
  wrote db (submitPublicVote db token (Some cid) v clientIP userAgent now) ->
  isVotingAllowed e later = true ->
  let db1 :=
    fst (submitPublicVote db token (Some cid) v clientIP userAgent now) in
  let db2 :=
    fst (submitPublicVote db1 token (Some cid) v clientIP userAgent later) in
  exists r e2,
    castString v = Some r
    /\ findElection db2 (Election._id e) = Some e2
    /\ requiresRoll e2 = requiresRoll e
    /\ anonymousVotesBy r e2 = (anonymousVotesBy r e + 2)%nat.
Proof.
  intros Huniq Hfind Hnot Hacc Hlater db1 db2.
  assert (truthyValue v = true) as Htruthy.
  { destruct v as [|s|z t|b|c]; simpl in *;
      try discriminate; try reflexivity.
    - now destruct z.
    - now destruct b. }
  destruct (submitPublicVote_accepted _ _ _ _ _ _ _ Hacc)
    as (cid0 & e0 & v1 & Hcid & Hfind0 & _ & Hr & _ & Hne & _ & _ & Hc1 & Hc2
        & Heq).
  rewrite Hfind in Hfind0. injection Hfind0 as <-.
  destruct (Hr Htruthy) as [Hcast _].
  set (r := AnonymousVote.rollNumber v1) in *.
  set (e1 := Election.set_anonymousVotes (Election.anonymousVotes e ++ [v1]) e).
  assert (db1 = saveElection db e1) as Hdb1 by (subst db1; now rewrite Heq).
  pose proof (findByToken_after_vote db token e v1 Huniq Hfind) as Hfind1.
  fold e1 in Hfind1. rewrite <- Hdb1 in Hfind1.
  set (v2 := AnonymousVote.mk r cid clientIP userAgent later).
  set (e2 := Election.set_anonymousVotes (Election.anonymousVotes e1 ++ [v2])
                                         e1).
  assert (submitPublicVote db1 token (Some cid) v clientIP userAgent later
          = (saveElection db1 e2, Thrown)) as Hrun2.
  { unfold submitPublicVote. rewrite Hfind1.
    replace (isVotingAllowed e1 later) with (isVotingAllowed e later)
      by now destruct e.
    rewrite Hlater, Htruthy. cbn [negb andb].
    rewrite andb_false_r. rewrite (hasVoted_not_text e1 v Hnot).
    replace (findCandidate db1 cid) with (findCandidate db cid)
      by now rewrite Hdb1.
    replace (populateCandidates db1 e1) with (populateCandidates db e)
      by (rewrite Hdb1; now destruct e).
    assert (negb (is_some (findCandidate db cid))
            || negb (existsb (fun c => oid_eqb (Candidate._id c) cid)
                             (populateCandidates db e)) = false) as ->.
    { revert Hacc. unfold wrote, submitPublicVote. rewrite Hfind.
      split_handler; try (intros H; now destruct H). reflexivity. }
    rewrite Hcast. fold r.
    assert (String.eqb r "" = false) as -> by now apply String.eqb_neq.
    reflexivity. }
  exists r, e2. split; [exact Hcast|]. split; [|split].
  - subst db2. rewrite Hrun2. cbn [fst].
    rewrite Hdb1, saveElection_twice by reflexivity.
    apply (findElection_save db (Election._id e) e); [|reflexivity].
    apply findElection_member; [assumption|].
    apply (find_some _ _ Hfind).
  - now destruct e.
  - unfold e2. rewrite anonymousVotesBy_snoc. unfold e1.
    rewrite anonymousVotesBy_snoc. cbn [AnonymousVote.rollNumber v2].
    fold r. rewrite String.eqb_refl. lia.
Qed.

Lemma oncePerVoter_ledgerInv (rolls : bool) (es : list Election.t) :
  Forall oncePerVoter es -> Forall (ledgerInv rolls) es.
Proof.
  apply Forall_impl. intros e [H1 H2]. split; [exact H1|].
  intros _. exact H2.
Qed.

(** C2: starting from ledgers that hold at most one entry per voter (a new
    election has empty ledgers), after any sequence of requests, vote
    submissions of either kind with any arguments and every other handler of
    [serve], the authenticated ledger of every election holds at most one
    entry for every student.  The anonymous ledger of an election that
    requires a roll number holds at most one entry for every roll number as
    long as every roll number is sent as a string.  It does not when one is
    sent as a number, a boolean, or an array or object the schema casts: the
    check compares the stored string with the value as sent, finds nothing,
    and the same request sent again is stored again, under the same roll
    number. *)
Theorem one_vote_per_voter (db : DB) (calls : list Call) :
  Forall oncePerVoter (elections db) ->
  (forall e, In e (elections (serveAll db calls)) ->
     forall s, (votesBy s e <= 1)%nat)
  /\ (Forall sendsText calls ->
      forall e, In e (elections (serveAll db calls)) ->
        requiresRoll e = true -> forall r, (anonymousVotesBy r e <= 1)%nat)
  /\ (forall token cid v clientIP userAgent now later e,
        uniqueIds db -> findByToken db token = Some e ->
        requiresRoll e = true -> rollIsText v = false ->
        wrote db (submitPublicVote db token (Some cid) v clientIP userAgent
                                   now) ->
        isVotingAllowed e later = true ->
        exists r e2,
          castString v = Some r
          /\ findElection
               (serveAll db
                  [SubmitPublicVote token (Some cid) v clientIP userAgent now;
                   SubmitPublicVote token (Some cid) v clientIP userAgent
                                    later])
               (Election._id e) = Some e2
          /\ requiresRoll e2 = true
          /\ (2 <= anonymousVotesBy r e2)%nat).
Proof.
  intros Hdb. split; [|split].
  - intros e Hin.
    assert (Forall (ledgerInv false) (elections (serveAll db calls))) as Hall.
    { apply serveAll_ledgerInv; [discriminate|].
      now apply oncePerVoter_ledgerInv. }
    rewrite Forall_forall in Hall. now destruct (Hall e Hin).
  - intros Htext e Hin.
    pose proof (serveAll_ledgerInv true calls db (fun _ => Htext)
                  (oncePerVoter_ledgerInv true _ Hdb)) as Hall.
    rewrite Forall_forall in Hall.
    destruct (Hall e Hin) as [_ Hrolls]. now apply Hrolls.
  - intros token cid v clientIP userAgent now later e Huniq Hfind Hreq Hnot
           Hwrote Hlater.
    destruct (repeated_public_vote db token cid v clientIP userAgent now
                later e Huniq Hfind Hnot Hwrote Hlater)
      as (r & e2 & Hcast & Hfound & Hsame & Hcount).
    exists r, e2. split; [exact Hcast|]. split; [exact Hfound|].
    split; [congruence | lia].
Qed.

Lemma one_vote_per_voter_witness :
  Forall oncePerVoter (elections Sample.db)
  /\ match findElection (serveAll Sample.db Sample.doubleVoting) 10%N with
     | Some e =>
         (votesBy 101%N e <= 1)%nat /\ (anonymousVotesBy "R1" e <= 1)%nat
     | None => False
     end
  /\ exists e2,
       findElection (serveAll Sample.db Sample.numberTwice) 10%N = Some e2
       /\ requiresRoll e2 = true
       /\ (2 <= anonymousVotesBy "12345" e2)%nat.
Proof.
  assert (Forall oncePerVoter (elections Sample.db)) as Hdb.
  { repeat constructor; simpl; intros; cbn; lia. }
  split; [exact Hdb|].
  destruct (one_vote_per_voter Sample.db Sample.doubleVoting Hdb)
    as (Hstudents & Hrolls & Hnumbers).
  split.
  - destruct (findElection (serveAll Sample.db Sample.doubleVoting) 10%N)
      as [e|] eqn:Hfind; [|discriminate Hfind].
    assert (In e (elections (serveAll Sample.db Sample.doubleVoting))) as Hin
        by (apply (find_some _ _ Hfind)).
    split; [now apply Hstudents|].
    apply Hrolls; [repeat constructor | exact Hin |].
    vm_compute in Hfind. injection Hfind as <-. reflexivity.
  - destruct (Hnumbers "tok" Sample.candA (Number false "12345") "10.0.0.1"
                       "ua" 1500 1600 Sample.blank)
      as (r & e2 & Hcast & Hfound & Hreq & Hcount);
      try reflexivity.
    + unfold uniqueIds. simpl. repeat constructor. simpl. tauto.
    + discriminate.
    + injection Hcast as <-. exists e2. repeat split; assumption.
Defined.

(** The sample runs are not vacuous: the two first submissions of the one are
    recorded once each, both submissions of the other are recorded. *)
Example doubleVoting_recorded_once :
  option_map (fun e => (votesBy 101%N e, anonymousVotesBy "R1" e))
             (findElection (serveAll Sample.db Sample.doubleVoting) 10%N)
  = Some (1%nat, 1%nat).
Proof. vm_compute. reflexivity. Qed.

Example number_recorded_twice :
  option_map (fun e => map AnonymousVote.rollNumber (Election.anonymousVotes e))
             (findElection (serveAll Sample.db Sample.numberTwice) 10%N)
  = Some ["12345"; "12345"].
Proof. vm_compute. reflexivity. Qed.

(** When [castVote] accepts, this is what it found and wrote. *)
Lemma castVote_accepted (db : DB) (studentId id candidateId : ObjectId)
      (now : Date) :
  isSuccess (snd (castVote db studentId id candidateId now)) = true ->
  exists u cls e c,
    findUser db studentId = Some u
    /\ populateClass db u = Some cls
    /\ findOpenElection db id (Class._id cls) = Some e
    /\ Election.startDate e <= now <= Election.endDate e
    /\ hasVoted e (Some studentId) Missing = false
    /\ findApprovedCandidate db candidateId id = Some c
    /\ castVote db studentId id candidateId now
       = (saveElection db
            (Election.set_votes
               (Election.votes e ++ [Vote.mk studentId candidateId now]) e),
          FlashSuccess "Your vote has been successfully recorded").
Proof.
  unfold castVote.
  destruct (findUser db studentId) as [u|] eqn:Hu; [|discriminate].
  destruct (populateClass db u) as [cls|] eqn:Hcls; [|discriminate].
  destruct (findOpenElection db id (Class._id cls)) as [e|] eqn:He;
    [|discriminate].
  destruct ((now <? Election.startDate e) || (Election.endDate e <? now))
    eqn:Hwin; [discriminate|].
  destruct (hasVoted e (Some studentId) Missing) eqn:Hv; [discriminate|].
  destruct (findApprovedCandidate db candidateId id) as [c|] eqn:Hc;
    [|discriminate].
  intros _. exists u, cls, e, c.
  apply orb_false_iff in Hwin. destruct Hwin as [H1 H2].
  apply Z.ltb_ge in H1, H2.
  repeat match goal with |- _ /\ _ => split end;
    try reflexivity; try assumption.
Qed.



(** ** Voting time slots *)

Lemma isVotingAllowed_slots (e : Election.t) (now : Date) :
  isVotingAllowed e now
  = isActive e now
    && PublicAccess.allowAnonymousVoting (Election.publicAccess e)
    && match PublicAccess.votingTimeSlots (Election.publicAccess e) with
       | [] => true
       | slots => existsb (inSlot now) slots
       end.
Proof.
  unfold isVotingAllowed.
  destruct (isActive e now); [|reflexivity].
  destruct (PublicAccess.allowAnonymousVoting (Election.publicAccess e));
    [|reflexivity].
  destruct (PublicAccess.votingTimeSlots (Election.publicAccess e));
    reflexivity.
Qed.

Lemma slots_with_one_more (now s t : Date) (slots : list TimeSlot.t) :
  match slots ++ [TimeSlot.mk s t true] with
  | [] => true
  | x :: rest => existsb (inSlot now) (x :: rest)
  end
  = existsb (inSlot now) slots || ((s <=? now) && (now <=? t)).
Proof.
  destruct slots as [|x rest]; simpl.
  - unfold inSlot. simpl. now rewrite orb_false_r.
  - rewrite existsb_app. simpl. unfold inSlot at 3. simpl.
    now rewrite orb_false_r, orb_assoc.
Qed.

(** X5: what a stored time slot does to public voting.  After an accepted
    [addVotingTimeSlot] the election is open to public votes exactly when it
    is active, anonymous voting is allowed, and [now] lies in one of the
    earlier active slots or in the new one.  So the first slot of an election
    narrows public voting to that slot, and every further slot can only widen
    it. *)
Theorem addVotingTimeSlot_effect (db : DB) (role : option Role.t)
    (id : ObjectId) (e : Election.t) (s t : Date) :
  mayManageQR role = true -> findElection db id = Some e -> s < t ->
  let slots := PublicAccess.votingTimeSlots (Election.publicAccess e) in
  exists e',
    findElection
      (fst (addVotingTimeSlot db role id (ValidDate s) (ValidDate t))) id
    = Some e'
    /\ PublicAccess.votingTimeSlots (Election.publicAccess e')
       = slots ++ [TimeSlot.mk s t true]
    /\ (forall now,
          isVotingAllowed e' now
          = isActive e now
            && PublicAccess.allowAnonymousVoting (Election.publicAccess e)
            && (existsb (inSlot now) slots || ((s <=? now) && (now <=? t))))
    /\ (slots = [] ->
        forall now,
          isVotingAllowed e' now
          = isVotingAllowed e now && ((s <=? now) && (now <=? t)))
    /\ (slots <> [] ->
        forall now,
          isVotingAllowed e now = true -> isVotingAllowed e' now = true).
Proof.
  intros Hrole Hfind Hlt slots.
  unfold addVotingTimeSlot. rewrite Hrole, Hfind. simpl negb. cbv iota.
  assert (date_ge (ValidDate s) (ValidDate t) = false) as ->
      by (simpl; apply Z.leb_gt; lia).
  cbn [fst].
  exists (pushTimeSlot (TimeSlot.mk s t true) e).
  split; [now apply (findElection_save db id e)|].
  split; [reflexivity|].
  assert (Hall : forall now,
             isVotingAllowed (pushTimeSlot (TimeSlot.mk s t true) e) now
             = isActive e now
               && PublicAccess.allowAnonymousVoting (Election.publicAccess e)
               && (existsb (inSlot now) slots
                   || ((s <=? now) && (now <=? t)))).
  { intros now. rewrite isVotingAllowed_slots. simpl. fold slots.
    f_equal. apply slots_with_one_more. }
  split; [exact Hall|]. split.
  - intros Hnil now. rewrite Hall, isVotingAllowed_slots. fold slots.
    rewrite Hnil. simpl. now rewrite andb_true_r.
  - intros Hsome now. rewrite Hall, isVotingAllowed_slots. fold slots.
    destruct slots as [|x rest]; [contradiction|].
    intros H. apply andb_true_iff in H. destruct H as [H1 H2].
    now rewrite H1, H2.
Qed.

Lemma addVotingTimeSlot_effect_witness :
  exists e',
    findElection Walkthrough.slotted 10%N = Some e'
    /\ isVotingAllowed Sample.blank 1100 = true
    /\ isVotingAllowed e' 1100 = false
    /\ isVotingAllowed e' 1300 = true.
Proof.
  destruct (addVotingTimeSlot_effect Sample.db (Some Role.teacher) 10%N
              Sample.blank 1200 1600 eq_refl eq_refl eq_refl)
    as (e' & Hfind & _ & Hall & _ & _).
  exists e'. split; [exact Hfind|]. split; [reflexivity|].
  split; rewrite Hall; reflexivity.
Defined.

(** X6: [addVotingTimeSlot] stores a slot only for a teacher or admin, an
    existing election and two valid dates with start before end; every other
    request leaves the database as it was, and a date that does not parse is
    not answered with the 400 reply but raises at the schema. *)
Theorem addVotingTimeSlot_refusals (db : DB) (role : option Role.t)
    (id : ObjectId) (startTime endTime : JsDate) :
  let run := addVotingTimeSlot db role id startTime endTime in
  (isSuccess (snd run) = true ->
   mayManageQR role = true
   /\ exists e s t, findElection db id = Some e
                    /\ startTime = ValidDate s /\ endTime = ValidDate t
                    /\ s < t)
  /\ (isSuccess (snd run) = false -> fst run = db)
  /\ (mayManageQR role = true -> findElection db id <> None ->
      startTime = InvalidDate \/ endTime = InvalidDate ->
      run = (db, Thrown)).
Proof.
  intros run. subst run. unfold addVotingTimeSlot.
  destruct (mayManageQR role); simpl negb; cbv iota.
  2:{ split; [discriminate|]. split; [reflexivity|]. discriminate. }
  destruct (findElection db id) as [e|].
  2:{ split; [discriminate|]. split; [reflexivity|].
      intros _ H. now contradiction H. }
  destruct startTime as [s|], endTime as [t|]; simpl.
  - destruct (t <=? s) eqn:E.
    + split; [discriminate|]. split; [reflexivity|].
      intros _ _ [H|H]; discriminate.
    + apply Z.leb_gt in E. split.
      * intros _. split; [reflexivity|]. exists e, s, t. auto.
      * split; [discriminate|]. intros _ _ [H|H]; discriminate.
  - split; [discriminate|]. now split.
  - split; [discriminate|]. now split.
  - split; [discriminate|]. now split.
Qed.

Lemma addVotingTimeSlot_refusals_witness :
  addVotingTimeSlot Sample.db (Some Role.teacher) 10%N InvalidDate
                    (ValidDate 1600) = (Sample.db, Thrown)
  /\ fst (addVotingTimeSlot Sample.db (Some Role.teacher) 10%N
                            (ValidDate 1600) (ValidDate 1600)) = Sample.db.
Proof.
  split.
  - apply (proj2 (proj2 (addVotingTimeSlot_refusals Sample.db
                           (Some Role.teacher) 10%N InvalidDate
                           (ValidDate 1600)))).
    + reflexivity.
    + discriminate.
    + now left.
  - apply (proj1 (proj2 (addVotingTimeSlot_refusals Sample.db
                           (Some Role.teacher) 10%N (ValidDate 1600)
                           (ValidDate 1600)))).
    reflexivity.
Defined.

(** X7: once a slot is configured, a public vote at a time outside every
    active slot is refused with 'Voting is not currently available' and
    writes nothing, although the election itself is active. *)
Theorem public_vote_outside_slots_refused (db : DB) (token : string)
    (cid : ObjectId) (rollNumber : BodyValue)
    (clientIP userAgent : string) (now : Date) (e : Election.t) :
  findByToken db token = Some e ->
  PublicAccess.votingTimeSlots (Election.publicAccess e) <> [] ->
  (forall slot,
      In slot (PublicAccess.votingTimeSlots (Election.publicAccess e)) ->
      TimeSlot.isActive slot = false
      \/ now < TimeSlot.startTime slot \/ TimeSlot.endTime slot < now) ->
  submitPublicVote db token (Some cid) rollNumber clientIP userAgent now
  = (db, FlashError "Voting is not currently available").
Proof.
  intros Hfind Hsome Hout. unfold submitPublicVote. rewrite Hfind.
  assert (isVotingAllowed e now = false) as ->; [|reflexivity].
  rewrite isVotingAllowed_slots.
  destruct (PublicAccess.votingTimeSlots (Election.publicAccess e))
    as [|x rest] eqn:E; [contradiction|].
  assert (existsb (inSlot now) (x :: rest) = false) as ->;
    [|apply andb_false_r].
  apply not_true_is_false. intros Hex. apply existsb_exists in Hex.
  destruct Hex as (slot & Hin & Hslot). unfold inSlot in Hslot.
  rewrite !andb_true_iff, !Z.leb_le in Hslot.
  destruct (Hout slot Hin) as [H|[H|H]]; [|lia|lia].
  destruct Hslot as [[Ha _] _]. congruence.
Qed.

Lemma public_vote_outside_slots_refused_witness :
  submitPublicVote Walkthrough.slotted "tok" (Some Sample.candA) (Text "R1")
                   "10.0.0.1" "ua" 1100
  = (Walkthrough.slotted, FlashError "Voting is not currently available").
Proof.
  destruct (findByToken Walkthrough.slotted "tok") as [e|] eqn:He;
    [|discriminate He].
  apply (public_vote_outside_slots_refused Walkthrough.slotted "tok"
           Sample.candA (Text "R1") "10.0.0.1" "ua" 1100 e He).
  - vm_compute in He. injection He as <-. discriminate.
  - vm_compute in He. injection He as <-.
    intros slot [<-|[]]. right. left. reflexivity.
Defined.

(** Inside the slot the same vote is stored. *)
Example public_vote_inside_slot_recorded :
  option_map (anonymousVotesBy "R1")
    (findElection
       (fst (submitPublicVote Walkthrough.slotted "tok" (Some Sample.candA)
               (Text "R1") "10.0.0.1" "ua" 1300)) 10%N)
  = Some 1%nat.
Proof. reflexivity. Qed.

(** ** What no request does to a stored election *)

Lemma isPrefix_refl {A} (l : list A) : isPrefix l l.
Proof. exists []. now rewrite app_nil_r. Qed.

Lemma isPrefix_trans {A} (a b c : list A) :
  isPrefix a b -> isPrefix b c -> isPrefix a c.
Proof.
  intros [x ->] [y ->]. exists (x ++ y). now rewrite app_assoc.
Qed.

Lemma evolves_refl (e : Election.t) : evolves e e.
Proof. repeat split; auto using isPrefix_refl. Qed.

Lemma evolves_trans (a b c : Election.t) :
  evolves a b -> evolves b c -> evolves a c.
Proof.
  intros (A1 & A2 & A3 & A4 & A5 & A6 & A7 & A8)
         (B1 & B2 & B3 & B4 & B5 & B6 & B7 & B8).
  repeat split; try congruence; eauto using isPrefix_trans.
  intros Ht. rewrite B8; [auto|]. now rewrite A8.
Qed.

(** A rewrite that leaves identity, ledgers, access settings and QR code
    alone. *)
Lemma evolves_fields (e e' : Election.t) :
  Election._id e' = Election._id e ->
  Election.class e' = Election.class e ->
  Election.createdBy e' = Election.createdBy e ->
  Election.electionType e' = Election.electionType e ->
  Election.publicAccess e' = Election.publicAccess e ->
  Election.votes e' = Election.votes e ->
  Election.anonymousVotes e' = Election.anonymousVotes e ->
  Election.qrCode e' = Election.qrCode e ->
  evolves e e'.
Proof.
  intros H1 H2 H3 H4 H5 H6 H7 H8. unfold evolves, tokenOf.
  rewrite H1, H2, H3, H4, H5, H6, H7, H8.
  repeat split; auto using isPrefix_refl.
Qed.

Ltac same_doc := apply evolves_fields; reflexivity.

Lemma calculateResults_evolves (db : DB) (e : Election.t) (now : Date) :
  evolves e (snd (fst (calculateResults db e now))).
Proof.
  pose proof (calculateResults_frame db e now) as Hf.
  destruct (calculateResults db e now) as [[db' e'] r]. simpl.
  destruct Hf as [_ [->|[w ->]]]; [apply evolves_refl | same_doc].
Qed.

Lemma updateStatus_evolves (db : DB) (e : Election.t)
      (status : option string) (now : Date) :
  evolves e (snd (updateStatus db e status now)).
Proof.
  unfold updateStatus.
  pose proof (calculateResults_evolves db e now) as Hc.
  destruct (calculateResults db e now) as [[dc ec] rc]. simpl in Hc.
  split_handler; simpl; try apply evolves_refl; try assumption; same_doc.
Qed.

Lemma serve_steady (db : DB) (c : Call) :
  steady c (elections db) (elections (fst (serve db c))).
Proof.
  destruct c; simpl.
  - (* castVote *)
    unfold castVote. split_handler; simpl; try (now left).
    match goal with
    | H : findOpenElection _ _ _ = Some ?e |- _ =>
        apply find_some in H; destruct H as [Hin _];
        right; left; eexists e, _; split; [exact Hin|];
        split; [|reflexivity]
    end.
    repeat split; auto using isPrefix_refl. simpl. eexists. reflexivity.
  - (* submitPublicVote *)
    unfold submitPublicVote. split_handler; simpl; try (now left).
    all: match goal with
         | H : findByToken _ _ = Some ?e |- _ =>
             apply find_some in H; destruct H as [Hin _];
             right; left; eexists e, _; split; [exact Hin|];
             split; [|reflexivity]
         end.
    all: repeat split; auto using isPrefix_refl; simpl; eexists; reflexivity.
  - (* generateElectionQR *)
    unfold generateElectionQR.
    destruct (negb (mayManageQR sessionRole)); [now left|].
    destruct (findElection db electionId) as [e|] eqn:Hfind; [|now left].
    apply findElection_In in Hfind. destruct Hfind as [Hin _].
    right. left. eexists e, _. split; [exact Hin|]. split; [|reflexivity].
    repeat split; auto using isPrefix_refl.
    unfold tokenOf. simpl. intros Ht. now rewrite Ht.
  - (* toggleQRAccess *)
    unfold toggleQRAccess.
    destruct (negb (mayManageQR sessionRole)); [now left|].
    destruct (findElection db electionId) as [e|] eqn:Hfind; [|now left].
    apply findElection_In in Hfind. destruct Hfind as [Hin _].
    right. left. eexists e, _. split; [exact Hin|]. split; [|reflexivity].
    repeat split; auto using isPrefix_refl.
  - (* createElection *)
    unfold createElection. split_handler; simpl; try (now left).
    right. right. eexists. split; [reflexivity|]. now repeat split.
  - (* updateElection *)
    unfold updateElection.
    destruct (findElection db id) as [election|] eqn:Hfind; [|now left].
    apply findElection_In in Hfind. destruct Hfind as [Hin _].
    destruct (negb (hasPermission db election teacherId)); [now left|].
    destruct (status_eqb (Election.status election) completed
              && negb (str_is status "completed")); [now left|].
    destruct (updateDates (updateText election title description)
                          startDate endDate now) as [e3|msg] eqn:Hd;
      [|now left].
    assert (evolves election e3) as Hk3.
    { rewrite (updateDates_frame _ _ _ _ _ Hd).
      rewrite (updateText_frame election title description). same_doc. }
    pose proof (updateStatus_evolves db e3 status now) as Hk4.
    pose proof (updateStatus_keepsTerminal db e3 status now) as [Hid Hdb1].
    destruct (updateStatus db e3 status now) as [db1 e4].
    simpl in Hk4, Hid, Hdb1.
    destruct (validates e4); [|now left].
    right. left. exists election, e4.
    split; [assumption|]. split; [eapply evolves_trans; eassumption|].
    destruct Hdb1 as [->| ->]; simpl; [reflexivity|].
    now apply replaceFirst_twice.
  - (* removeCandidate *)
    unfold removeCandidate.
    destruct (findElection db id) as [election|] eqn:Hfind; [|now left].
    apply findElection_In in Hfind. destruct Hfind as [Hin _].
    split_handler; simpl; try (now left).
    all: right; left; eexists election, _;
      split; [assumption|]; split; [|reflexivity]; same_doc.
  - (* publishResults *)
    unfold publishResults.
    destruct (findElection db id) as [election|] eqn:Hfind; [|now left].
    apply findElection_In in Hfind. destruct Hfind as [Hin _].
    destruct (negb (hasPermission db election teacherId)); [now left|].
    match goal with
    | |- context [match ?st with Some _ => _ | None => _ end] =>
        destruct st as [e1|] eqn:Hst; [|now left]
    end.
    assert (evolves election e1) as Hk1.
    { revert Hst. split_handler; intros Hst; inversion Hst; subst;
        [same_doc | apply evolves_refl]. }
    pose proof (calculateResults_evolves db e1 now) as Hk2.
    pose proof (calculateResults_frame db e1 now) as Hf.
    destruct (calculateResults db e1 now) as [[dc ec] rc]. simpl in *.
    right. left.
    exists election,
      (Election.set_results
         (Results.mk true (Some now) (Results.winner (Election.results ec)))
         ec).
    split; [assumption|]. split.
    + eapply evolves_trans; [exact Hk1|].
      eapply evolves_trans; [exact Hk2|]. same_doc.
    + destruct Hf as [[->| ->] _]; simpl; [reflexivity|].
      now apply replaceFirst_twice.
  - (* updateElectionStatus *)
    unfold updateElectionStatus.
    destruct (status_of_string status) as [st|]; [|now left].
    destruct (findElection db id) as [election|] eqn:Hfind; [|now left].
    apply findElection_In in Hfind. destruct Hfind as [Hin _].
    pose proof (calculateResults_evolves db (Election.set_status st election)
                                         now) as Hk.
    pose proof (calculateResults_frame db (Election.set_status st election)
                                       now) as Hf.
    destruct (calculateResults db (Election.set_status st election) now)
      as [[dc ec] rc]. simpl in Hk, Hf.
    right. left.
    destruct (str_is status "completed"); simpl.
    + exists election, ec. split; [assumption|]. split.
      * eapply evolves_trans; [|exact Hk]. same_doc.
      * destruct Hf as [[->| ->] Hec]; simpl; [reflexivity|].
        now apply replaceFirst_twice.
    + exists election, (Election.set_status st election).
      split; [assumption|]. split; [same_doc | reflexivity].
Qed.

Lemma replaceFirst_ids (x : Election.t) (es : list Election.t) :
  map Election._id (replaceFirst x es) = map Election._id es.
Proof.
  induction es as [|a es IH]; simpl; [reflexivity|].
  destruct (oid_eqb (Election._id a) (Election._id x)) eqn:E; simpl.
  - apply oid_eqb_eq in E. now rewrite E.
  - now rewrite IH.
Qed.

Lemma serve_uniqueIds (db : DB) (c : Call) :
  uniqueIds db -> freshCall db c -> uniqueIds (fst (serve db c)).
Proof.
  unfold uniqueIds, freshCall. intros Hu Hfresh.
  destruct (serve_steady db c)
    as [-> | [(x & x' & _ & _ & ->) | (n & -> & Hid & _)]].
  - assumption.
  - now rewrite replaceFirst_ids.
  - rewrite Hid in Hfresh. rewrite map_app. simpl.
    apply NoDup_app; [assumption | repeat constructor; simpl; tauto|].
    intros a Ha [<-|[]]. contradiction.
Qed.

Lemma serve_evolves (db : DB) (c : Call) (i : ObjectId) (e : Election.t) :
  uniqueIds db -> findElection db i = Some e ->
  exists e', findElection (fst (serve db c)) i = Some e' /\ evolves e e'.
Proof.
  intros Hu Hfind. unfold findElection in *.
  destruct (serve_steady db c)
    as [-> | [(x & x' & Hin & Hev & ->) | (n & -> & _)]].
  - eauto using evolves_refl.
  - rewrite find_replaceFirst.
    destruct (oid_eqb (Election._id x') i) eqn:E.
    + rewrite Hfind. exists x'. split; [reflexivity|].
      apply oid_eqb_eq in E.
      destruct (findElection_In db i e Hfind) as [Hine Hide].
      assert (x = e) as <-; [|assumption].
      apply (uniqueIds_same db); auto. destruct Hev as [Hid _]. congruence.
    + eauto using evolves_refl.
  - rewrite (find_app_some _ _ _ _ Hfind). eauto using evolves_refl.
Qed.

(** X8: the requests that vote, manage QR access, create, update, publish,
    remove a candidate or set a status never delete an election, never
    remove, reorder or alter a ballot already in either ledger, and never
    change its class, creator, type or public-access settings, nor an access
    token once one is stored: after any run of such requests, every election
    that was stored is still found under its id, with both ledgers extended
    at the end only. *)
Theorem stored_elections_only_grow (calls : list Call) : forall (db : DB)
    (i : ObjectId) (e : Election.t),
  uniqueIds db -> freshRun db calls -> findElection db i = Some e ->
  exists e',
    findElection (serveAll db calls) i = Some e'
    /\ Election.class e' = Election.class e
    /\ Election.createdBy e' = Election.createdBy e
    /\ Election.electionType e' = Election.electionType e
    /\ Election.publicAccess e' = Election.publicAccess e
    /\ (exists more, Election.votes e' = Election.votes e ++ more)
    /\ (exists more,
           Election.anonymousVotes e' = Election.anonymousVotes e ++ more)
    /\ (truthy (tokenOf e) = true -> tokenOf e' = tokenOf e).
Proof.
  assert (Hrun : forall db i e,
             uniqueIds db -> freshRun db calls -> findElection db i = Some e ->
             exists e', findElection (serveAll db calls) i = Some e'
                        /\ evolves e e').
  { induction calls as [|c calls IH]; intros db i e Hu Hfresh Hfind.
    - exists e. split; [assumption | apply evolves_refl].
    - destruct Hfresh as [Hc Hrest].
      destruct (serve_evolves db c i e Hu Hfind) as (e1 & Hf1 & Hev1).
      destruct (IH (fst (serve db c)) i e1) as (e2 & Hf2 & Hev2); auto.
      { now apply serve_uniqueIds. }
      exists e2. split; [exact Hf2 | eapply evolves_trans; eassumption]. }
  intros db i e Hu Hfresh Hfind.
  destruct (Hrun db i e Hu Hfresh Hfind)
    as (e' & Hf & _ & H2 & H3 & H4 & H5 & H6 & H7 & H8).
  exists e'. repeat split; assumption.
Qed.

Lemma stored_elections_only_grow_witness :
  exists e',
    findElection
      (serveAll Sample.db
         (Sample.doubleVoting
          ++ [UpdateElectionStatus 10%N (Some "cancelled") 1700;
              CreateElection 30%N (Some "BR poll") (Some "Branch") (Some "BR")
                (Some 21%N) (Some (ValidDate 3000)) (Some (ValidDate 4000))
                1800 11%N]))
      10%N = Some e'
    /\ Election.electionType e' = "CR"
    /\ (exists more, Election.votes e' = Election.votes Sample.blank ++ more)
    /\ tokenOf e' = Some "tok".
Proof.
  destruct (stored_elections_only_grow
              (Sample.doubleVoting
               ++ [UpdateElectionStatus 10%N (Some "cancelled") 1700;
                   CreateElection 30%N (Some "BR poll") (Some "Branch")
                     (Some "BR") (Some 21%N) (Some (ValidDate 3000))
                     (Some (ValidDate 4000)) 1800 11%N])
              Sample.db 10%N Sample.blank)
    as (e' & Hf & _ & _ & Hty & _ & Hv & _ & Ht).
  - unfold uniqueIds. simpl. repeat constructor. simpl. tauto.
  - simpl. repeat split; auto. vm_compute. intros [H|[]]. discriminate H.
  - reflexivity.
  - exists e'. split; [exact Hf|]. split; [exact Hty|]. split; [exact Hv|].
    apply Ht. reflexivity.
Defined.

(** ** Invariants of every writing request *)

Lemma deleteElectionDoc_Forall (P : Election.t -> Prop) (i : ObjectId)
      (es : list Election.t) :
  Forall P es -> Forall P (deleteElectionDoc i es).
Proof.
  intros H. induction H as [|x es Hx Hes IH]; simpl; [constructor|].
  destruct (oid_eqb (Election._id x) i); [assumption | now constructor].
Qed.

Lemma handle_slotsWellFormed (db : DB) (r : Request) :
  Forall slotsWellFormed (elections db) ->
  Forall slotsWellFormed (elections (fst (handle db r))).
Proof.
  intros Hdb. destruct r as [c| role i st en | t i s sy n | i | i | a i];
    simpl.
  - destruct (serve_steady db c)
      as [-> | [(x & x' & Hin & Hev & ->) | (n & -> & _ & _ & _ & Hs)]].
    + assumption.
    + apply replaceFirst_Forall; [assumption|].
      rewrite Forall_forall in Hdb. specialize (Hdb x Hin).
      destruct Hev as (_ & _ & _ & _ & Hpa & _).
      unfold slotsWellFormed in *. now rewrite Hpa.
    + apply Forall_app. split; [assumption|].
      constructor; [|constructor]. unfold slotsWellFormed. rewrite Hs.
      constructor.
  - unfold addVotingTimeSlot.
    destruct (negb (mayManageQR role)); [assumption|].
    destruct (findElection db i) as [e|] eqn:Hfind; [|assumption].
    destruct (date_ge st en) eqn:Hge; [assumption|].
    destruct st as [s|], en as [t|]; try assumption.
    simpl in Hge. apply Z.leb_gt in Hge.
    apply saveElection_Forall; [assumption|].
    pose proof (find_Forall _ _ _ _ Hdb Hfind) as He.
    unfold slotsWellFormed in *. simpl.
    apply Forall_app. split; [assumption|].
    constructor; [simpl; lia | constructor].
  - unfold addCandidate.
    destruct (findElection db i) as [e|] eqn:Hfind; [|assumption].
    pose proof (find_Forall _ _ _ _ Hdb Hfind) as He.
    split_handler; simpl; try assumption.
    apply replaceFirst_Forall; assumption.
  - unfold deleteElection. split_handler; simpl; try assumption.
    now apply deleteElectionDoc_Forall.
  - unfold deleteClass. split_handler; simpl; assumption.
  - unfold deleteUser. split_handler; simpl; assumption.
Qed.

(** X9: every voting time slot ever stored starts before it ends: if that
    holds of the stored elections, it holds after any run of the modelled
    writing requests (votes, QR management, slots, candidates, creation,
    updates, publication, status changes and deletions). *)
Theorem stored_slots_are_well_formed (rs : list Request) : forall db : DB,
  Forall slotsWellFormed (elections db) ->
  forall e slot,
    In e (elections (handleAll db rs)) ->
    In slot (PublicAccess.votingTimeSlots (Election.publicAccess e)) ->
    TimeSlot.startTime slot < TimeSlot.endTime slot.
Proof.
  induction rs as [|r rs IH]; intros db Hdb e slot Hin Hslot.
  - rewrite Forall_forall in Hdb. specialize (Hdb e Hin).
    unfold slotsWellFormed in Hdb. rewrite Forall_forall in Hdb. auto.
  - simpl in Hin.
    apply (IH (fst (handle db r)) (handle_slotsWellFormed db r Hdb) e slot);
      assumption.
Qed.

Lemma stored_slots_are_well_formed_witness :
  match findElection
          (handleAll Sample.db Walkthrough.slotRequests) 10%N with
  | Some e =>
      Forall (fun slot => TimeSlot.startTime slot < TimeSlot.endTime slot)
             (PublicAccess.votingTimeSlots (Election.publicAccess e))
  | None => False
  end.
Proof.
  match goal with
  | |- match findElection ?d ?i with _ => _ end =>
      destruct (findElection d i) as [e|] eqn:Hfind; [|discriminate Hfind]
  end.
  apply Forall_forall. intros slot Hslot.
  apply (stored_slots_are_well_formed Walkthrough.slotRequests Sample.db)
    with (e := e); [repeat constructor | | exact Hslot].
  apply (find_some _ _ Hfind).
Defined.

Lemma calculateResults_candidates (db : DB) (e : Election.t) (now : Date) :
  candidates (fst (fst (calculateResults db e now))) = candidates db.
Proof.
  pose proof (calculateResults_frame db e now) as Hf.
  destruct (calculateResults db e now) as [[db' e'] r]. simpl.
  destruct Hf as [[->| ->] _]; reflexivity.
Qed.

Lemma updateStatus_candidates (db : DB) (e : Election.t)
      (status : option string) (now : Date) :
  candidates (fst (updateStatus db e status now)) = candidates db.
Proof.
  destruct (updateStatus_keepsTerminal db e status now) as [_ [->| ->]];
    reflexivity.
Qed.

Lemma serve_candidates (db : DB) (c : Call) :
  candidates (fst (serve db c)) = candidates db
  \/ exists i, candidates (fst (serve db c))
               = deleteCandidate i (candidates db).
Proof.
  destruct c; simpl.
  - left. unfold castVote. split_handler; reflexivity.
  - left. unfold submitPublicVote. split_handler; reflexivity.
  - left. unfold generateElectionQR. split_handler; reflexivity.
  - left. unfold toggleQRAccess. split_handler; reflexivity.
  - left. unfold createElection. split_handler; reflexivity.
  - left. unfold updateElection.
    destruct (findElection db id); [|reflexivity].
    destruct (negb (hasPermission db t teacherId)); [reflexivity|].
    destruct (status_eqb (Election.status t) completed
              && negb (str_is status "completed")); [reflexivity|].
    destruct (updateDates (updateText t title description) startDate endDate
                          now) as [e3|]; [|reflexivity].
    pose proof (updateStatus_candidates db e3 status now) as Hc.
    destruct (updateStatus db e3 status now) as [db1 e4]. simpl in Hc.
    destruct (validates e4); [exact Hc | reflexivity].
  - unfold removeCandidate. split_handler; simpl; eauto.
  - left. unfold publishResults.
    destruct (findElection db id); [|reflexivity].
    destruct (negb (hasPermission db t teacherId)); [reflexivity|].
    match goal with
    | |- context [match ?st with Some _ => _ | None => _ end] =>
        destruct st as [e1|]; [|reflexivity]
    end.
    pose proof (calculateResults_candidates db e1 now) as Hc.
    destruct (calculateResults db e1 now) as [[dc ec] rc]. exact Hc.
  - left. unfold updateElectionStatus.
    destruct (status_of_string status) as [st|]; [|reflexivity].
    destruct (findElection db id); [|reflexivity].
    pose proof (calculateResults_candidates db (Election.set_status st t) now)
      as Hc.
    destruct (calculateResults db (Election.set_status st t) now)
      as [[dc ec] rc].
    destruct (str_is status "completed"); [exact Hc | reflexivity].
Qed.

Lemma deleteCandidate_NoDup {B} (f : Candidate.t -> B) (i : ObjectId)
      (cs : list Candidate.t) :
  NoDup (map f cs) -> NoDup (map f (deleteCandidate i cs)).
Proof.
  induction cs as [|c cs IH]; simpl; intros H; [constructor|].
  inversion H as [|? ? Hnotin Hnd]; subst.
  destruct (oid_eqb (Candidate._id c) i); [assumption|].
  simpl. constructor; [|auto].
  intros Hin. apply Hnotin. clear - Hin.
  induction cs as [|a cs IH]; simpl in *; [assumption|].
  destruct (oid_eqb (Candidate._id a) i); [now right|].
  destruct Hin; [now left | right; auto].
Qed.

Lemma uniqueCandidacy_filter (keep : Candidate.t -> bool)
      (cs : list Candidate.t) :
  NoDup (map candidacy cs) -> NoDup (map candidacy (filter keep cs)).
Proof.
  intros Hnd. induction cs as [|c cs IH]; simpl; [constructor|].
  simpl in Hnd. apply NoDup_cons_iff in Hnd. destruct Hnd as [Hfresh Hrest].
  destruct (keep c); [|auto]. simpl. apply NoDup_cons; [|auto].
  rewrite in_map_iff. intros (x & Hx & Hin). apply filter_In in Hin.
  apply Hfresh. rewrite in_map_iff. exists x. tauto.
Qed.

Lemma handle_uniqueCandidacy (db : DB) (r : Request) :
  uniqueCandidacy db -> uniqueCandidacy (fst (handle db r)).
Proof.
  unfold uniqueCandidacy. intros Hdb.
  destruct r as [c| role i st en | t i s sy n | i | i | a i]; simpl.
  - destruct (serve_candidates db c) as [-> | [j ->]];
      [assumption | now apply deleteCandidate_NoDup].
  - unfold addVotingTimeSlot. split_handler; assumption.
  - unfold addCandidate.
    destruct (findElection db i) as [e|]; [|assumption].
    destruct (negb (hasPermission db e t)); [assumption|].
    destruct (status_eqb (Election.status e) completed
              || status_eqb (Election.status e) cancelled); [assumption|].
    destruct (findClassStudent db s (Election.class e)); [|assumption].
    destruct (findCandidacy db s i) eqn:Hc; [assumption|].
    destruct (negb (includesSymbol sy)); [assumption|].
    simpl. rewrite map_app. simpl.
    apply NoDup_app; [assumption | repeat constructor; simpl; tauto|].
    intros p Hp [<-|[]]. apply in_map_iff in Hp.
    destruct Hp as (x & Hx & Hin). unfold findCandidacy in Hc.
    pose proof (find_none _ _ Hc x Hin) as Hno. unfold candidacy in Hx.
    simpl in Hx, Hno. injection Hx as H1 H2.
    rewrite H1, H2, !oid_eqb_refl in Hno. discriminate.
  - unfold deleteElection. split_handler; simpl; try assumption.
    now apply uniqueCandidacy_filter.
  - unfold deleteClass. split_handler; simpl; assumption.
  - unfold deleteUser. split_handler; simpl; assumption.
Qed.

(** X10: a student stands at most once in an election: if no two candidate
    documents share their (student, election) pair, none do after any run of
    the modelled writing requests. *)
Theorem one_candidacy_per_student (rs : list Request) : forall db : DB,
  uniqueCandidacy db ->
  forall c1 c2,
    In c1 (candidates (handleAll db rs)) ->
    In c2 (candidates (handleAll db rs)) ->
    Candidate.student c1 = Candidate.student c2 ->
    Candidate.election c1 = Candidate.election c2 ->
    c1 = c2.
Proof.
  assert (Hrun : forall db, uniqueCandidacy db ->
                            uniqueCandidacy (handleAll db rs)).
  { induction rs as [|r rs IH]; intros db Hdb; [assumption|].
    simpl. apply IH. now apply handle_uniqueCandidacy. }
  intros db Hdb c1 c2 H1 H2 Hs He.
  specialize (Hrun db Hdb). unfold uniqueCandidacy in Hrun.
  induction (candidates (handleAll db rs)) as [|x l IHl]; [destruct H1|].
  simpl in Hrun. inversion Hrun as [|? ? Hnotin Hnd]; subst.
  destruct H1 as [->|H1], H2 as [->|H2]; auto.
  - exfalso. apply Hnotin. apply in_map_iff. exists c2.
    unfold candidacy. split; [congruence | assumption].
  - exfalso. apply Hnotin. apply in_map_iff. exists c1.
    unfold candidacy. split; [congruence | assumption].
Qed.

Lemma one_candidacy_per_student_witness :
  Forall (fun c => Candidate.student c = 101%N ->
                   Candidate.election c = 12%N ->
                   Candidate.mk 41%N 101%N 12%N true true = c)
         (candidates
            (handleAll Walkthrough.planning Walkthrough.nominations)).
Proof.
  apply Forall_forall. intros c Hin Hs He.
  apply (one_candidacy_per_student Walkthrough.nominations
                                   Walkthrough.planning).
  - unfold uniqueCandidacy. simpl. repeat constructor; simpl.
    + intros [H|[]]. discriminate H.
    + tauto.
  - right. right. left. reflexivity.
  - exact Hin.
  - now rewrite Hs.
  - now rewrite He.
Defined.

(** The run above stores the first and the third candidacy only. *)
Example candidacies_after_the_run :
  map Candidate._id
    (candidates (handleAll Walkthrough.planning Walkthrough.nominations))
  = [1%N; 2%N; 41%N; 43%N].
Proof. reflexivity. Qed.

(** ** The public voting page *)

Lemma populateCandidates_In (db : DB) (e : Election.t) (c : Candidate.t) :
  In c (populateCandidates db e) ->
  In (Candidate._id c) (Election.candidates e)
  /\ findCandidate db (Candidate._id c) = Some c.
Proof.
  unfold populateCandidates. intros Hin. apply in_flat_map in Hin.
  destruct Hin as (i & Hi & Hc).
  destruct (findCandidate db i) as [c0|] eqn:Hf; [|destruct Hc].
  destruct Hc as [<-|[]]. unfold findCandidate in Hf.
  pose proof (find_some _ _ Hf) as [_ Hid]. apply oid_eqb_eq in Hid.
  subst i. now split.
Qed.

(** X11: the page a QR link opens and the answer to a vote sent at the same
    moment agree.  If the page reports an invalid link, or that voting is not
    available, a vote for any candidate is refused with that very reason and
    nothing is written; if the page shows the ballot, a vote for any
    candidate shown on it, under a roll number not yet in the anonymous
    ledger, is stored. *)
Theorem voting_page_agrees_with_submit (db : DB) (token : string)
    (now : Date) :
  match getPublicVotingPage db token now with
  | InvalidLink =>
      forall cid rollNumber clientIP userAgent,
        submitPublicVote db token (Some cid) rollNumber clientIP userAgent now
        = (db, FlashError "Invalid or expired voting link")
  | NotAvailable _ =>
      forall cid rollNumber clientIP userAgent,
        submitPublicVote db token (Some cid) rollNumber clientIP userAgent now
        = (db, FlashError "Voting is not currently available")
  | VoteForm e shown _ =>
      forall c r clientIP userAgent,
        In c shown -> r <> "" -> anonymousVotesBy r e = 0%nat ->
        fst (submitPublicVote db token (Some (Candidate._id c)) (Text r)
                              clientIP userAgent now)
        = saveElection db
            (Election.set_anonymousVotes
               (Election.anonymousVotes e
                ++ [AnonymousVote.mk r (Candidate._id c) clientIP userAgent
                                     now]) e)
  end.
Proof.
  unfold getPublicVotingPage, submitPublicVote.
  destruct (findByToken db token) as [e|]; [|reflexivity].
  destruct (isVotingAllowed e now); simpl negb; cbv iota; [|reflexivity].
  intros c r clientIP userAgent Hshown Hr Hnew.
  assert (truthyValue (Text r) = true) as Ht
      by (simpl; apply negb_true_iff; now apply String.eqb_neq).
  assert (hasVoted e None (Text r) = false) as Hv.
  { unfold hasVoted. rewrite Ht. simpl.
    unfold anonymousVotesBy in Hnew.
    rewrite (filter_ext _ (fun vote =>
                             String.eqb (AnonymousVote.rollNumber vote) r))
      in Hnew by (intros vote; apply String.eqb_sym).
    now rewrite (existsb_filter_zero _ _ Hnew). }
  destruct (populateCandidates_In db e c Hshown) as [_ Hfound].
  assert (existsb (fun c0 => oid_eqb (Candidate._id c0) (Candidate._id c))
                  (populateCandidates db e) = true) as Hex.
  { apply existsb_exists. exists c. split; [assumption|apply oid_eqb_refl]. }
  assert (String.eqb r "" = false) as Hne by now apply String.eqb_neq.
  rewrite Ht, Hv, Hfound, Hex. cbn [negb andb orb castString].
  rewrite Hne. cbn [negb andb orb is_some]. rewrite andb_false_r.
  reflexivity.
Qed.

Lemma voting_page_agrees_with_submit_witness :
  submitPublicVote Walkthrough.slotted "tok" (Some Sample.candA) (Text "R7")
                   "10.0.0.1" "ua" 1100
  = (Walkthrough.slotted, FlashError "Voting is not currently available")
  /\ option_map (anonymousVotesBy "R7")
       (findElection
          (fst (submitPublicVote Walkthrough.slotted "tok"
                  (Some Sample.candB) (Text "R7") "10.0.0.1" "ua" 1300))
          10%N) = Some 1%nat.
Proof.
  split.
  - apply (voting_page_agrees_with_submit Walkthrough.slotted "tok" 1100).
  - pose proof (voting_page_agrees_with_submit Walkthrough.slotted "tok" 1300)
      as Hform.
    destruct (getPublicVotingPage Walkthrough.slotted "tok" 1300)
      as [|e|e shown req] eqn:Hpage; try discriminate Hpage.
    vm_compute in Hpage. injection Hpage as <- <- _.
    change (Some Sample.candB)
      with (Some (Candidate._id
                    (Candidate.mk Sample.candB 102%N 10%N true true))).
    rewrite (Hform (Candidate.mk Sample.candB 102%N 10%N true true) "R7"
                   "10.0.0.1" "ua").
    + reflexivity.
    + right. left. reflexivity.
    + discriminate.
    + reflexivity.
Defined.

(** ** The statistics of the election page *)

Lemma tallyOf_setZero (k k' : ObjectId) (o : VoteCount) :
  tallyOf k (setZero k' o)
  = if oid_eqb k' k then Some 0%nat else tallyOf k o.
Proof.
  induction o as [|[q n] o IH]; simpl.
  - destruct (oid_eqb k' k); reflexivity.
  - destruct (oid_eqb q k') eqn:E1; simpl.
    + apply oid_eqb_eq in E1. subst q.
      destruct (oid_eqb k' k); reflexivity.
    + destruct (oid_eqb q k) eqn:E2; [|exact IH].
      apply oid_eqb_eq in E2. subst q.
      rewrite oid_eqb_neq in E1.
      assert (oid_eqb k' k = false) as -> by (apply oid_eqb_neq; congruence).
      reflexivity.
Qed.

Lemma tallyOf_bumpListed (k k' : ObjectId) (o : VoteCount) :
  tallyOf k (bumpListed k' o)
  = if oid_eqb k' k then option_map S (tallyOf k o) else tallyOf k o.
Proof.
  induction o as [|[q n] o IH]; simpl.
  - destruct (oid_eqb k' k); reflexivity.
  - destruct (oid_eqb q k') eqn:E1; simpl.
    + apply oid_eqb_eq in E1. subst q.
      destruct (oid_eqb k' k); reflexivity.
    + destruct (oid_eqb q k) eqn:E2; [|exact IH].
      apply oid_eqb_eq in E2. subst q. rewrite oid_eqb_neq in E1.
      assert (oid_eqb k' k = false) as -> by (apply oid_eqb_neq; congruence).
      reflexivity.
Qed.

Lemma tallyOf_zeroed (k : ObjectId) (listed : list Candidate.t) :
  forall o,
    tallyOf k (fold_left (fun o c => setZero (Candidate._id c) o) listed o)
    = if isListed listed k then Some 0%nat else tallyOf k o.
Proof.
  induction listed as [|c listed IH]; intros o; simpl; [reflexivity|].
  rewrite IH, tallyOf_setZero.
  destruct (isListed listed k); [now rewrite orb_true_r|].
  now rewrite orb_false_r.
Qed.

Lemma tallyOf_counted (k : ObjectId) (votes : list Vote.t) :
  forall o,
    tallyOf k (fold_left (fun o v => bumpListed (Vote.candidate v) o) votes o)
    = option_map (fun n => (n + countFor k votes)%nat) (tallyOf k o).
Proof.
  unfold countFor.
  induction votes as [|v votes IH]; intros o; simpl.
  - destruct (tallyOf k o); simpl; [now rewrite Nat.add_0_r | reflexivity].
  - rewrite IH, tallyOf_bumpListed.
    destruct (oid_eqb (Vote.candidate v) k); [|reflexivity].
    destruct (tallyOf k o); simpl; [|reflexivity].
    f_equal. lia.
Qed.

Lemma candidateVotes_tallyOf (listed : list Candidate.t)
      (votes : list Vote.t) (k : ObjectId) :
  tallyOf k (candidateVotes listed votes)
  = if isListed listed k then Some (countFor k votes) else None.
Proof.
  unfold candidateVotes. rewrite tallyOf_counted, tallyOf_zeroed.
  destruct (isListed listed k); reflexivity.
Qed.

(** What a rendered page holds. *)
Lemma getElectionById_page (db : DB) (id : ObjectId)
      (session : option (ObjectId * Role.t)) (p : ElectionPage) :
  getElectionById db id session = Page p ->
  findElection db id = Some (pageElection p)
  /\ showResults p
     = (status_eqb (Election.status (pageElection p)) completed
        && Results.published (Election.results (pageElection p)))
       || match session with
          | Some (_, Role.admin) | Some (_, Role.teacher) => true
          | _ => false
          end
  /\ voteStats p
     = if showResults p
       then Some (mkStats
                    (List.length (Election.votes (pageElection p)))
                    (candidateVotes
                       (populateCandidates db (pageElection p))
                       (Election.votes (pageElection p))))
       else None.
Proof.
  unfold getElectionById.
  destruct (findElection db id) as [e|]; [|discriminate].
  match goal with
  | |- context [match ?m with Some _ => _ | None => PageThrown end] =>
      destruct m as [[canVote voted]|]; [|discriminate]
  end.
  intros H. injection H as <-. simpl. auto.
Qed.

(** X12: on the election page the tally shown for a candidate of the
    election's list is the number of authenticated ballots naming that
    candidate, and [totalVotes] is the length of the ledger; a candidate who
    is not on the list (removed, or its document gone) has no entry, whatever
    the ledger holds. *)
Theorem election_page_tallies (db : DB) (id : ObjectId)
    (session : option (ObjectId * Role.t)) (p : ElectionPage)
    (stats : VoteStats) :
  getElectionById db id session = Page p -> voteStats p = Some stats ->
  statsTotalVotes stats = List.length (Election.votes (pageElection p))
  /\ forall c,
       tallyOf c (statsCandidateVotes stats)
       = if isListed (populateCandidates db (pageElection p)) c
         then Some (countFor c (Election.votes (pageElection p)))
         else None.
Proof.
  intros Hpage Hstats.
  destruct (getElectionById_page db id session p Hpage) as (_ & _ & Hvs).
  rewrite Hvs in Hstats. destruct (showResults p); [|discriminate].
  injection Hstats as <-. simpl. split; [reflexivity|].
  intros c. apply candidateVotes_tallyOf.
Qed.

Lemma election_page_tallies_witness :
  match getElectionById Walkthrough.afterRemoval 10%N
                        (Some (30%N, Role.teacher)) with
  | Page p =>
      match voteStats p with
      | Some stats =>
          statsTotalVotes stats = 1%nat
          /\ tallyOf Sample.candA (statsCandidateVotes stats) = None
          /\ tallyOf Sample.candB (statsCandidateVotes stats) = Some 0%nat
      | None => False
      end
  | _ => False
  end.
Proof.
  destruct (getElectionById Walkthrough.afterRemoval 10%N
                            (Some (30%N, Role.teacher)))
    as [| |p] eqn:Hpage; try discriminate Hpage.
  destruct (voteStats p) as [stats|] eqn:Hstats.
  - destruct (election_page_tallies _ _ _ _ _ Hpage Hstats) as [Htot Htally].
    vm_compute in Hpage. injection Hpage as <-.
    split; [exact Htot|]. split; rewrite Htally; reflexivity.
  - vm_compute in Hpage. injection Hpage as <-. discriminate Hstats.
Defined.

Lemma tallySum_bumpListed (k : ObjectId) (o : VoteCount) :
  tallySum (bumpListed k o)
  = (tallySum o + if is_some (tallyOf k o) then 1 else 0)%nat.
Proof.
  induction o as [|[q n] o IH]; simpl; [reflexivity|].
  destruct (oid_eqb q k); simpl; [lia|]. rewrite IH. lia.
Qed.

Lemma tallySum_counted (votes : list Vote.t) : forall o,
  tallySum (fold_left (fun o v => bumpListed (Vote.candidate v) o) votes o)
  = (tallySum o
     + List.length
         (filter (fun v => is_some (tallyOf (Vote.candidate v) o)) votes))%nat.
Proof.
  induction votes as [|v votes IH]; intros o; simpl; [lia|].
  rewrite IH, tallySum_bumpListed.
  assert (filter (fun v0 => is_some
                              (tallyOf (Vote.candidate v0)
                                       (bumpListed (Vote.candidate v) o)))
                 votes
          = filter (fun v0 => is_some (tallyOf (Vote.candidate v0) o)) votes)
    as ->.
  { apply filter_ext. intros v0. rewrite tallyOf_bumpListed.
    destruct (oid_eqb (Vote.candidate v) (Vote.candidate v0));
      [|reflexivity].
    now destruct (tallyOf (Vote.candidate v0) o). }
  destruct (is_some (tallyOf (Vote.candidate v) o)); simpl; lia.
Qed.

Lemma tallySum_setZero (k : ObjectId) (o : VoteCount) :
  tallySum o = 0%nat -> tallySum (setZero k o) = 0%nat.
Proof.
  induction o as [|[q n] o IH]; simpl; [reflexivity|].
  intros H. destruct (oid_eqb q k); simpl; [lia|].
  rewrite IH; lia.
Qed.

Lemma tallySum_zeroed (listed : list Candidate.t) : forall o,
  tallySum o = 0%nat ->
  tallySum (fold_left (fun o c => setZero (Candidate._id c) o) listed o)
  = 0%nat.
Proof.
  induction listed as [|c listed IH]; intros o Ho; simpl; [assumption|].
  apply IH. now apply tallySum_setZero.
Qed.

Lemma candidateVotes_sum (listed : list Candidate.t) (votes : list Vote.t) :
  tallySum (candidateVotes listed votes)
  = List.length (listedBallots listed votes).
Proof.
  unfold candidateVotes, listedBallots.
  rewrite tallySum_counted, tallySum_zeroed by reflexivity. simpl.
  f_equal. apply filter_ext. intros v. rewrite tallyOf_zeroed. simpl.
  now destruct (isListed listed (Vote.candidate v)).
Qed.

Lemma filter_all_length {A} (p : A -> bool) (l : list A) :
  List.length (filter p l) = List.length l <-> forall x, In x l -> p x = true.
Proof.
  induction l as [|a l IH]; simpl; [tauto|].
  pose proof (filter_length_le p l) as Hle.
  destruct (p a) eqn:E; simpl.
  - split.
    + intros H x [<-|Hx]; [assumption|]. apply IH; [lia | assumption].
    + intros H. f_equal. apply IH. auto.
  - split; [lia|]. intros H. specialize (H a (or_introl eq_refl)). congruence.
Qed.

(** X13: the tallies of the election page add up to the number of ballots
    whose candidate is still on the election's list, never more than
    [totalVotes]; the two agree exactly when every ballot in the ledger names
    a listed candidate.  Ballots for a removed candidate stay in the total
    and appear in no tally. *)
Theorem election_page_tallies_sum (db : DB) (id : ObjectId)
    (session : option (ObjectId * Role.t)) (p : ElectionPage)
    (stats : VoteStats) :
  getElectionById db id session = Page p -> voteStats p = Some stats ->
  let listed := populateCandidates db (pageElection p) in
  let votes := Election.votes (pageElection p) in
  tallySum (statsCandidateVotes stats)
  = List.length (listedBallots listed votes)
  /\ (tallySum (statsCandidateVotes stats) <= statsTotalVotes stats)%nat
  /\ (tallySum (statsCandidateVotes stats) = statsTotalVotes stats
      <-> forall v, In v votes -> isListed listed (Vote.candidate v) = true).
Proof.
  intros Hpage Hstats listed votes.
  destruct (getElectionById_page db id session p Hpage) as (_ & _ & Hvs).
  rewrite Hvs in Hstats. destruct (showResults p); [|discriminate].
  injection Hstats as <-. simpl. fold listed votes.
  rewrite candidateVotes_sum. split; [reflexivity|]. split.
  - apply filter_length_le.
  - apply filter_all_length.
Qed.

Lemma election_page_tallies_sum_witness :
  match getElectionById Walkthrough.afterRemoval 10%N
                        (Some (30%N, Role.teacher)) with
  | Page p =>
      match voteStats p with
      | Some stats =>
          tallySum (statsCandidateVotes stats) = 0%nat
          /\ statsTotalVotes stats = 1%nat
      | None => False
      end
  | _ => False
  end.
Proof.
  destruct (getElectionById Walkthrough.afterRemoval 10%N
                            (Some (30%N, Role.teacher)))
    as [| |p] eqn:Hpage; try discriminate Hpage.
  destruct (voteStats p) as [stats|] eqn:Hstats.
  - destruct (election_page_tallies_sum _ _ _ _ _ Hpage Hstats)
      as (Hsum & _ & _).
    rewrite Hsum. vm_compute in Hpage. injection Hpage as <-.
    injection Hstats as <-. split; reflexivity.
  - vm_compute in Hpage. injection Hpage as <-. discriminate Hstats.
Defined.

(** ** Publishing results *)

Lemma findElection_other (db : DB) (e' : Election.t) (j : ObjectId) :
  j <> Election._id e' ->
  findElection (saveElection db e') j = findElection db j.
Proof.
  intros Hj. unfold findElection, saveElection. simpl.
  rewrite find_replaceFirst.
  destruct (oid_eqb (Election._id e') j) eqn:E; [|reflexivity].
  apply oid_eqb_eq in E. congruence.
Qed.

Lemma publishResults_run (db : DB) (teacherId id : ObjectId) (now : Date)
      (e : Election.t) :
  findElection db id = Some e -> hasPermission db e teacherId = true ->
  status_eqb (Election.status e) completed
  || (status_eqb (Election.status e) active && (Election.endDate e <=? now))
  = true ->
  publishResults db teacherId id now
  = (saveElection db (publishedDoc e now),
     FlashSuccess "Election results published successfully").
Proof.
  intros Hfind Hperm Hst. unfold publishResults.
  rewrite Hfind, Hperm. cbn [negb].
  assert ((if negb (status_eqb (Election.status e) completed)
           then if status_eqb (Election.status e) active
                   && (Election.endDate e <=? now)
                then Some (Election.set_status completed e)
                else None
           else Some e)
          = Some (Election.set_status completed e)) as ->.
  { destruct (status_eqb (Election.status e) completed) eqn:Ec; cbn [negb].
    - apply status_eqb_eq in Ec. destruct e; cbn in *. now subst.
    - cbn [orb] in Hst. now rewrite Hst. }
  pose proof (calculateResults_state db (Election.set_status completed e) now)
    as Hstate.
  destruct (calculateResults db (Election.set_status completed e) now)
    as [[db1 e2] summary].
  cbn [fst] in Hstate.
  unfold publishedDoc, electedOrStored.
  replace (Election.votes (Election.set_status completed e))
    with (Election.votes e) in Hstate by now destruct e.
  destruct (snd (pickWinner (groupVotes (Election.votes e)))) as [w|].
  - injection Hstate as -> ->.
    rewrite saveElection_twice by now destruct e.
    now destruct e.
  - injection Hstate as -> ->. now destruct e.
Qed.

(** X14: for an election the teacher may manage, [publishResults] goes through
    exactly when the election is completed, or active with its end date
    reached.  It then stores the election as completed and published at the
    time of the request, with the winner of the tally, or the winner stored
    before when the ledger is empty, and leaves every other election as it
    was.  Otherwise it writes nothing. *)
Theorem publishResults_effect (db : DB) (teacherId id : ObjectId) (now : Date)
    (e : Election.t) :
  findElection db id = Some e -> hasPermission db e teacherId = true ->
  if status_eqb (Election.status e) completed
     || (status_eqb (Election.status e) active
         && (Election.endDate e <=? now))
  then isSuccess (snd (publishResults db teacherId id now)) = true
       /\ findElection (fst (publishResults db teacherId id now)) id
          = Some (publishedDoc e now)
       /\ forall j, j <> id ->
            findElection (fst (publishResults db teacherId id now)) j
            = findElection db j
  else publishResults db teacherId id now
       = (db, FlashError
                "Cannot publish results for an election that is not completed").
Proof.
  intros Hfind Hperm.
  destruct (status_eqb (Election.status e) completed
            || (status_eqb (Election.status e) active
                && (Election.endDate e <=? now))) eqn:Hst.
  - rewrite (publishResults_run db teacherId id now e Hfind Hperm Hst).
    cbn [fst snd isSuccess]. split; [reflexivity|].
    destruct (findElection_In db id e Hfind) as [_ Hid]. split.
    + apply (findElection_save db id e); [assumption | reflexivity].
    + intros j Hj. apply findElection_other. cbn. congruence.
  - unfold publishResults. rewrite Hfind, Hperm. cbn [negb].
    apply orb_false_iff in Hst. destruct Hst as [Hc Ha].
    rewrite Hc, Ha. reflexivity.
Qed.

Lemma publishResults_effect_witness :
  findElection (fst (publishResults Walkthrough.oneBallot 30%N 10%N 2000))
               10%N
  = Some (publishedDoc
            (Election.set_votes [Vote.mk 101%N Sample.candA 1500]
                                Sample.blank)
            2000).
Proof.
  pose proof (publishResults_effect Walkthrough.oneBallot 30%N 10%N 2000
                (Election.set_votes [Vote.mk 101%N Sample.candA 1500]
                                    Sample.blank)
                eq_refl eq_refl) as H.
  apply H.
Defined.

Lemma electedOrStored_published (e : Election.t) (now : Date) :
  electedOrStored (publishedDoc e now) = electedOrStored e.
Proof.
  unfold publishedDoc. unfold electedOrStored.
  destruct e as [i ti de ty cl sd ed ca qr pa av vo st cb re].
  cbn [Election.votes Election.results Election.set_results
       Election.set_status Results.winner].
  now destruct (snd (pickWinner (groupVotes vo))).
Qed.

(** X15: publishing the results again succeeds whatever the clock says, and
    leaves what one publication at the later time gives: the same winner and
    ledgers, with only [publishedAt] moved. *)
Theorem republishing_moves_only_the_date (db : DB) (teacherId id : ObjectId)
    (now later : Date) (e : Election.t) :
  findElection db id = Some e ->
  isSuccess (snd (publishResults db teacherId id now)) = true ->
  publishResults (fst (publishResults db teacherId id now)) teacherId id later
  = (saveElection db (publishedDoc e later),
     FlashSuccess "Election results published successfully").
Proof.
  intros Hfind Hok.
  assert (hasPermission db e teacherId = true
          /\ status_eqb (Election.status e) completed
             || (status_eqb (Election.status e) active
                 && (Election.endDate e <=? now)) = true) as [Hperm Hst].
  { unfold publishResults in Hok. rewrite Hfind in Hok.
    destruct (hasPermission db e teacherId); [|discriminate Hok].
    split; [reflexivity|]. cbn [negb] in Hok.
    destruct (status_eqb (Election.status e) completed); [reflexivity|].
    cbn [negb orb] in *.
    destruct (status_eqb (Election.status e) active
              && (Election.endDate e <=? now)); [reflexivity|].
    discriminate Hok. }
  rewrite (publishResults_run db teacherId id now e Hfind Hperm Hst).
  cbn [fst].
  destruct (findElection_In db id e Hfind) as [_ Hid].
  rewrite (publishResults_run (saveElection db (publishedDoc e now))
             teacherId id later (publishedDoc e now)).
  - rewrite saveElection_twice by reflexivity. f_equal. f_equal.
    unfold publishedDoc at 1. rewrite electedOrStored_published.
    unfold publishedDoc. now destruct e.
  - apply (findElection_save db id e); [assumption | reflexivity].
  - exact Hperm.
  - reflexivity.
Qed.

Lemma republishing_moves_only_the_date_witness :
  publishResults (fst (publishResults Walkthrough.oneBallot 30%N 10%N 2000))
                 30%N 10%N 1200
  = (saveElection Walkthrough.oneBallot
       (publishedDoc
          (Election.set_votes [Vote.mk 101%N Sample.candA 1500] Sample.blank)
          1200),
     FlashSuccess "Election results published successfully").
Proof.
  apply (republishing_moves_only_the_date Walkthrough.oneBallot 30%N 10%N
           2000 1200); reflexivity.
Defined.

(** ** The status moves of [updateElection] *)

Lemma updateStatus_run (db : DB) (e : Election.t) (status : option string)
      (now : Date) :
  let db1 := fst (updateStatus db e status now) in
  let e' := snd (updateStatus db e status now) in
  Election._id e' = Election._id e
  /\ Election.votes e' = Election.votes e
  /\ Election.startDate e' = Election.startDate e
  /\ Election.endDate e' = Election.endDate e
  /\ teacherMove (Election.status e) (Election.status e')
  /\ (db1 = db \/ db1 = saveElection db e')
  /\ (Election.status e' = completed -> Election.status e <> completed ->
      str_is status "completed" = true
      /\ Results.published (Election.results e') = true
      /\ exists w, Results.winner (Election.results e') = Some w
                   /\ snd (pickWinner (groupVotes (Election.votes e)))
                      = Some w).
Proof.
  unfold updateStatus.
  destruct (truthy status).
  2:{ cbn.
      repeat match goal with |- _ /\ _ => split end;
        try (left; reflexivity); try reflexivity.
      intros H1 H2; congruence. }
  destruct (str_is status "completed"
            && status_eqb (Election.status e) active) eqn:E1.
  - apply andb_true_iff in E1. destruct E1 as [Hs Ha].
    apply status_eqb_eq in Ha.
    pose proof (calculateResults_state db e now) as Hstate.
    destruct (calculateResults db e now) as [[d x] t]. cbn [fst snd] in *.
    destruct (snd (pickWinner (groupVotes (Election.votes e)))) as [w|].
    + injection Hstate as -> ->. destruct e; cbn in *. subst.
      repeat match goal with |- _ /\ _ => split end; try reflexivity.
      * do 4 right. split; reflexivity.
      * right; reflexivity.
      * intros _ _. repeat split; try assumption. exists w. split; reflexivity.
    + injection Hstate as -> ->.
      repeat match goal with |- _ /\ _ => split end; try reflexivity.
      * left; reflexivity.
      * left; reflexivity.
      * intros H1 H2; congruence.
  - destruct (str_is status "cancelled"
              && negb (status_eqb (Election.status e) completed)) eqn:E2.
    + apply andb_true_iff in E2. destruct E2 as [_ Hn].
      destruct e as [i ti de ty cl sd ed ca qr pa av vo st cb re]; cbn in *.
      repeat match goal with |- _ /\ _ => split end; try reflexivity.
      * destruct st; cbn in Hn; try discriminate Hn.
        -- right; right; left; split; reflexivity.
        -- right; right; right; left; split; reflexivity.
        -- left; reflexivity.
      * left; reflexivity.
      * intros H1; discriminate H1.
    + destruct (str_is status "active"
                && status_eqb (Election.status e) pending) eqn:E3.
      * apply andb_true_iff in E3. destruct E3 as [_ Hp].
        apply status_eqb_eq in Hp.
        destruct e as [i ti de ty cl sd ed ca qr pa av vo st cb re];
          cbn in *. subst st.
        repeat match goal with |- _ /\ _ => split end; try reflexivity.
        -- right; left; split; reflexivity.
        -- left; reflexivity.
        -- intros H1; discriminate H1.
      * cbn.
        repeat match goal with |- _ /\ _ => split end; try reflexivity.
        -- left; reflexivity.
        -- left; reflexivity.
        -- intros H1 H2; congruence.
Qed.

Lemma updateDates_fields (e e' : Election.t)
      (startDate endDate : option JsDate) (now : Date) :
  updateDates e startDate endDate now = inl e' ->
  Election._id e' = Election._id e
  /\ Election.status e' = Election.status e
  /\ Election.votes e' = Election.votes e
  /\ (Election.status e <> pending -> e' = e).
Proof.
  intros H. pose proof (updateDates_frame e e' startDate endDate now H) as Hf.
  split; [rewrite Hf; now destruct e|].
  split; [rewrite Hf; now destruct e|].
  split; [rewrite Hf; now destruct e|].
  intros Hp. unfold updateDates in H.
  destruct (status_eqb (Election.status e) pending) eqn:E.
  - apply status_eqb_eq in E. contradiction.
  - now injection H as <-.
Qed.

(** X16: a successful [updateElection] moves the status only along pending to
    active, pending or active to cancelled, and active to completed, or leaves
    it; it never touches the ledger, and changes the dates of a pending
    election only.  When it completes an election, the results are published
    and the stored winner is one no candidate has more ballots than. *)
Theorem updateElection_moves (db db' : DB) (teacherId id : ObjectId)
    (title description : option string) (startDate endDate : option JsDate)
    (status : option string) (now : Date) (e : Election.t) (msg : string) :
  findElection db id = Some e ->
  updateElection db teacherId id title description startDate endDate status
                 now
  = (db', FlashSuccess msg) ->
  exists e',
    findElection db' id = Some e'
    /\ teacherMove (Election.status e) (Election.status e')
    /\ Election.votes e' = Election.votes e
    /\ (Election.status e <> pending ->
        Election.startDate e' = Election.startDate e
        /\ Election.endDate e' = Election.endDate e)
    /\ (Election.status e' = completed -> Election.status e <> completed ->
        Results.published (Election.results e') = true
        /\ exists w, Results.winner (Election.results e') = Some w
                     /\ forall c, (countFor c (Election.votes e)
                                   <= countFor w (Election.votes e))%nat).
Proof.
  intros Hfind Hrun. unfold updateElection in Hrun. rewrite Hfind in Hrun.
  destruct (negb (hasPermission db e teacherId)); [discriminate Hrun|].
  destruct (status_eqb (Election.status e) completed
            && negb (str_is status "completed")); [discriminate Hrun|].
  destruct (updateDates (updateText e title description) startDate endDate
                        now) as [e3|bad] eqn:Hdates; [|discriminate Hrun].
  destruct (updateText_fields e title description)
    as (Hid2 & Hst2 & Hvo2 & _).
  destruct (updateDates_fields _ _ _ _ _ Hdates)
    as (Hid3 & Hst3 & Hvo3 & Hsame3).
  pose proof (updateStatus_run db e3 status now) as Hrun4.
  destruct (updateStatus db e3 status now) as [db1 e4].
  cbn [fst snd] in Hrun4.
  destruct Hrun4 as (Hid4 & Hvo4 & Hsd4 & Hed4 & Hmove & Hdb1 & Hdone).
  destruct (validates e4); [|discriminate Hrun].
  injection Hrun as <- _.
  assert (Election._id e4 = Election._id e) as Hid by congruence.
  exists e4. repeat match goal with |- _ /\ _ => split end.
  - destruct Hdb1 as [-> | ->].
    + apply (findElection_save db id e); assumption.
    + rewrite saveElection_twice by reflexivity.
      apply (findElection_save db id e); assumption.
  - rewrite Hst3, Hst2 in Hmove. exact Hmove.
  - congruence.
  - intros Hp. rewrite Hst2 in Hsame3. rewrite (Hsame3 Hp) in Hsd4, Hed4.
    rewrite Hsd4, Hed4.
    pose proof (updateText_frame e title description) as Hf.
    rewrite Hf. destruct e; split; reflexivity.
  - intros Hc Hn. rewrite Hst3, Hst2 in Hdone.
    destruct (Hdone Hc Hn) as (_ & Hpub & w & Hw & Hpick).
    split; [assumption|]. exists w. split; [assumption|].
    rewrite Hvo3, Hvo2 in Hpick.
    destruct (pickWinner (groupVotes (Election.votes e))) as [m w0] eqn:Hp.
    cbn in Hpick. subst w0.
    apply pickWinner_ledger in Hp. tauto.
Qed.

Lemma updateElection_moves_witness :
  exists e',
    findElection
      (fst (updateElection Walkthrough.oneBallot 30%N 10%N None None None None
                           (Some "completed") 1600)) 10%N
    = Some e'
    /\ Election.status e' = completed
    /\ Results.winner (Election.results e') = Some Sample.candA.
Proof.
  destruct (updateElection_moves Walkthrough.oneBallot
              (fst (updateElection Walkthrough.oneBallot 30%N 10%N None None
                                   None None (Some "completed") 1600))
              30%N 10%N None None None None (Some "completed") 1600
              (Election.set_votes [Vote.mk 101%N Sample.candA 1500]
                                  Sample.blank)
              "Election updated successfully" eq_refl eq_refl)
    as (e' & Hfound & _).
  exists e'. split; [exact Hfound|].
  vm_compute in Hfound. injection Hfound as <-. split; reflexivity.
Defined.

(** ** Adding a candidate and taking it back *)

Lemma addCandidate_accepted (db : DB) (teacherId id studentId : ObjectId)
      (symbol : option string) (newId : ObjectId) :
  isSuccess (snd (addCandidate db teacherId id studentId symbol newId))
  = true ->
  exists e u,
    findElection db id = Some e
    /\ hasPermission db e teacherId = true
    /\ (Election.status e = pending \/ Election.status e = active)
    /\ findClassStudent db studentId (Election.class e) = Some u
    /\ findCandidacy db studentId id = None
    /\ includesSymbol symbol = true
    /\ addCandidate db teacherId id studentId symbol newId
       = (saveElection
            (with_candidates
               (candidates db ++ [Candidate.mk newId studentId id true true])
               db)
            (Election.set_candidates (Election.candidates e ++ [newId]) e),
          FlashSuccess (User.name u ++ " has been added as a candidate")).
Proof.
  unfold addCandidate.
  destruct (findElection db id) as [e|] eqn:Hfind; [|discriminate].
  destruct (hasPermission db e teacherId) eqn:Hperm; [|discriminate].
  cbn [negb].
  destruct (status_eqb (Election.status e) completed
            || status_eqb (Election.status e) cancelled) eqn:Hst;
    [discriminate|].
  destruct (findClassStudent db studentId (Election.class e)) as [u|] eqn:Hu;
    [|discriminate].
  destruct (findCandidacy db studentId id) eqn:Hc; [discriminate|].
  destruct (includesSymbol symbol) eqn:Hsym; [|discriminate].
  cbn [negb]. intros _. exists e, u.
  repeat match goal with |- _ /\ _ => split end;
    try reflexivity; try assumption.
  destruct (Election.status e); cbn in Hst; try discriminate Hst; auto.
Qed.

Lemma find_app_none {A} (f : A -> bool) (l l' : list A) :
  find f l = None -> find f (l ++ l') = find f l'.
Proof.
  induction l as [|a l IH]; simpl; [reflexivity|].
  destruct (f a); [discriminate | exact IH].
Qed.

Lemma filter_keeps_all (i : ObjectId) (l : list ObjectId) :
  ~ In i l -> filter (fun c => negb (oid_eqb c i)) l = l.
Proof.
  induction l as [|a l IH]; simpl; intros Hno; [reflexivity|].
  destruct (oid_eqb a i) eqn:E.
  - apply oid_eqb_eq in E. tauto.
  - simpl. f_equal. tauto.
Qed.

Lemma deleteCandidate_last (c : Candidate.t) (cs : list Candidate.t) :
  ~ In (Candidate._id c) (map Candidate._id cs) ->
  deleteCandidate (Candidate._id c) (cs ++ [c]) = cs.
Proof.
  induction cs as [|a cs IH]; simpl; intros Hno.
  - now rewrite oid_eqb_refl.
  - destruct (oid_eqb (Candidate._id a) (Candidate._id c)) eqn:E.
    + apply oid_eqb_eq in E. tauto.
    + f_equal. tauto.
Qed.

(** X17: a candidate just added under an id not in use can be taken back
    while the election is pending, and the database is then exactly what it
    was before the two requests.  Added to an active election, the candidate
    cannot be removed: the request is refused and nothing is written. *)
Theorem added_candidate_removal (db : DB) (teacherId id studentId : ObjectId)
    (symbol : option string) (newId : ObjectId) (e : Election.t) :
  findElection db id = Some e ->
  unusedCandidateId db e newId ->
  isSuccess (snd (addCandidate db teacherId id studentId symbol newId))
  = true ->
  let db1 := fst (addCandidate db teacherId id studentId symbol newId) in
  if status_eqb (Election.status e) pending
  then fst (removeCandidate db1 teacherId id newId) = db
       /\ isSuccess (snd (removeCandidate db1 teacherId id newId)) = true
  else removeCandidate db1 teacherId id newId
       = (db1, FlashError
                 "Cannot remove candidates from an active or completed election").
Proof.
  intros Hfind [Hfresh Hunlisted] Hok db1. subst db1.
  destruct (addCandidate_accepted _ _ _ _ _ _ Hok)
    as (e0 & u & Hfind0 & Hperm & Hst & Hu & _ & _ & Hrun).
  rewrite Hfind in Hfind0. injection Hfind0 as <-.
  rewrite Hrun. cbn [fst]. clear Hrun Hok.
  set (c := Candidate.mk newId studentId id true true).
  set (e1 := Election.set_candidates (Election.candidates e ++ [newId]) e).
  set (db0 := with_candidates (candidates db ++ [c]) db).
  assert (findElection (saveElection db0 e1) id = Some e1) as Hfind1.
  { apply (findElection_save db0 id e); [exact Hfind | now destruct e]. }
  assert (hasPermission (saveElection db0 e1) e1 teacherId = true) as Hperm1.
  { rewrite <- Hperm. now destruct e. }
  unfold removeCandidate. rewrite Hfind1, Hperm1. cbn [negb].
  replace (Election.status e1) with (Election.status e) by now destruct e.
  destruct Hst as [Hst | Hst]; rewrite Hst; cbn [status_eqb orb];
    [|reflexivity].
  assert (find (fun x => oid_eqb (Candidate._id x) newId
                         && oid_eqb (Candidate.election x) id)
               (candidates (saveElection db0 e1)) = Some c) as ->.
  { cbn [candidates saveElection with_elections db0 with_candidates].
    rewrite find_app_none.
    - cbn. now rewrite !oid_eqb_refl.
    - apply find_none_iff. intros x Hx.
      destruct (oid_eqb (Candidate._id x) newId) eqn:E; [|reflexivity].
      apply oid_eqb_eq in E. exfalso. apply Hfresh. rewrite <- E.
      now apply in_map. }
  assert (findUser (saveElection db0 e1) (Candidate.student c)
          = findUser db studentId) as -> by reflexivity.
  assert (exists u', findUser db studentId = Some u') as [u' ->].
  { unfold findUser. unfold findClassStudent in Hu.
    destruct (find (fun x => oid_eqb (User._id x) studentId) (users db))
      as [u'|] eqn:Hnone; [now exists u'|].
    apply find_some in Hu. destruct Hu as [Hin Hq].
    pose proof (find_none _ _ Hnone u Hin) as Hno. cbn in Hno.
    rewrite Hno in Hq. discriminate Hq. }
  cbn [fst snd isSuccess]. split; [|reflexivity].
  unfold saveElection, with_elections, with_candidates.
  cbn [users classes elections candidates db0 with_candidates].
  assert (Election.set_candidates
            (filter (fun x => negb (oid_eqb x newId))
                    (Election.candidates e1)) e1 = e) as ->.
  { subst e1. destruct e as [i ti de ty cl sd ed ca qr pa av vo st cb re].
    cbn in *. rewrite filter_app, filter_keeps_all by assumption.
    cbn. rewrite oid_eqb_refl. cbn. now rewrite app_nil_r. }
  rewrite replaceFirst_twice by now destruct e.
  rewrite (replaceFirst_found id) by exact Hfind.
  rewrite deleteCandidate_last by exact Hfresh.
  now destruct db.
Qed.

Lemma added_candidate_removal_witness :
  fst (removeCandidate
         (fst (addCandidate Walkthrough.planning 30%N 12%N 101%N
                            (Some "star") 41%N))
         30%N 12%N 41%N)
  = Walkthrough.planning.
Proof.
  apply (added_candidate_removal Walkthrough.planning 30%N 12%N 101%N
           (Some "star") 41%N Walkthrough.upcoming eq_refl).
  - split; vm_compute; intros H; repeat destruct H as [H|H];
      try discriminate H; exact H.
  - reflexivity.
Defined.

(** ** Deleting an election *)

Lemma find_deleteElectionDoc_other (i j : ObjectId) (es : list Election.t) :
  j <> i ->
  find (fun e => oid_eqb (Election._id e) j) (deleteElectionDoc i es)
  = find (fun e => oid_eqb (Election._id e) j) es.
Proof.
  intros Hj. induction es as [|x es IH]; simpl; [reflexivity|].
  destruct (oid_eqb (Election._id x) i) eqn:E; simpl.
  - apply oid_eqb_eq in E.
    destruct (oid_eqb (Election._id x) j) eqn:F; [|reflexivity].
    apply oid_eqb_eq in F. congruence.
  - now rewrite IH.
Qed.

Lemma find_deleteElectionDoc_same (i : ObjectId) (es : list Election.t) :
  NoDup (map Election._id es) ->
  find (fun e => oid_eqb (Election._id e) i) (deleteElectionDoc i es) = None.
Proof.
  induction es as [|x es IH]; simpl; intros Hnd; [reflexivity|].
  inversion Hnd as [|? ? Hx Hrest]; subst.
  destruct (oid_eqb (Election._id x) i) eqn:E; simpl.
  - apply oid_eqb_eq in E. apply find_none_iff. intros y Hy.
    apply oid_eqb_neq. intros Heq. apply Hx. rewrite E, <- Heq.
    now apply in_map.
  - rewrite E. now apply IH.
Qed.

(** X18: [deleteElection] refuses an active election and writes nothing.  Any
    other election it removes together with exactly the candidate documents
    that point to it: afterwards the id resolves to nothing (ids being
    unique), every other election, all users and all classes are as before,
    and the candidates of other elections are all still there. *)
Theorem deleteElection_effect (db : DB) (id : ObjectId) (e : Election.t) :
  uniqueIds db -> findElection db id = Some e ->
  if status_eqb (Election.status e) active
  then deleteElection db id
       = (db, FlashError "Cannot delete an active election")
  else let db' := fst (deleteElection db id) in
       findElection db' id = None
       /\ (forall j, j <> id -> findElection db' j = findElection db j)
       /\ candidates db'
          = filter (fun c => negb (oid_eqb (Candidate.election c) id))
                   (candidates db)
       /\ (forall c, In c (candidates db') ->
                     findElection db' (Candidate.election c)
                     = findElection db (Candidate.election c))
       /\ users db' = users db /\ classes db' = classes db.
Proof.
  intros Huniq Hfind. unfold deleteElection. rewrite Hfind.
  destruct (status_eqb (Election.status e) active); [reflexivity|].
  cbn [fst]. destruct (findElection_In db id e Hfind) as [_ Hid].
  unfold findElection. cbn [elections candidates users classes].
  rewrite Hid.
  repeat match goal with |- _ /\ _ => split end; try reflexivity.
  - now apply find_deleteElectionDoc_same.
  - intros j Hj. now apply find_deleteElectionDoc_other.
  - intros c Hc. apply filter_In in Hc. destruct Hc as [_ Hc].
    apply find_deleteElectionDoc_other.
    apply negb_true_iff, oid_eqb_neq in Hc. exact Hc.
Qed.

Lemma deleteElection_effect_witness :
  findElection (fst (deleteElection Walkthrough.planning 12%N)) 12%N = None
  /\ findElection (fst (deleteElection Walkthrough.planning 12%N)) 10%N
     = Some Sample.blank
  /\ deleteElection Walkthrough.planning 10%N
     = (Walkthrough.planning, FlashError "Cannot delete an active election").
Proof.
  assert (uniqueIds Walkthrough.planning) as Huniq.
  { unfold uniqueIds. cbn. repeat constructor; cbn; intros H;
      repeat destruct H as [H|H]; try discriminate H; exact H. }
  pose proof (deleteElection_effect Walkthrough.planning 12%N
                Walkthrough.upcoming Huniq eq_refl) as Hgone.
  pose proof (deleteElection_effect Walkthrough.planning 10%N
                Sample.blank Huniq eq_refl) as Hkept.
  cbn [Walkthrough.upcoming Election.status status_eqb] in Hgone.
  destruct Hgone as (Hnone & Hothers & _).
  split; [exact Hnone|]. split; [|exact Hkept].
  rewrite Hothers; [reflexivity | discriminate].
Defined.

(** ** Elections and their classes *)







Lemma filter_empty_length {A} (p : A -> bool) (l : list A) :
  (0 <? List.length (filter p l))%nat = false ->
  forall x, In x l -> p x = false.
Proof.
  intros H x Hx. apply Nat.ltb_ge in H.
  destruct (p x) eqn:E; [|reflexivity].
  assert (In x (filter p l)) as Hin by (apply filter_In; auto).
  destruct (filter p l); [destruct Hin | simpl in H; lia].
Qed.




(** ** The student's lists of elections *)

Lemma insertBy_In {A} (le : A -> A -> bool) (x y : A) (l : list A) :
  In x (insertBy le y l) <-> x = y \/ In x l.
Proof.
  induction l as [|a l IH]; simpl; [intuition congruence|].
  destruct (le y a); simpl; [intuition congruence|].
  rewrite IH. intuition congruence.
Qed.

Lemma sortBy_In {A} (le : A -> A -> bool) (x : A) (l : list A) :
  In x (sortBy le l) <-> In x l.
Proof.
  induction l as [|a l IH]; simpl; [tauto|].
  rewrite insertBy_In, IH. intuition congruence.
Qed.

Lemma getAllElections_lists (db : DB) (studentId : ObjectId) (now : Date)
      (u : User.t) (cid : ObjectId) (ls : ElectionLists) (e : Election.t) :
  findUser db studentId = Some u -> User.class u = Some cid ->
  getAllElections db studentId now = Some ls ->
  (shownActive ls e <-> In e (elections db) /\ activeQuery cid now e = true)
  /\ (shownUpcoming ls e
      <-> In e (elections db) /\ upcomingQuery cid now e = true)
  /\ (shownPast ls e <-> In e (elections db) /\ pastQuery cid now e = true).
Proof.
  intros Hu Hcid Hrun. unfold getAllElections in Hrun. rewrite Hu in Hrun.
  unfold populateClass in Hrun. rewrite Hcid in Hrun.
  destruct (find (fun c => oid_eqb (Class._id c) cid) (classes db))
    as [cls|] eqn:Hcls; [|discriminate Hrun].
  apply find_some in Hcls. destruct Hcls as [_ Hid].
  apply oid_eqb_eq in Hid. rewrite Hid in Hrun. injection Hrun as <-.
  unfold shownActive, shownUpcoming, shownPast.
  cbn [activeElections upcomingElections pastElections].
  rewrite !map_map. cbn [fst]. rewrite !map_id.
  rewrite !sortBy_In, !filter_In. tauto.
Qed.

(** X20: what the student's three lists hold.  Only stored elections of the
    student's class are listed; one shown as active is in no other list; an
    election is shown both as upcoming and as past exactly when it is pending
    with its end date before [now] and its start date after; and an election
    of the class is in none of the lists exactly when it has not ended but is
    still pending after its start, or already active before it. *)
Theorem student_lists (db : DB) (studentId : ObjectId) (now : Date)
    (u : User.t) (cid : ObjectId) (ls : ElectionLists) (e : Election.t) :
  findUser db studentId = Some u -> User.class u = Some cid ->
  getAllElections db studentId now = Some ls ->
  (shownActive ls e \/ shownUpcoming ls e \/ shownPast ls e ->
   In e (elections db) /\ Election.class e = cid)
  /\ (shownActive ls e -> ~ shownUpcoming ls e /\ ~ shownPast ls e)
  /\ (shownUpcoming ls e /\ shownPast ls e
      <-> In e (elections db) /\ Election.class e = cid
          /\ Election.status e = pending
          /\ Election.endDate e < now < Election.startDate e)
  /\ (In e (elections db) -> Election.class e = cid ->
      (~ shownActive ls e /\ ~ shownUpcoming ls e /\ ~ shownPast ls e
       <-> outOfStep e now = true)).
Proof.
  intros Hu Hcid Hrun.
  destruct (getAllElections_lists db studentId now u cid ls e Hu Hcid Hrun)
    as (Ha & Hup & Hpa).
  rewrite Ha, Hup, Hpa. clear Ha Hup Hpa Hrun.
  unfold activeQuery, upcomingQuery, pastQuery, outOfStep.
  destruct (oid_eqb (Election.class e) cid) eqn:Ecl.
  - apply oid_eqb_eq in Ecl.
    destruct (Election.status e) eqn:Est; cbn [status_eqb andb orb];
      destruct (Election.startDate e <=? now) eqn:E1;
      destruct (now <=? Election.endDate e) eqn:E2;
      destruct (now <? Election.startDate e) eqn:E3;
      destruct (Election.endDate e <? now) eqn:E4;
      cbn [andb orb];
      try apply Z.leb_le in E1; try apply Z.leb_gt in E1;
      try apply Z.leb_le in E2; try apply Z.leb_gt in E2;
      try apply Z.ltb_lt in E3; try apply Z.ltb_ge in E3;
      try apply Z.ltb_lt in E4; try apply Z.ltb_ge in E4;
      try lia;
      repeat match goal with |- _ /\ _ => split end;
      try tauto; try (intuition (try congruence; try lia)).
  - apply oid_eqb_neq in Ecl. cbn [andb].
    repeat match goal with |- _ /\ _ => split end;
      intuition (try congruence; try lia).
Qed.

Lemma student_lists_witness :
  match getAllElections Walkthrough.planning 101%N 3500 with
  | Some ls =>
      ~ shownActive ls Walkthrough.upcoming
      /\ ~ shownUpcoming ls Walkthrough.upcoming
      /\ ~ shownPast ls Walkthrough.upcoming
  | None => False
  end.
Proof.
  destruct (getAllElections Walkthrough.planning 101%N 3500) as [ls|] eqn:Hrun;
    [|discriminate Hrun].
  destruct (student_lists Walkthrough.planning 101%N 3500 Sample.asha 20%N ls
              Walkthrough.upcoming eq_refl eq_refl Hrun)
    as (_ & _ & _ & Hnone).
  apply Hnone; [right; left; reflexivity | reflexivity | reflexivity].
Defined.

Example election_listed_as_upcoming_and_past :
  option_map (fun ls => (map Election._id (upcomingElections ls),
                         map (fun x => Election._id (fst x))
                             (pastElections ls)))
             (getAllElections Sample.shifted 101%N 4500)
  = Some ([11%N], [11%N; 10%N]).
Proof. reflexivity. Qed.

(** ** Who has not voted yet *)

Lemma existsb_snoc_oid (a s : ObjectId) (l : list ObjectId) :
  existsb (oid_eqb a) (l ++ [s]) = existsb (oid_eqb a) l || oid_eqb a s.
Proof. rewrite existsb_app. simpl. now rewrite orb_false_r. Qed.

(** X21: a vote takes the voter, and nobody else, off the teacher's list of
    students who have not voted: after a successful [castVote] the list for
    the election is the list before without the voter. *)
Theorem voter_leaves_the_not_voted_list (db : DB)
    (studentId id candidateId : ObjectId) (now : Date) :
  uniqueIds db ->
  isSuccess (snd (castVote db studentId id candidateId now)) = true ->
  exists e e',
    findElection db id = Some e
    /\ findElection (fst (castVote db studentId id candidateId now)) id
       = Some e'
    /\ forall u,
         In u (studentsNotVoted
                 (fst (castVote db studentId id candidateId now)) e')
         <-> In u (studentsNotVoted db e) /\ User._id u <> studentId.
Proof.
  intros Huniq Hok.
  destruct (castVote_accepted db studentId id candidateId now Hok)
    as (u0 & cls & e & c & _ & _ & Hopen & _ & _ & _ & Hrun).
  rewrite Hrun. cbn [fst].
  set (e' := Election.set_votes
               (Election.votes e ++ [Vote.mk studentId candidateId now]) e).
  unfold findOpenElection in Hopen.
  pose proof (find_some _ _ Hopen) as [Hin Hq].
  apply andb_true_iff in Hq. destruct Hq as [Hq Hact].
  apply andb_true_iff in Hq. destruct Hq as [Hid _].
  apply status_eqb_eq in Hact.
  assert (findElection db id = Some e) as Hfind.
  { unfold findElection.
    destruct (find (fun x => oid_eqb (Election._id x) id) (elections db))
      as [x|] eqn:Hx.
    - apply find_some in Hx. destruct Hx as [Hxin Hxid].
      apply oid_eqb_eq in Hxid, Hid. f_equal.
      apply (uniqueIds_same db); congruence.
    - pose proof (find_none _ _ Hx e Hin) as Hno. cbn in Hno. congruence. }
  exists e, e'. split; [exact Hfind|]. split.
  - apply (findElection_save db id e); [exact Hfind | now destruct e].
  - intros u. unfold studentsNotVoted.
    replace (Election.status e') with (Election.status e) by now destruct e.
    rewrite Hact. cbn [status_eqb orb].
    replace (Election.class e') with (Election.class e) by now destruct e.
    replace (Election.votes e')
      with (Election.votes e ++ [Vote.mk studentId candidateId now])
      by now destruct e.
    cbn [users saveElection with_elections].
    rewrite !filter_In, map_app. cbn [map Vote.student].
    rewrite existsb_snoc_oid, negb_orb.
    destruct (oid_eqb (User._id u) studentId) eqn:E.
    + apply oid_eqb_eq in E. rewrite !andb_false_r. intuition congruence.
    + apply oid_eqb_neq in E. cbn [negb]. rewrite andb_true_r. tauto.
Qed.

Lemma voter_leaves_the_not_voted_list_witness :
  match findElection Walkthrough.oneBallot 10%N with
  | Some e' =>
      forall u, In u (studentsNotVoted Walkthrough.oneBallot e') ->
                User._id u <> 101%N
  | None => False
  end.
Proof.
  assert (uniqueIds Sample.db) as Huniq.
  { unfold uniqueIds. cbn. repeat constructor. intros []. }
  destruct (voter_leaves_the_not_voted_list Sample.db 101%N 10%N Sample.candA
              1500 Huniq eq_refl) as (e & e' & _ & Hfound & Hlist).
  fold Walkthrough.oneBallot in Hfound, Hlist.
  rewrite Hfound. intros u Hu. now apply Hlist in Hu.
Defined.

(** ** Removing the candidacy of a deleted user *)

Lemma find_deleteUserDoc_same (i : ObjectId) (us : list User.t) :
  NoDup (map User._id us) ->
  find (fun u => oid_eqb (User._id u) i) (deleteUserDoc i us) = None.
Proof.
  induction us as [|x us IH]; simpl; intros Hnd; [reflexivity|].
  inversion Hnd as [|? ? Hx Hrest]; subst.
  destruct (oid_eqb (User._id x) i) eqn:E; simpl.
  - apply oid_eqb_eq in E. apply find_none_iff. intros y Hy.
    apply oid_eqb_neq. intros Heq. apply Hx. rewrite E, <- Heq.
    now apply in_map.
  - rewrite E. now apply IH.
Qed.

(** X22: deleting a user leaves the user's candidacies in place, and removing
    such a candidacy afterwards goes wrong half way: the candidate is taken
    off the election's list and its document deleted, and then the request
    ends in an exception instead of the success message, the name of the
    student being read from a document that is gone. *)
Theorem removeCandidate_after_deleteUser (db : DB)
    (adminId teacherId id candidateId : ObjectId) (e : Election.t)
    (c : Candidate.t) :
  uniqueUsers db ->
  findElection db id = Some e -> hasPermission db e teacherId = true ->
  Election.status e = pending \/ Election.status e = cancelled ->
  find (fun x => oid_eqb (Candidate._id x) candidateId
                 && oid_eqb (Candidate.election x) id)
       (candidates db) = Some c ->
  isSuccess (snd (deleteUser db adminId (Candidate.student c))) = true ->
  let db1 := fst (deleteUser db adminId (Candidate.student c)) in
  candidates db1 = candidates db
  /\ elections db1 = elections db
  /\ removeCandidate db1 teacherId id candidateId
     = (with_candidates
          (deleteCandidate (Candidate._id c) (candidates db))
          (saveElection db1
             (Election.set_candidates
                (filter (fun x => negb (oid_eqb x candidateId))
                        (Election.candidates e)) e)),
        Thrown).
Proof.
  intros Huniq Hfind Hperm Hst Hcand Hok db1. subst db1.
  unfold deleteUser in *.
  destruct (findUser db (Candidate.student c)) as [u|] eqn:Hu;
    [|discriminate Hok].
  destruct (oid_eqb (User._id u) adminId); [discriminate Hok|].
  cbn [fst candidates elections]. split; [reflexivity|].
  split; [reflexivity|].
  assert (User._id u = Candidate.student c) as Huid.
  { unfold findUser in Hu. apply find_some in Hu.
    now apply oid_eqb_eq. }
  unfold removeCandidate.
  change (findElection (mkDB (deleteUserDoc (User._id u) (users db))
                             (classes db) (elections db) (candidates db)) id)
    with (findElection db id).
  rewrite Hfind.
  change (hasPermission (mkDB (deleteUserDoc (User._id u) (users db))
                              (classes db) (elections db) (candidates db))
                        e teacherId)
    with (hasPermission db e teacherId).
  rewrite Hperm. cbn [negb].
  assert (status_eqb (Election.status e) active
          || status_eqb (Election.status e) completed = false) as ->.
  { destruct Hst as [-> | ->]; reflexivity. }
  cbn [candidates]. rewrite Hcand.
  unfold findUser. cbn [users]. rewrite Huid.
  now rewrite find_deleteUserDoc_same.
Qed.

Lemma removeCandidate_after_deleteUser_witness :
  snd (removeCandidate
         (fst (deleteUser (with_elections [Sample.called_off] Sample.db)
                          30%N 101%N))
         30%N 10%N Sample.candA)
  = Thrown.
Proof.
  assert (uniqueUsers (with_elections [Sample.called_off] Sample.db))
    as Huniq.
  { unfold uniqueUsers. cbn. repeat constructor; cbn; intros H;
      repeat destruct H as [H|H]; try discriminate H; exact H. }
  destruct (removeCandidate_after_deleteUser
              (with_elections [Sample.called_off] Sample.db)
              30%N 30%N 10%N Sample.candA Sample.called_off
              (Candidate.mk Sample.candA 101%N 10%N true true)
              Huniq eq_refl eq_refl (or_intror eq_refl) eq_refl eq_refl)
    as (_ & _ & Hrun).
  cbn [Candidate.student] in Hrun. now rewrite Hrun.
Defined.

(** ** Generating the voting link *)

Lemma find_replaceFirst_only (p : Election.t -> bool) (e' : Election.t)
      (es : list Election.t) :
  (forall x, In x es -> p x = false) ->
  In (Election._id e') (map Election._id es) ->
  find p (replaceFirst e' es) = if p e' then Some e' else None.
Proof.
  induction es as [|x es IH]; simpl; intros Hno Hin; [destruct Hin|].
  destruct (oid_eqb (Election._id x) (Election._id e')) eqn:E; simpl.
  - destruct (p e'); [reflexivity|].
    apply find_none_iff. intros y Hy. apply Hno. now right.
  - rewrite (Hno x (or_introl eq_refl)). apply IH.
    + intros y Hy. apply Hno. now right.
    + destruct Hin as [Hin|Hin]; [|assumption].
      apply oid_eqb_neq in E. contradiction.
Qed.

Lemma generateElectionQR_run (db : DB) (role : option Role.t)
      (id : ObjectId) (randomHex dataURL : string) (e : Election.t) :
  mayManageQR role = true -> findElection db id = Some e ->
  generateElectionQR db role id randomHex dataURL
  = (saveElection db
       (Election.set_qrCode
          (QrCode.mk (Some dataURL)
             (if truthy (tokenOf e) then tokenOf e else Some randomHex)
             (QrCode.isEnabled (Election.qrCode e)))
          e),
     JsonOk).
Proof.
  intros Hrole Hfind. unfold generateElectionQR.
  now rewrite Hrole, Hfind.
Qed.

(** X23: the first [generateElectionQR] of an election gives it the random
    token, and the public link made of that token then resolves to this
    election if its QR access is switched on, and to nothing if it is off,
    provided the random string is not empty and no stored election holds it
    already.  Generating again, with whatever random string, keeps the
    token. *)
Theorem generated_link_resolves (db : DB) (role : option Role.t)
    (id : ObjectId) (randomHex dataURL : string) (e : Election.t) :
  mayManageQR role = true -> findElection db id = Some e ->
  truthy (tokenOf e) = false -> randomHex <> "" ->
  (forall x, In x (elections db) -> tokenOf x <> Some randomHex) ->
  let db' := fst (generateElectionQR db role id randomHex dataURL) in
  option_map tokenOf (findElection db' id) = Some (Some randomHex)
  /\ findByToken db' randomHex
     = (if QrCode.isEnabled (Election.qrCode e) then findElection db' id
        else None)
  /\ forall hex data,
       option_map tokenOf
         (findElection (fst (generateElectionQR db' role id hex data)) id)
       = Some (Some randomHex).
Proof.
  intros Hrole Hfind Hnone Hhex Hfree db'. subst db'.
  rewrite (generateElectionQR_run db role id randomHex dataURL e Hrole Hfind).
  rewrite Hnone. cbn [fst].
  set (e' := Election.set_qrCode
               (QrCode.mk (Some dataURL) (Some randomHex)
                          (QrCode.isEnabled (Election.qrCode e))) e).
  assert (findElection (saveElection db e') id = Some e') as Hfind'.
  { apply (findElection_save db id e); [exact Hfind | now destruct e]. }
  rewrite Hfind'. split; [now destruct e|]. split.
  - unfold findByToken. cbn [elections saveElection with_elections].
    rewrite find_replaceFirst_only.
    + subst e'. destruct e; cbn. now rewrite String.eqb_refl.
    + intros x Hx. specialize (Hfree x Hx). unfold tokenOf in Hfree.
      destruct (QrCode.accessToken (Election.qrCode x)) as [t|];
        [|reflexivity].
      cbn. destruct (String.eqb t randomHex) eqn:E; [|reflexivity].
      apply String.eqb_eq in E. congruence.
    + destruct (findElection_In db id e Hfind) as [Hin _].
      replace (Election._id e') with (Election._id e) by now destruct e.
      now apply in_map.
  - intros hex data.
    rewrite (generateElectionQR_run _ role id hex data e' Hrole Hfind').
    cbn [fst]. rewrite saveElection_twice by reflexivity.
    erewrite findElection_save; [| exact Hfind | now destruct e].
    cbn [option_map]. f_equal.
    assert (tokenOf e' = Some randomHex) as Ht by now destruct e.
    unfold tokenOf at 1. cbn [Election.qrCode Election.set_qrCode].
    rewrite Ht.
    assert (truthy (Some randomHex) = true) as ->.
    { cbn. apply negb_true_iff. now apply String.eqb_neq. }
    now destruct e'.
Qed.

Lemma generated_link_resolves_witness :
  option_map Election._id
    (findByToken
       (fst (generateElectionQR Walkthrough.planning (Some Role.teacher)
                                12%N "a1b2" "data:image/png"))
       "a1b2")
  = Some 12%N.
Proof.
  assert (forall x, In x (elections Walkthrough.planning) ->
                    tokenOf x <> Some "a1b2") as Hfree.
  { intros x [<-|[<-|[]]]; discriminate. }
  destruct (generated_link_resolves Walkthrough.planning (Some Role.teacher)
              12%N "a1b2" "data:image/png" Walkthrough.upcoming
              eq_refl eq_refl eq_refl ltac:(discriminate) Hfree)
    as (_ & Hlink & _).
  rewrite Hlink. reflexivity.
Defined.

(** ** Deleting a class *)

Lemma filter_length_zero {A} (p : A -> bool) (l : list A) :
  (0 <? List.length (filter p l))%nat = false
  <-> forall x, In x l -> p x = false.
Proof.
  split; [apply filter_empty_length|].
  intros H. apply Nat.ltb_ge.
  induction l as [|a l IH]; simpl; [lia|].
  rewrite (H a (or_introl eq_refl)). apply IH. intros x Hx. apply H.
  now right.
Qed.

(** X24: [deleteClass] goes through exactly when the class exists and neither
    a user of any role nor an election of any status refers to it; it then
    takes one class document away and touches nothing else.  In every other
    case the database is left as it was. *)
Theorem deleteClass_effect (db : DB) (id : ObjectId) :
  (isSuccess (snd (deleteClass db id)) = true
   <-> In id (map Class._id (classes db))
       /\ (forall u, In u (users db) -> User.class u <> Some id)
       /\ (forall e, In e (elections db) -> Election.class e <> id))
  /\ (if isSuccess (snd (deleteClass db id))
      then fst (deleteClass db id)
           = mkDB (users db) (deleteClassDoc id (classes db))
                  (elections db) (candidates db)
      else fst (deleteClass db id) = db).
Proof.
  unfold deleteClass.
  destruct (find (fun c => oid_eqb (Class._id c) id) (classes db))
    as [cls|] eqn:Hcls.
  - pose proof (find_some _ _ Hcls) as [Hin Hid]. apply oid_eqb_eq in Hid.
    assert (In id (map Class._id (classes db))) as Hhere
      by (rewrite <- Hid; now apply in_map).
    destruct (0 <? List.length
                     (filter (fun u => match User.class u with
                                       | Some c => oid_eqb c id
                                       | None => false
                                       end) (users db)))%nat eqn:Hus.
    + cbn [fst snd isSuccess]. split; [|reflexivity].
      split; [discriminate|]. intros (_ & Hno & _). exfalso.
      assert ((0 <? List.length
                      (filter (fun u => match User.class u with
                                        | Some c => oid_eqb c id
                                        | None => false
                                        end) (users db)))%nat = false)
        as Hz; [|congruence].
      apply filter_length_zero. intros u Hu. specialize (Hno u Hu).
      destruct (User.class u) as [c|]; [|reflexivity].
      apply oid_eqb_neq. congruence.
    + pose proof (filter_empty_length _ _ Hus) as Hnou.
      destruct (0 <? List.length
                       (filter (fun e => oid_eqb (Election.class e) id)
                               (elections db)))%nat eqn:Hes.
      * cbn [fst snd isSuccess]. split; [|reflexivity].
        split; [discriminate|]. intros (_ & _ & Hno). exfalso.
        assert ((0 <? List.length
                        (filter (fun e => oid_eqb (Election.class e) id)
                                (elections db)))%nat = false)
          as Hz; [|congruence].
        apply filter_length_zero. intros e He. apply oid_eqb_neq.
        now apply Hno.
      * pose proof (filter_empty_length _ _ Hes) as Hnoe.
        cbn [fst snd isSuccess]. rewrite Hid. split; [|reflexivity].
        split; [|reflexivity]. intros _. split; [exact Hhere|]. split.
        -- intros u Hu Hc. specialize (Hnou u Hu). cbv beta in Hnou.
           rewrite Hc, oid_eqb_refl in Hnou. discriminate Hnou.
        -- intros e He. apply oid_eqb_neq. now apply Hnoe.
  - cbn [fst snd isSuccess]. split; [|reflexivity].
    split; [discriminate|]. intros (Hin & _). exfalso.
    apply in_map_iff in Hin. destruct Hin as (c & Hc & Hin).
    pose proof (find_none _ _ Hcls c Hin) as Hno. cbn in Hno.
    rewrite Hc, oid_eqb_refl in Hno. discriminate Hno.
Qed.

Example deleteClass_counts_the_teacher :
  deleteClass Sample.db 20%N
  = (Sample.db,
     FlashError
       "Cannot delete class with 3 students. Please reassign or delete students first.").
Proof. reflexivity. Qed.

(** ** The student's pages *)

Lemma populateClass_id (db : DB) (u : User.t) (cls : Class.t) :
  populateClass db u = Some cls ->
  User.class u = Some (Class._id cls)
  /\ find (fun c => oid_eqb (Class._id c) (Class._id cls)) (classes db)
     = Some cls.
Proof.
  unfold populateClass. destruct (User.class u) as [cid|]; [|discriminate].
  intros Hfind. pose proof (find_some _ _ Hfind) as [_ Hid].
  apply oid_eqb_eq in Hid. now rewrite Hid.
Qed.

Lemma firstn_In_incl {A} (n : nat) (l : list A) (x : A) :
  In x (firstn n l) -> In x l.
Proof.
  revert l. induction n as [|n IH]; intros [|a l]; simpl; try tauto.
  intros [->|H]; auto.
Qed.

(** X25: the dashboard and the page of all elections agree.  Whenever the
    dashboard is rendered, the page of all elections is too, with the same
    active and the same upcoming elections, and each of the at most five
    completed elections of the dashboard is among its past elections with
    its results published.  The two differ for a student without a class:
    the page of all elections answers with a flash message, the dashboard
    with an exception. *)
Theorem dashboard_agrees_with_lists (db : DB) (studentId : ObjectId)
    (now : Date) :
  match Student.getDashboard db studentId now with
  | Student.DashPage d =>
      exists ls,
        getAllElections db studentId now = Some ls
        /\ Student.dashActive d = activeElections ls
        /\ Student.dashUpcoming d = upcomingElections ls
        /\ (List.length (Student.dashCompleted d) <= 5)%nat
        /\ forall e, In e (Student.dashCompleted d) ->
                     shownPast ls e
                     /\ Election.status e = completed
                     /\ Results.published (Election.results e) = true
  | Student.DashThrown =>
      is_some (findUser db studentId) = true
      /\ getAllElections db studentId now = None
  | Student.DashLogin =>
      findUser db studentId = None
      /\ getAllElections db studentId now = None
  end.
Proof.
  unfold Student.getDashboard, getAllElections.
  destruct (findUser db studentId) as [u|]; [|split; reflexivity].
  destruct (populateClass db u) as [cls|]; [|split; reflexivity].
  eexists. split; [reflexivity|].
  cbn [Student.dashActive Student.dashUpcoming Student.dashCompleted
       activeElections upcomingElections pastElections].
  split; [reflexivity|]. split; [reflexivity|]. split.
  - apply firstn_le_length.
  - intros e He. apply firstn_In_incl in He.
    apply sortBy_In in He. apply filter_In in He. destruct He as [Hin Hq].
    unfold Student.completedQuery in Hq.
    apply andb_true_iff in Hq. destruct Hq as [Hq Hpub].
    apply andb_true_iff in Hq. destruct Hq as [Hcl Hst].
    split; [|split; [now apply status_eqb_eq | exact Hpub]].
    unfold shownPast. cbn [pastElections].
    rewrite map_map. cbn [fst]. rewrite map_id.
    apply sortBy_In. apply filter_In. split; [exact Hin|].
    unfold pastQuery. now rewrite Hcl, Hst.
Qed.

(** X26: the student's own page of an election and the public election page
    agree.  With unique election ids, when the student's page is rendered
    for an election of the student's class, the public page opened by the
    same student shows the same election, says the student can vote, carries
    the same has-voted flag, and shows the same tallies and winner, or none
    alike when the results are not published. *)
Theorem student_details_agree_with_public_page (db : DB)
    (studentId id : ObjectId) (e : Election.t) (voted : bool)
    (stats : option VoteCount) (winner : option Candidate.t) :
  uniqueIds db ->
  Student.getElectionDetails db studentId id
  = Student.Details e voted stats winner ->
  exists p,
    getElectionById db id (Some (studentId, Role.student)) = Page p
    /\ pageElection p = e
    /\ userCanVote p = true
    /\ pageHasVoted p = voted
    /\ option_map statsCandidateVotes (voteStats p) = stats
    /\ pageWinner p = winner.
Proof.
  intros Huniq Hrun. unfold Student.getElectionDetails in Hrun.
  destruct (findUser db studentId) as [u|] eqn:Hu; [|discriminate Hrun].
  destruct (populateClass db u) as [cls|] eqn:Hcls; [|discriminate Hrun].
  destruct (populateClass_id db u cls Hcls) as [Hcid Hclass].
  destruct (find (fun x => oid_eqb (Election._id x) id
                           && oid_eqb (Election.class x) (Class._id cls))
                 (elections db)) as [e0|] eqn:Hfind; [|discriminate Hrun].
  pose proof (find_some _ _ Hfind) as [Hin Hq].
  apply andb_true_iff in Hq. destruct Hq as [Hid Hecl].
  apply oid_eqb_eq in Hid, Hecl.
  assert (findElection db id = Some e0) as Hfound.
  { unfold findElection.
    destruct (find (fun x => oid_eqb (Election._id x) id) (elections db))
      as [x|] eqn:Hx.
    - apply find_some in Hx. destruct Hx as [Hxin Hxid].
      apply oid_eqb_eq in Hxid. f_equal.
      apply (uniqueIds_same db); congruence.
    - pose proof (find_none _ _ Hx e0 Hin) as Hno. cbn in Hno.
      rewrite Hid, oid_eqb_refl in Hno. discriminate Hno. }
  unfold getElectionById. rewrite Hfound, Hu, Hcid, Hecl, Hclass.
  rewrite oid_eqb_refl. cbn [option_map fst orb].
  rewrite orb_false_r.
  destruct (status_eqb (Election.status e0) completed
            && Results.published (Election.results e0));
    injection Hrun as <- <- <- <-; eexists; split; try reflexivity;
    cbn; repeat split.
Qed.

Lemma student_details_agree_with_public_page_witness :
  exists p,
    getElectionById Walkthrough.oneBallot 10%N (Some (101%N, Role.student))
    = Page p
    /\ userCanVote p = true /\ pageHasVoted p = true.
Proof.
  assert (uniqueIds Walkthrough.oneBallot) as Huniq.
  { unfold uniqueIds. cbn. repeat constructor. intros []. }
  destruct (student_details_agree_with_public_page Walkthrough.oneBallot
              101%N 10%N
              (Election.set_votes [Vote.mk 101%N Sample.candA 1500]
                                  Sample.blank)
              true None None Huniq eq_refl)
    as (p & Hpage & _ & Hcan & Hvoted & _).
  exists p. repeat split; assumption.
Defined.

(** ** The lifecycle under every writing request *)

Lemma save_keeps_status (db : DB) (k i : ObjectId) (x x' e : Election.t) :
  findElection db k = Some x ->
  Election._id x' = Election._id x ->
  Election.status x' = Election.status x ->
  findElection db i = Some e ->
  exists e', findElection (saveElection db x') i = Some e'
             /\ Election.status e' = Election.status e.
Proof.
  intros Hk Hid Hst Hi.
  destruct (findElection_In db k x Hk) as [_ Hxk].
  destruct (N.eq_dec i k) as [->|Hne].
  - rewrite Hk in Hi. injection Hi as <-. exists x'. split; [|exact Hst].
    now apply (findElection_save db k x).
  - exists e. split; [|reflexivity].
    rewrite findElection_other; [exact Hi | congruence].
Qed.

Lemma handle_keeps_terminal (db : DB) (r : Request) (i : ObjectId)
      (e : Election.t) :
  uniqueIds db -> adminForm r = false ->
  findElection db i = Some e -> terminal (Election.status e) ->
  match findElection (fst (handle db r)) i with
  | Some e' => Election.status e' = Election.status e
  | None => r = DeleteElection i
  end.
Proof.
  intros Huniq Hform Hfind Hterm.
  destruct r as [c| role k st en | t k s sy n | k | k | a k]; simpl.
  - destruct (serve_keeps_terminal db c i e Huniq Hform Hfind Hterm)
      as (e' & -> & Hst). exact Hst.
  - unfold addVotingTimeSlot.
    destruct (negb (mayManageQR role)); [cbn [fst]; now rewrite Hfind|].
    destruct (findElection db k) as [x|] eqn:Hk; [|cbn [fst]; now rewrite Hfind].
    destruct (date_ge st en); [cbn [fst]; now rewrite Hfind|].
    destruct st as [s0|], en as [t0|]; try (cbn [fst]; now rewrite Hfind).
    destruct (save_keeps_status db k i x
                (pushTimeSlot (TimeSlot.mk s0 t0 true) x) e Hk
                eq_refl eq_refl Hfind) as (e' & Hf & Hst).
    cbn [fst]. now rewrite Hf.
  - unfold addCandidate.
    destruct (findElection db k) as [x|] eqn:Hk; [|cbn [fst]; now rewrite Hfind].
    destruct (negb (hasPermission db x t)); [cbn [fst]; now rewrite Hfind|].
    destruct (status_eqb (Election.status x) completed
              || status_eqb (Election.status x) cancelled);
      [cbn [fst]; now rewrite Hfind|].
    destruct (findClassStudent db s (Election.class x));
      [|cbn [fst]; now rewrite Hfind].
    destruct (findCandidacy db s k); [cbn [fst]; now rewrite Hfind|].
    destruct (negb (includesSymbol sy)); [cbn [fst]; now rewrite Hfind|].
    destruct (save_keeps_status
                (with_candidates
                   (candidates db ++ [Candidate.mk n s k true true]) db)
                k i x
                (Election.set_candidates (Election.candidates x ++ [n]) x)
                e Hk) as (e' & Hf & Hst);
      [now destruct x | now destruct x | exact Hfind |].
    cbn [fst]. now rewrite Hf.
  - unfold deleteElection.
    destruct (findElection db k) as [x|] eqn:Hk; [|cbn [fst]; now rewrite Hfind].
    destruct (status_eqb (Election.status x) active); [cbn [fst]; now rewrite Hfind|].
    cbn [fst]. destruct (findElection_In db k x Hk) as [_ Hxk].
    unfold findElection. cbn [elections]. rewrite Hxk.
    destruct (N.eq_dec i k) as [->|Hne].
    + now rewrite find_deleteElectionDoc_same.
    + rewrite find_deleteElectionDoc_other by assumption.
      unfold findElection in Hfind. now rewrite Hfind.
  - unfold deleteClass.
    assert (forall d : DB * Outcome,
               elections (fst d) = elections db ->
               match findElection (fst d) i with
               | Some e' => Election.status e' = Election.status e
               | None => DeleteClass k = DeleteElection i
               end) as Hsame.
    { intros d Hd. unfold findElection in *. now rewrite Hd, Hfind. }
    apply Hsame. split_handler; reflexivity.
  - unfold deleteUser.
    assert (forall d : DB * Outcome,
               elections (fst d) = elections db ->
               match findElection (fst d) i with
               | Some e' => Election.status e' = Election.status e
               | None => DeleteUser a k = DeleteElection i
               end) as Hsame.
    { intros d Hd. unfold findElection in *. now rewrite Hd, Hfind. }
    apply Hsame. split_handler; reflexivity.
Qed.

Lemma updateElectionStatus_assigns (db : DB) (i : ObjectId)
      (status : option string) (now : Date) (st : Status) (e : Election.t) :
  findElection db i = Some e -> status_of_string status = Some st ->
  exists e',
    findElection (fst (updateElectionStatus db i status now)) i = Some e'
    /\ Election.status e' = st.
Proof.
  intros Hfind Hst. unfold updateElectionStatus. rewrite Hst, Hfind.
  destruct (str_is status "completed") eqn:Hc.
  - assert (st = completed) as ->.
    { destruct status as [t|]; [|discriminate]. simpl in Hc.
      apply String.eqb_eq in Hc. subst t. vm_compute in Hst.
      congruence. }
    pose proof (calculateResults_state db (Election.set_status completed e)
                  now) as Hstate.
    destruct (calculateResults db (Election.set_status completed e) now)
      as [[d x] t]. cbn [fst] in *.
    destruct (snd (pickWinner
                     (groupVotes
                        (Election.votes (Election.set_status completed e)))))
      as [w|]; injection Hstate as -> ->.
    + exists (Election.set_status completed
                (Election.set_results (Results.mk true (Some now) (Some w))
                   (Election.set_status completed e))).
      split; [|reflexivity].
      rewrite saveElection_twice by reflexivity.
      apply (findElection_save db i e); [exact Hfind | now destruct e].
    + exists (Election.set_status completed e). split; [|reflexivity].
      apply (findElection_save db i e); [exact Hfind | now destruct e].
  - exists (Election.set_status st e). split; [|reflexivity].
    cbn [fst]. apply (findElection_save db i e); [exact Hfind|].
    now destruct e.
Qed.

(** C5, as amended: a completed or cancelled election keeps its status under
    every request except the admin's status form: under [updateElection],
    [publishResults], [castVote], the public vote, the QR and time-slot
    handlers, [createElection], [addCandidate], [removeCandidate],
    [deleteClass] and [deleteUser] it is still stored with the status it
    had, and [deleteElection] either leaves it so or, asked for this very
    election, deletes it.  [calculateResults] leaves a completed election
    completed.  The admin's [updateElectionStatus] assigns whichever of the
    four statuses it is given, whatever the current one. *)
Theorem terminal_status_is_kept (db : DB) (r : Request) (i : ObjectId)
    (e : Election.t) :
  uniqueIds db -> findElection db i = Some e ->
  (terminal (Election.status e) -> adminForm r = false ->
   match findElection (fst (handle db r)) i with
   | Some e' => Election.status e' = Election.status e
   | None => r = DeleteElection i
   end)
  /\ (forall now, Election.status e = completed ->
        Election.status (snd (fst (calculateResults db e now))) = completed)
  /\ (forall status now st, status_of_string status = Some st ->
        exists e',
          findElection (fst (updateElectionStatus db i status now)) i
          = Some e'
          /\ Election.status e' = st).
Proof.
  intros Huniq Hfind. split; [|split].
  - intros Hterm Hform. now apply handle_keeps_terminal.
  - intros now Hcomp.
    pose proof (calculateResults_keepsTerminal db e now) as [_ Hk];
      [congruence|].
    rewrite Hk; [assumption | now left].
  - intros status now st Hst.
    now apply (updateElectionStatus_assigns db i status now st e).
Qed.

Lemma terminal_status_is_kept_witness :
  option_map Election.status
    (findElection
       (fst (handle (with_elections [Sample.finished] Sample.db)
               (Earlier (UpdateElection 30%N 10%N (Some "New title") None
                                        None None (Some "cancelled") 2500))))
       10%N)
  = Some completed
  /\ (exists e',
        findElection
          (fst (updateElectionStatus
                  (with_elections [Sample.finished] Sample.db) 10%N
                  (Some "pending") 2500)) 10%N = Some e'
        /\ Election.status e' = pending).
Proof.
  assert (uniqueIds (with_elections [Sample.finished] Sample.db)) as Huniq.
  { unfold uniqueIds. simpl. repeat constructor. simpl. tauto. }
  destruct (terminal_status_is_kept
              (with_elections [Sample.finished] Sample.db)
              (Earlier (UpdateElection 30%N 10%N (Some "New title") None None
                                       None (Some "cancelled") 2500))
              10%N Sample.finished Huniq eq_refl)
    as (Hkept & _ & Hadmin).
  split.
  - specialize (Hkept (or_introl eq_refl) eq_refl).
    destruct (findElection
                (fst (handle (with_elections [Sample.finished] Sample.db)
                        (Earlier (UpdateElection 30%N 10%N (Some "New title")
                                    None None None (Some "cancelled")
                                    2500)))) 10%N) as [e'|].
    + simpl. now rewrite Hkept.
    + discriminate Hkept.
  - apply (Hadmin (Some "pending") 2500 pending). reflexivity.
Defined.

Example deleteElection_removes_a_completed_election :
  findElection
    (fst (handle (with_elections [Sample.finished] Sample.db)
                 (DeleteElection 10%N))) 10%N
  = None.
Proof. reflexivity. Qed.
